(** * HSE TrolleyGAR scraper: table decoding and threshold inference

    A shallow embedding of the parsing and inference code of the repository:

    - [get_colors/scrape_colors.py]: [extract_color], [scrape_with_colors],
      [scrape_with_colors_v2], [scrape_date_range], [find_color_boundaries];
    - [get_colors/analyze_boundaries.py]: [analyze_hospital_thresholds],
      [find_exact_boundaries];
    - [old_code/scrape_hse_data.py]: [scrape_hse_trolleygar], [save_to_csv],
      [scrape_date_range], [save_to_sqlite], [remove_duplicates_from_db],
      [update_daily];
    - [dash_app/app.py]: [highlight_row].

    Conventions of the embedding.

    - A BeautifulSoup cell is a record of what the code reads from it: its
      stripped text, its [colspan] as [int(...)] yields it, its class list and
      its [width] attribute.
    - Python strings are [string]s (byte strings, UTF-8 for text outside ASCII).
    - A pandas frame is the list of its rows, in index order.  The column
      [total_num] produced by [pd.to_numeric(..., errors='coerce')] is an
      [option Z]: [None] is NaN.  Counts are whole numbers.  pandas keeps
      them as int64, or as float64 as soon as the column misses a value:
      adding one wraps at 2^63 in the first (written out as [int64_add]) and
      stops being exact at 2^53 in the second, so the theorems about
      thresholds assume counts below 2^53 in size ([exact_counts]), where
      both are the arithmetic of [Z].
    - A colour read back from a file is text, or NaN where the file had
      nothing: an [option string].  NaN differs from every value, itself
      included ([color_ne]).
    - [sort_values] is pandas' default (quicksort), which promises an
      ascending arrangement of the rows and nothing about ties: it is a
      parameter of the functions that call it, and the theorems assume only
      that contract.  [stable_sort_values] is one instance, used to run the
      functions on concrete frames.
    - A CSV file is the frame whose text it holds, cell by cell: text, a
      number or nothing.  [pd.read_csv] types every column anew from its
      text, so it is a parameter of [save_to_csv]; [read_csv_plain] is an
      instance for files of plain numbers and text.
    - A request ([requests.get] up to [soup.find('table')]) is a function
      from the address to what it raises or returns; the clock and the
      rendering of dates are parameters.
    - A [while] loop over a cursor is a fixpoint on fuel; the cursor grows by
      at least one per turn, so the number of cells is enough fuel, and the
      exit lemmas show the loops leave through their own test. *)

From Stdlib Require Import String Ascii List ZArith Bool Arith Lia.
From Stdlib Require Import Permutation Sorted.
From Stdlib Require OrderedTypeEx.
Import ListNotations.

Local Open Scope string_scope.
Local Open Scope list_scope.

(* ===================================================================== *)
(** ** Python string operations used by the scrapers *)
(* ===================================================================== *)

Module PyStr.

(** [c.lower()] on one byte: ASCII upper-case letters move down, every
    other byte stays.  On valid UTF-8 the bytes of a character above U+007F
    are all above 127, and no such character lower-cases to a letter of the
    keywords searched for here (they have no [k] and no [i]), so the byte
    view and Python's code-point view agree on every test below. *)
Definition lower_ascii (c : ascii) : ascii :=
  let n := nat_of_ascii c in
  if ((65 <=? n) && (n <=? 90))%nat then ascii_of_nat (n + 32) else c.

Fixpoint lower (s : string) : string :=
  match s with
  | EmptyString => EmptyString
  | String c s' => String (lower_ascii c) (lower s')
  end.

(** [s.startswith(p)] *)
Definition startswith (p s : string) : bool := String.prefix p s.

(** [sub in s]: some suffix of [s] starts with [sub]. *)
Fixpoint contains (sub s : string) : bool :=
  String.prefix sub s
  || match s with
     | EmptyString => false
     | String _ s' => contains sub s'
     end.

(** [s.endswith(suf)]: some suffix of [s] is [suf]. *)
Fixpoint endswith (suf s : string) : bool :=
  String.eqb s suf
  || match s with
     | EmptyString => false
     | String _ s' => endswith suf s'
     end.

(** Truthiness of a string: [if s:] *)
Definition truthy (s : string) : bool := negb (String.eqb s "").

(** [x in [a, b, ...]] for an attribute that may be missing ([None]). *)
Definition opt_in (x : option string) (l : list string) : bool :=
  match x with
  | None => false
  | Some s => existsb (String.eqb s) l
  end.

(** [sorted(...)] on strings, as a stable insertion sort on the byte order
    (which is the code-point order on UTF-8). *)
Fixpoint insert_sorted (x : string) (l : list string) : list string :=
  match l with
  | [] => [x]
  | y :: l' => if String.leb x y then x :: l else y :: insert_sorted x l'
  end.

Definition sorted (l : list string) : list string :=
  fold_right insert_sorted [] l.

End PyStr.

(* ===================================================================== *)
(** ** Table cells *)
(* ===================================================================== *)

Record Cell : Type := mkCell {
  text : string;            (* cell.get_text(strip=True) *)
  colspan : Z;              (* int(cell.get('colspan', 1)) *)
  classes : list string;    (* cell.get('class', []) *)
  width : option string     (* cell.get('width') *)
}.

(** pandas' [unique()] and [drop_duplicates()]: first occurrences, in order
    of appearance. *)
Section Unique.
Context {A : Type} (eqb : A -> A -> bool).

Fixpoint unique_from (seen : list A) (l : list A) : list A :=
  match l with
  | [] => []
  | x :: l' =>
      if existsb (eqb x) seen then unique_from seen l'
      else x :: unique_from (x :: seen) l'
  end.

Definition unique (l : list A) : list A := unique_from [] l.
End Unique.

(* ===================================================================== *)
(** ** The columns of a frame that the boundary analyses read *)
(* ===================================================================== *)

Module Frame.

(** One row of the frame after the [pd.to_numeric] line.  [N] is
    [option Z] for the frame as loaded (NaN is [None]) and [Z] once
    [dropna] has removed the rows without a number. *)
Record Row (N : Type) : Type := mkRow {
  date : string;
  hospital : string;
  total_num : N;
  total_color : option string   (* [None] is NaN: no colour in the file *)
}.
Arguments mkRow {N} _ _ _ _.
Arguments date {N} _.
Arguments hospital {N} _.
Arguments total_num {N} _.
Arguments total_color {N} _.

(** [a != b] on two colour cells: NaN is unequal to everything, NaN
    included. *)
Definition color_ne (a b : option string) : bool :=
  match a, b with
  | Some x, Some y => negb (String.eqb x y)
  | _, _ => true
  end.

(** [a == c] for a colour cell and a literal. *)
Definition color_is (c : string) (a : option string) : bool :=
  match a with
  | Some x => String.eqb x c
  | None => false
  end.

(** A colour cell as an f-string prints it. *)
Definition show_color (a : option string) : string :=
  match a with
  | Some x => x
  | None => "nan"
  end.

(** [df[df['hospital'] == hospital]] *)
Definition select_hospital {N} (h : string) (df : list (Row N)) : list (Row N) :=
  filter (fun r => String.eqb (hospital r) h) df.

(** [hosp_data.dropna(subset=[...])] *)
Fixpoint dropna (df : list (Row (option Z))) : list (Row Z) :=
  match df with
  | [] => []
  | r :: df' =>
      match total_num r with
      | Some n => mkRow (date r) (hospital r) n (total_color r) :: dropna df'
      | None => dropna df'
      end
  end.

(** The contract of [sort_values] on a NaN-free frame: the same rows,
    counts ascending. *)
Definition count_le (a b : Row Z) : Prop := (total_num a <= total_num b)%Z.

Definition sort_contract (sort_values : list (Row Z) -> list (Row Z)) : Prop :=
  forall l, Permutation l (sort_values l) /\ Sorted count_le (sort_values l).

(** A stable instance, for running the analyses. *)
Fixpoint insert_by_count (x : Row Z) (l : list (Row Z)) : list (Row Z) :=
  match l with
  | [] => [x]
  | y :: l' =>
      if (total_num x <=? total_num y)%Z then x :: l
      else y :: insert_by_count x l'
  end.

Definition stable_sort_values (l : list (Row Z)) : list (Row Z) :=
  fold_right insert_by_count [] l.

(** Consecutive rows of a frame, as the [prev]/[row] scans see them. *)
Definition adjacent_pairs {A} (l : list A) : list (A * A) := combine l (tl l).

End Frame.

(* ===================================================================== *)
(** ** get_colors/scrape_colors.py *)
(* ===================================================================== *)

Module ScrapeColors.
Import PyStr.

(** The three tests made on one class, in the order of the [if]/[elif]
    chain. *)
Definition has_green (cls : string) : bool := contains "green" (lower cls).
Definition has_red (cls : string) : bool := contains "red" (lower cls).
Definition has_amber (cls : string) : bool :=
  contains "orange" (lower cls) || contains "amber" (lower cls)
  || contains "yellow" (lower cls).

(** [extract_color]: the [for cls in classes] loop; the first class that
    passes one of the tests decides. *)
Fixpoint extract_color_classes (cls_list : list string) : string :=
  match cls_list with
  | [] => "none"
  | cls :: rest =>
      if has_green cls then "green"
      else if has_red cls then "red"
      else if has_amber cls then "amber"
      else extract_color_classes rest
  end.

Definition extract_color (cell : Cell) : string :=
  extract_color_classes (classes cell).

(** A record of the scraped frame.  The two scrapers fill different keys;
    a key a scraper does not set is [None] (NaN once in the frame). *)
Record ColorRecord : Type := mkColorRecord {
  date : string;
  hospital : string;
  ed_trolleys : option string;
  ward_trolleys : option string;
  total_trolleys : option string;
  total_color : string;
  surge : option string;
  surge_color : option string;
  delayed : option string;
  delayed_color : option string;
  gt_24hrs : option string;
  gt_75_24hrs : option string
}.

(** *** [scrape_with_colors]: one entity per table row *)

Record DataCell : Type := mkDataCell {
  dvalue : string;
  dcolor : string;
  dwidth : option string
}.

Definition is_data_cell (cell : Cell) : bool :=
  (colspan cell =? 1)%Z && opt_in (width cell) ["10"; "50"; "30"].

(** The list built by the loop over [cells[1:]]. *)
Definition data_cells_of (rest : list Cell) : list DataCell :=
  map (fun cell => mkDataCell (text cell) (extract_color cell) (width cell))
      (filter is_data_cell rest).

(** [values = [c for c in data_cells if c['value'] and c['value'] != '']] *)
Definition nonempty_values (data_cells : list DataCell) : list DataCell :=
  filter (fun c => truthy (dvalue c) && negb (String.eqb (dvalue c) "")) data_cells.

(** The body of the loop over rows: the record appended for this row, if
    any ([None] stands for every [continue] and every failed [if]). *)
Definition row_record (date_str : string) (cells : list Cell) : option ColorRecord :=
  if (length cells <? 5)%nat then None
  else
    match cells with
    | [] => None
    | first_cell :: rest =>
        if (8 <=? colspan first_cell)%Z then
          let hospital_name := text first_cell in
          if startswith "HSE " hospital_name && negb (contains "Total" hospital_name)
          then None
          else if negb (truthy hospital_name) then None
          else
            let data_cells := data_cells_of rest in
            if (3 <=? length data_cells)%nat then
              match nonempty_values data_cells with
              | v0 :: v1 :: v2 :: more =>
                  Some {| date := date_str;
                          hospital := hospital_name;
                          ed_trolleys := Some (dvalue v0);
                          ward_trolleys := Some (dvalue v1);
                          total_trolleys := Some (dvalue v2);
                          total_color := dcolor v2;
                          surge := option_map dvalue (nth_error more 0);
                          surge_color := option_map dcolor (nth_error more 0);
                          delayed := option_map dvalue (nth_error more 1);
                          delayed_color := option_map dcolor (nth_error more 1);
                          gt_24hrs := None;
                          gt_75_24hrs := None |}
              | _ => None
              end
            else None
        else None
    end.

Definition append_row (date_str : string) (data : list ColorRecord)
    (cells : list Cell) : list ColorRecord :=
  match row_record date_str cells with
  | Some record => data ++ [record]
  | None => data
  end.

(** [table] is what [soup.find('table')] gave: [None], or the rows of the
    table, each the list of its cells.  The result is [None] where the
    function returns [None], else the rows of the frame. *)
Definition scrape_with_colors (date_str : string)
    (table : option (list (list Cell))) : option (list ColorRecord) :=
  match table with
  | None => None
  | Some rows =>
      match fold_left (append_row date_str) rows [] with
      | [] => None
      | data => Some data
      end
  end.

(** *** [scrape_with_colors_v2]: a cursor over all cells of the table *)

Record Stat : Type := mkStat { value : string; color : string }.

Definition is_regional_header (text : string) : bool :=
  startswith "HSE " text
  && negb (contains "Total" text)
  && negb (endswith "Hospital" text).

(** [if i < len(all_cells) and all_cells[i].get_text(strip=True) == '': i += 1] *)
Definition skip_separator (all_cells : list Cell) (i : nat) : nat :=
  match nth_error all_cells i with
  | Some cell => if String.eqb (text cell) "" then S i else i
  | None => i
  end.

(** [for _ in range(n): if i < len(all_cells): ... stats.append(...); i += 1] *)
Fixpoint collect_stats (n : nat) (all_cells : list Cell) (i : nat)
    (stats : list Stat) : nat * list Stat :=
  match n with
  | O => (i, stats)
  | S n' =>
      match nth_error all_cells i with
      | Some stat_cell =>
          collect_stats n' all_cells (S i)
            (stats ++ [mkStat (text stat_cell) (extract_color stat_cell)])
      | None => collect_stats n' all_cells i stats
      end
  end.

(** [x if x else None] *)
Definition or_none (s : string) : option string :=
  if truthy s then Some s else None.

(** The record built under [if len(stats) >= 11]. *)
Definition stats_record (date_str hospital_name : string) (stats : list Stat)
    : option ColorRecord :=
  match stats with
  | s0 :: s1 :: s2 :: _ :: s4 :: _ :: s6 :: _ :: s8 :: _ :: s10 :: _ =>
      Some {| date := date_str;
              hospital := hospital_name;
              ed_trolleys := or_none (value s0);
              ward_trolleys := or_none (value s1);
              total_trolleys := or_none (value s2);
              total_color := color s2;
              surge := or_none (value s4);
              surge_color := None;
              delayed := or_none (value s6);
              delayed_color := Some (color s6);
              gt_24hrs := or_none (value s8);
              gt_75_24hrs := or_none (value s10) |}
  | _ => None
  end.

(** One turn of the [while] loop, entered with [i < len(all_cells)]. *)
Definition v2_body (date_str : string) (all_cells : list Cell)
    (i : nat) (data : list ColorRecord) : nat * list ColorRecord :=
  match nth_error all_cells i with
  | None => (i, data)
  | Some cell =>
      if (8 <=? colspan cell)%Z && truthy (text cell) then
        if is_regional_header (text cell) then (S i, data)
        else
          let hospital_name := text cell in
          let i := skip_separator all_cells (S i) in
          let '(i, stats) := collect_stats 12 all_cells i [] in
          match stats_record date_str hospital_name stats with
          | Some record => (i, data ++ [record])
          | None => (i, data)
          end
      else (S i, data)
  end.

Fixpoint v2_loop (fuel : nat) (date_str : string) (all_cells : list Cell)
    (i : nat) (data : list ColorRecord) : nat * list ColorRecord :=
  match fuel with
  | O => (i, data)
  | S fuel' =>
      if (i <? length all_cells)%nat then
        let '(i', data') := v2_body date_str all_cells i data in
        v2_loop fuel' date_str all_cells i' data'
      else (i, data)
  end.

(** [table] is [None] or the flat list [table.find_all(['td', 'th'])]. *)
Definition scrape_with_colors_v2 (date_str : string)
    (table : option (list Cell)) : option (list ColorRecord) :=
  match table with
  | None => None
  | Some all_cells =>
      match snd (v2_loop (length all_cells) date_str all_cells 0 []) with
      | [] => None
      | data => Some data
      end
  end.

(** *** [find_color_boundaries] *)

Record ColorBoundary : Type := mkColorBoundary {
  b_hospital : string;
  from_value : Z;
  from_color : option string;
  to_value : Z;
  to_color : option string;
  difference : Z;
  from_date : string;
  to_date : string
}.

(** The rows of [iterrows()] hold Python numbers, so the difference does
    not wrap. *)
Definition boundary_entry (h : string) (prev_row row : Frame.Row Z) : ColorBoundary :=
  {| b_hospital := h;
     from_value := Frame.total_num prev_row;
     from_color := Frame.total_color prev_row;
     to_value := Frame.total_num row;
     to_color := Frame.total_color row;
     difference := (Frame.total_num row - Frame.total_num prev_row)%Z;
     from_date := Frame.date prev_row;
     to_date := Frame.date row |}.

(** The loop over [hospital_data.iterrows()], threading [prev_row] and the
    list [boundaries]. *)
Fixpoint scan_transitions (h : string) (prev_row : option (Frame.Row Z))
    (rows : list (Frame.Row Z)) (boundaries : list ColorBoundary)
    : list ColorBoundary :=
  match rows with
  | [] => boundaries
  | row :: rest =>
      let boundaries :=
        match prev_row with
        | Some p =>
            if Frame.color_ne (Frame.total_color p) (Frame.total_color row)
            then boundaries ++ [boundary_entry h p row]
            else boundaries
        | None => boundaries
        end in
      scan_transitions h (Some row) rest boundaries
  end.

Definition find_color_boundaries
    (sort_values : list (Frame.Row Z) -> list (Frame.Row Z))
    (df : list (Frame.Row (option Z))) : list ColorBoundary :=
  fold_left
    (fun boundaries h =>
       let hospital_data := Frame.select_hospital h df in
       let hospital_data := Frame.dropna hospital_data in
       let hospital_data := sort_values hospital_data in
       scan_transitions h None hospital_data boundaries)
    (unique String.eqb (map Frame.hospital df)) [].

End ScrapeColors.

(* ===================================================================== *)
(** ** get_colors/analyze_boundaries.py *)
(* ===================================================================== *)

Module AnalyzeBoundaries.
Import Frame.

(** [vals.max() if len(vals) > 0 else None], and the same for [min]. *)
Definition series_max (vals : list Z) : option Z :=
  match vals with
  | [] => None
  | v :: vals' => Some (fold_left Z.max vals' v)
  end.

Definition series_min (vals : list Z) : option Z :=
  match vals with
  | [] => None
  | v :: vals' => Some (fold_left Z.min vals' v)
  end.

(** [hosp_data[hosp_data['total_color'] == c]['total_num']] *)
Definition color_vals (c : string) (hosp_data : list (Row Z)) : list Z :=
  map total_num (filter (fun r => color_is c (total_color r)) hosp_data).

(** [green_vals.max()] is a numpy int64 (on a column without NaN), and so
    is the sum [result['green_max'] + 1]: it wraps at 2^63. *)
Definition wrap64 (z : Z) : Z := ((z + 2 ^ 63) mod 2 ^ 64 - 2 ^ 63)%Z.

Definition int64_add (a b : Z) : Z := wrap64 (a + b).

Record Estimate : Type := mkEstimate {
  hospital : string;
  green_max : option Z;
  green_min : option Z;
  green_count : nat;
  amber_max : option Z;
  amber_min : option Z;
  amber_count : nat;
  red_min : option Z;
  red_max : option Z;
  red_count : nat;
  amber_threshold : option Z;
  red_threshold : option Z
}.

(** The first [if]/[elif]/[else] chain. *)
Definition infer_amber_threshold (green_max amber_min : option Z) : option Z :=
  match green_max, amber_min with
  | Some g, Some a => Some (Z.min (int64_add g 1) a)
  | None, Some a => Some a
  | _, None => None
  end.

(** The second chain; its second and third branches assign the same value. *)
Definition infer_red_threshold (green_max amber_max red_min : option Z) : option Z :=
  match amber_max, red_min with
  | Some a, Some r => Some (Z.min (int64_add a 1) r)
  | _, _ =>
      match green_max, red_min with
      | Some _, Some r => Some r
      | _, _ =>
          match red_min with
          | Some r => Some r
          | None => None
          end
      end
  end.

(** The body of the loop over hospitals, after the [National Total] test:
    [None] is the [continue] taken on an empty [hosp_data]. *)
Definition hospital_result (h : string) (df : list (Row (option Z))) : option Estimate :=
  let hosp_data := dropna (select_hospital h df) in
  match hosp_data with
  | [] => None
  | _ =>
      let green_vals := color_vals "green" hosp_data in
      let amber_vals := color_vals "amber" hosp_data in
      let red_vals := color_vals "red" hosp_data in
      let gmax := series_max green_vals in
      let amin := series_min amber_vals in
      let amax := series_max amber_vals in
      let rmin := series_min red_vals in
      Some {| hospital := h;
              green_max := gmax;
              green_min := series_min green_vals;
              green_count := length green_vals;
              amber_max := amax;
              amber_min := amin;
              amber_count := length amber_vals;
              red_min := rmin;
              red_max := series_max red_vals;
              red_count := length red_vals;
              amber_threshold := infer_amber_threshold gmax amin;
              red_threshold := infer_red_threshold gmax amax rmin |}
  end.

Definition analyze_step (df : list (Row (option Z))) (results : list Estimate)
    (h : string) : list Estimate :=
  if String.eqb h "National Total" then results
  else
    match hospital_result h df with
    | Some result => results ++ [result]
    | None => results
    end.

Definition analyze_hospital_thresholds (df : list (Row (option Z))) : list Estimate :=
  fold_left (analyze_step df)
    (PyStr.sorted (unique String.eqb (map Frame.hospital df))) [].

(** What one turn of that loop appends. *)
Definition contribution (df : list (Row (option Z))) (h : string) : list Estimate :=
  if String.eqb h "National Total" then []
  else match hospital_result h df with Some r => [r] | None => [] end.

(** *** [find_exact_boundaries] *)

Record ExactBoundary : Type := mkExactBoundary {
  eb_hospital : string;
  boundary_type : string;
  below_threshold : Z;
  at_threshold : Z;
  proven : bool
}.

(** The arrow of the f-string, U+2192 in UTF-8. *)
Definition arrow : string := "→".

Definition exact_entry (h : string) (prev row : Row Z) : ExactBoundary :=
  {| eb_hospital := h;
     boundary_type :=
       (show_color (total_color prev) ++ arrow ++ show_color (total_color row))%string;
     below_threshold := total_num prev;
     at_threshold := total_num row;
     proven := true |}.

(** [diff == 1 and row['total_color'] != prev['total_color']] *)
Definition is_exact (prev row : Row Z) : bool :=
  (total_num row - total_num prev =? 1)%Z
  && color_ne (total_color row) (total_color prev).

Fixpoint scan_exact (h : string) (prev : option (Row Z)) (rows : list (Row Z))
    (exact_boundaries : list ExactBoundary) : list ExactBoundary :=
  match rows with
  | [] => exact_boundaries
  | row :: rest =>
      let exact_boundaries :=
        match prev with
        | Some p =>
            if is_exact p row then exact_boundaries ++ [exact_entry h p row]
            else exact_boundaries
        | None => exact_boundaries
        end in
      scan_exact h (Some row) rest exact_boundaries
  end.

Definition exact_step (sort_values : list (Row Z) -> list (Row Z))
    (df : list (Row (option Z))) (exact_boundaries : list ExactBoundary)
    (h : string) : list ExactBoundary :=
  if String.eqb h "National Total" then exact_boundaries
  else
    let hosp_data := dropna (select_hospital h df) in
    let hosp_data := sort_values hosp_data in
    scan_exact h None hosp_data exact_boundaries.

Definition find_exact_boundaries (sort_values : list (Row Z) -> list (Row Z))
    (df : list (Row (option Z))) : list ExactBoundary :=
  fold_left (exact_step sort_values df)
    (unique String.eqb (map Frame.hospital df)) [].

End AnalyzeBoundaries.

(* ===================================================================== *)
(** ** old_code/scrape_hse_data.py *)
(* ===================================================================== *)

Module ScrapeHseData.
Import PyStr.

(** The function returns [None] on two paths, each with its own message;
    the embedding keeps them apart. *)
Inductive ScrapeError : Type :=
| NoTableFound        (* "No table found on the page!" *)
| NoMasterRowFound.   (* "Could not find master data row!" *)

Record DailyRow : Type := mkDailyRow {
  Hospital : string;
  ED_Trolleys : option string;
  Ward_Trolleys : option string;
  Total_Trolleys : option string;
  Surge_Capacity_in_Use : option string;
  Delayed_Transfers_of_Care : option string;
  Total_Waiting_gt_24hrs : option string;
  Age_75plus_Waiting_gt_24hrs : option string;
  scrape_date : string;
  report_date : string
}.

(** [sum(1 for c in cells if int(c.get('colspan', 1)) >= 8)] *)
Definition hospital_count (cells : list Cell) : nat :=
  length (filter (fun c => (8 <=? colspan c)%Z) cells).

(** The [for row in rows[2:]] loop with its [break]. *)
Fixpoint first_master_row (rows : list (list Cell)) : option (list Cell) :=
  match rows with
  | [] => None
  | row :: rest =>
      if (50 <=? hospital_count row)%nat then Some row
      else first_master_row rest
  end.

Definition find_master_row (rows : list (list Cell)) : option (list Cell) :=
  first_master_row (skipn 2 rows).

Definition is_regional_header (hospital_name : string) : bool :=
  startswith "HSE " hospital_name
  && negb (endswith "Total" hospital_name)
  && negb (endswith "Hospital" hospital_name).

Definition skip_separator (cells : list Cell) (i : nat) : nat :=
  match nth_error cells i with
  | Some cell => if String.eqb (text cell) "" then S i else i
  | None => i
  end.

(** [for _ in range(n): if i < len(cells): ... else: break] *)
Fixpoint collect_stats (n : nat) (cells : list Cell) (i : nat)
    (stats : list (option string)) : nat * list (option string) :=
  match n with
  | O => (i, stats)
  | S n' =>
      match nth_error cells i with
      | Some cell =>
          let val := text cell in
          collect_stats n' cells (S i)
            (stats ++ [if truthy val then Some val else None])
      | None => (i, stats)
      end
  end.

(** The row appended under [if hospital_name and len(stats) >= 11 and ...]. *)
Definition stats_row (now date_str hospital_name : string)
    (stats : list (option string)) : option DailyRow :=
  if truthy hospital_name then
    match stats with
    | s0 :: s1 :: s2 :: _ :: s4 :: _ :: s6 :: _ :: s8 :: _ :: s10 :: _ =>
        Some {| Hospital := hospital_name;
                ED_Trolleys := s0;
                Ward_Trolleys := s1;
                Total_Trolleys := s2;
                Surge_Capacity_in_Use := s4;
                Delayed_Transfers_of_Care := s6;
                Total_Waiting_gt_24hrs := s8;
                Age_75plus_Waiting_gt_24hrs := s10;
                scrape_date := now;
                report_date := date_str |}
    | _ => None
    end
  else None.

(** One turn of the [while] loop, entered with [i < len(cells)]. *)
Definition body (now date_str : string) (cells : list Cell)
    (i : nat) (data : list DailyRow) : nat * list DailyRow :=
  match nth_error cells i with
  | None => (i, data)
  | Some cell =>
      if (8 <=? colspan cell)%Z then
        let hospital_name := text cell in
        if is_regional_header hospital_name then
          (skip_separator cells (S i), data)
        else
          let i := skip_separator cells (S i) in
          let '(i, stats) := collect_stats 11 cells i [] in
          match stats_row now date_str hospital_name stats with
          | Some row => (i, data ++ [row])
          | None => (i, data)
          end
      else (S i, data)
  end.

Fixpoint loop (fuel : nat) (now date_str : string) (cells : list Cell)
    (i : nat) (data : list DailyRow) : nat * list DailyRow :=
  match fuel with
  | O => (i, data)
  | S fuel' =>
      if (i <? length cells)%nat then
        let '(i', data') := body now date_str cells i data in
        loop fuel' now date_str cells i' data'
      else (i, data)
  end.

(** The rows decoded from one table row. *)
Definition decode_row (now date_str : string) (cells : list Cell) : list DailyRow :=
  snd (loop (length cells) now date_str cells 0 []).

(** [table] is [None] or the rows [table.find_all('tr')], each the list of
    its cells; [now] is the clock reading put in [scrape_date]. *)
Definition scrape_hse_trolleygar (now date_str : string)
    (table : option (list (list Cell))) : ScrapeError + list DailyRow :=
  match table with
  | None => inl NoTableFound
  | Some rows =>
      match find_master_row rows with
      | None => inl NoMasterRowFound
      | Some data_row => inr (decode_row now date_str data_row)
      end
  end.

(** *** [save_to_csv] *)

(** A cell of a frame: text, as the scraper stores every value; a number,
    which is what [read_csv] makes of the cells of a numeric column, named
    by the digits pandas prints for it; or a missing value ([None] in a
    scraped frame, NaN in one read back). *)
Inductive Value : Type :=
| Text (s : string)
| Number (digits : string)
| Missing.

(** Equality of two cells as [drop_duplicates()] sees it: a number never
    equals a text, whatever its digits, and a missing value equals a missing
    value. *)
Definition value_eqb (a b : Value) : bool :=
  match a, b with
  | Text x, Text y => String.eqb x y
  | Number x, Number y => String.eqb x y
  | Missing, Missing => true
  | _, _ => false
  end.

(** Equality of two rows across all columns. *)
Fixpoint row_eqb (a b : list Value) : bool :=
  match a, b with
  | [], [] => true
  | x :: a', y :: b' => value_eqb x y && row_eqb a' b'
  | _, _ => false
  end.

Definition drop_duplicates (df : list (list Value)) : list (list Value) :=
  unique row_eqb df.

Definition opt_value (v : option string) : Value :=
  match v with
  | Some s => Text s
  | None => Missing
  end.

(** A row of the scraped frame, column by column. *)
Definition cells_of (r : DailyRow) : list Value :=
  [ Text (Hospital r);
    opt_value (ED_Trolleys r);
    opt_value (Ward_Trolleys r);
    opt_value (Total_Trolleys r);
    opt_value (Surge_Capacity_in_Use r);
    opt_value (Delayed_Transfers_of_Care r);
    opt_value (Total_Waiting_gt_24hrs r);
    opt_value (Age_75plus_Waiting_gt_24hrs r);
    Text (scrape_date r);
    Text (report_date r) ].

(** The files the function can see: a name is bound to the frame whose text
    the file holds, as [to_csv] wrote it, or to nothing. *)
Definition Files : Type := string -> option (list (list Value)).

Definition write_file (filename : string) (df : list (list Value)) (fs : Files)
    : Files :=
  fun name => if String.eqb name filename then Some df else fs name.

(** [save_to_csv(df, filename, append)] for a given [filename]: the files
    after the call.  [read_csv written] is the frame [pd.read_csv] returns
    for the file that holds the text of [written]; pandas types each column
    anew from its text, so it is a parameter here, and [df] is a frame of
    the scraper. *)
Definition save_to_csv (read_csv : list (list Value) -> list (list Value))
    (df : list DailyRow) (filename : string) (append : bool) (fs : Files) : Files :=
  match append, fs filename with
  | true, Some written =>
      let existing_df := read_csv written in
      let combined_df := existing_df ++ map cells_of df in
      let combined_df := drop_duplicates combined_df in
      write_file filename combined_df fs
  | _, _ => write_file filename (map cells_of df) fs
  end.

(** *** An instance of [read_csv], for running [save_to_csv]

    It covers the files whose columns hold plain numbers (digits without a
    leading zero, 15 at most, or such digits followed by [.0]), empty
    cells, or text that pandas reads as nothing else; a text such as [3.5],
    [-2], [NA] or [True] is not covered. *)

Definition is_digit (c : ascii) : bool :=
  (48 <=? nat_of_ascii c)%nat && (nat_of_ascii c <=? 57)%nat.

Fixpoint all_digits (s : string) : bool :=
  match s with
  | EmptyString => true
  | String c s' => is_digit c && all_digits s'
  end.

Definition int_text (s : string) : bool :=
  match s with
  | EmptyString => false
  | String c EmptyString => is_digit c
  | String c _ =>
      negb (Ascii.eqb c "0"%char) && all_digits s && (String.length s <=? 15)%nat
  end.

Definition float_text (s : string) : bool :=
  endswith ".0" s && int_text (substring 0 (String.length s - 2) s).

(** The text [to_csv] writes for a cell. *)
Definition written_text (v : Value) : string :=
  match v with
  | Text s => s
  | Number digits => digits
  | Missing => ""
  end.

Inductive Kind : Type :=
| Integers    (* int64: every cell is a whole number *)
| Floats      (* float64: numbers, some missing or written with [.0] *)
| Object.     (* text; empty cells are NaN *)

Definition kind_of (col : list string) : Kind :=
  if forallb int_text col then Integers
  else if forallb (fun s => int_text s || float_text s || String.eqb s "") col
  then Floats
  else Object.

Definition read_cell (k : Kind) (s : string) : Value :=
  if String.eqb s "" then Missing
  else
    match k with
    | Integers => Number s
    | Floats => Number (if float_text s then s else s ++ ".0")
    | Object => Text s
    end.

(** The cells of column [j], row by row. *)
Definition column (j : nat) (written : list (list Value)) : list string :=
  map (fun row => written_text (nth j row Missing)) written.

Definition read_csv_plain (written : list (list Value)) : list (list Value) :=
  map (fun row =>
         map (fun jv => read_cell (kind_of (column (fst jv) written))
                          (written_text (snd jv)))
             (combine (seq 0 (length row)) row))
      written.

End ScrapeHseData.

(* ===================================================================== *)
(** ** The vocabulary of the specification *)
(* ===================================================================== *)

Module Spec.
Import PyStr.

(** *** Colour classifier *)

(** A class carries a keyword when one of the three tests accepts it. *)
Definition has_keyword (cls : string) : bool :=
  ScrapeColors.has_green cls || ScrapeColors.has_red cls || ScrapeColors.has_amber cls.

(** The band one class stands for: green before red before amber. *)
Definition class_band (cls : string) : string :=
  if ScrapeColors.has_green cls then "green"
  else if ScrapeColors.has_red cls then "red"
  else if ScrapeColors.has_amber cls then "amber"
  else "none".

(** The classifier as the specification words it: precedence by category
    over the whole class set, whatever the order of the classes. *)
Definition classify_by_category (cls_list : list string) : string :=
  if existsb ScrapeColors.has_green cls_list then "green"
  else if existsb ScrapeColors.has_red cls_list then "red"
  else if existsb ScrapeColors.has_amber cls_list then "amber"
  else "none".

Definition is_band (c : string) : Prop :=
  c = "green" \/ c = "red" \/ c = "amber" \/ c = "none".

(** *** Observations *)

(** Hospital [h] was seen with the numeric count [n] shown in colour [c]:
    a valid observation of the frame. *)
Definition Observed (df : list (Frame.Row (option Z))) (h c : string) (n : Z) : Prop :=
  exists r, In r df /\ Frame.hospital r = h /\ Frame.total_num r = Some n
            /\ Frame.total_color r = Some c.

(** Every count of the frame is below 2^53 in size: the range in which
    int64 and float64 both add and subtract as the integers do. *)
Definition exact_counts (df : list (Frame.Row (option Z))) : Prop :=
  forall r n, In r df -> Frame.total_num r = Some n -> (Z.abs n < 2 ^ 53)%Z.

(** Every row of the frame carries a colour, as every record of the
    scrapers does. *)
Definition all_colored (df : list (Frame.Row (option Z))) : Prop :=
  forall r, In r df -> Frame.total_color r <> None.

(** [m] is the largest (smallest) count seen for [h] in colour [c]. *)
Definition LargestObserved (df : list (Frame.Row (option Z))) (h c : string) (m : Z) : Prop :=
  Observed df h c m /\ forall n, Observed df h c n -> (n <= m)%Z.

Definition SmallestObserved (df : list (Frame.Row (option Z))) (h c : string) (m : Z) : Prop :=
  Observed df h c m /\ forall n, Observed df h c n -> (m <= n)%Z.

(** *** Boundaries *)

(** The valid observations of hospital [h]: the rows of the frame that
    name [h] and hold a number, in the order of the frame. *)
Fixpoint observations (h : string) (df : list (Frame.Row (option Z)))
    : list (Frame.Row Z) :=
  match df with
  | [] => []
  | r :: df' =>
      match Frame.total_num r with
      | Some n =>
          if String.eqb h (Frame.hospital r)
          then Frame.mkRow (Frame.date r) h n (Frame.total_color r)
                 :: observations h df'
          else observations h df'
      | None => observations h df'
      end
  end.

(** The valid observations of hospital [h], arranged by [sort_values]. *)
Definition ordered_observations
    (sort_values : list (Frame.Row Z) -> list (Frame.Row Z))
    (df : list (Frame.Row (option Z))) (h : string) : list (Frame.Row Z) :=
  sort_values (observations h df).

(** [a] and [b] stand at two consecutive positions of [l], [a] first. *)
Definition Adjacent {A : Type} (l : list A) (a b : A) : Prop :=
  exists i, nth_error l i = Some a /\ nth_error l (S i) = Some b.

(** Two colour cells hold the same thing. *)
Definition same_color (a b : option string) : bool :=
  match a, b with
  | Some x, Some y => String.eqb x y
  | None, None => true
  | _, _ => false
  end.

(** The two rows of a pair are shown in different colours. *)
Definition colors_differ (pq : Frame.Row Z * Frame.Row Z) : bool :=
  negb (same_color (Frame.total_color (fst pq)) (Frame.total_color (snd pq))).



(** The names of a list in order of first appearance, each once. *)
Fixpoint first_appearances (names : list string) : list string :=
  match names with
  | [] => []
  | x :: names' =>
      x :: filter (fun y => negb (String.eqb y x)) (first_appearances names')
  end.

(** The hospitals of the frame, in order of first appearance. *)
Definition hospitals (df : list (Frame.Row (option Z))) : list string :=
  first_appearances (map Frame.hospital df).

(** The hospitals the batch analysis looks at: every one but the national
    total. *)
Definition analysed_hospitals (df : list (Frame.Row (option Z))) : list string :=
  filter (fun h => negb (String.eqb h "National Total")) (hospitals df).

(** *** Regional headers *)

(** A regional header as the specification words it: the name starts with
    the region prefix marker and ends with neither recognised suffix. *)
Definition regional_header (name : string) : bool :=
  startswith "HSE " name
  && negb (endswith "Total" name || endswith "Hospital" name).

(** *** Statistic cells *)

(** What the survey decoder keeps of a statistic cell. *)
Definition stat_of (c : Cell) : ScrapeColors.Stat :=
  ScrapeColors.mkStat (text c) (ScrapeColors.extract_color c).

(** What the daily decoder keeps of a statistic cell. *)
Definition val_of (c : Cell) : option string :=
  if truthy (text c) then Some (text c) else None.

(** *** Stored rows *)


End Spec.

(* ===================================================================== *)
(** ** The shape shared by the [prev]/[row] scans *)
(* ===================================================================== *)

Module Scan.
Section Scan.
Context {R E : Type} (test : R -> R -> bool) (entry : R -> R -> E).

(** A pass over [rows] that remembers the previous row and appends an entry
    for each consecutive pair that passes [test]. *)
Fixpoint scan (prev : option R) (rows : list R) (acc : list E) : list E :=
  match rows with
  | [] => acc
  | row :: rest =>
      let acc :=
        match prev with
        | Some p => if test p row then acc ++ [entry p row] else acc
        | None => acc
        end in
      scan (Some row) rest acc
  end.

Definition with_prev (prev : option R) (rows : list R) : list R :=
  match prev with
  | Some p => p :: rows
  | None => rows
  end.

End Scan.
End Scan.

(* ===================================================================== *)
(** ** The scenarios of the specification *)
(* ===================================================================== *)

Module Scenarios.
Import Frame.

(** Two amber counts and one red count for one hospital, nothing green. *)
Definition amber_amber_red (h d1 d2 d3 : string) : list (Row (option Z)) :=
  [ mkRow d1 h (Some 15%Z) (Some "amber");
    mkRow d2 h (Some 20%Z) (Some "amber");
    mkRow d3 h (Some 30%Z) (Some "red") ].

(** Green at 10 and amber at 11 for one hospital. *)
Definition green_amber (h d1 d2 : string) : list (Row (option Z)) :=
  [ mkRow d1 h (Some 10%Z) (Some "green");
    mkRow d2 h (Some 11%Z) (Some "amber") ].

Definition green10_amber11 : list (Row (option Z)) :=
  green_amber "X" "01/01/2026" "02/01/2026".

(** A tie at 10 with two colours, a jump from 10 to 15, and a row without a
    number. *)
Definition tie_and_jump : list (Row (option Z)) :=
  [ mkRow "01/01/2026" "X" (Some 10%Z) (Some "green");
    mkRow "02/01/2026" "X" (Some 10%Z) (Some "amber");
    mkRow "03/01/2026" "X" (Some 15%Z) (Some "red");
    mkRow "04/01/2026" "X" None (Some "red") ].

(** *** Tables *)

Definition plain_cell (t : string) (span : Z) : Cell := mkCell t span [] None.

(** An entity as the page lays it out: the name cell, an empty separator,
    then [n] statistic cells all reading [v]. *)
Definition entity_block (name v : string) (n : nat) : list Cell :=
  plain_cell name 10 :: plain_cell "" 1 :: repeat (plain_cell v 1) n.

(** A master row: 62 entities side by side, 11 statistic cells each. *)
Definition master_row_62 : list Cell :=
  concat (repeat (entity_block "St. X Hospital" "5" 11) 62).

Definition header_row : list Cell := [plain_cell "Hospital" 1; plain_cell "Total" 1].

(** A trailing row with 3 wide cells. *)
Definition noise_row : list Cell :=
  [plain_cell "HSE West" 10; plain_cell "" 8; plain_cell "x" 9].

(** One header row, the qualifying row, two noise rows. *)
Definition one_header_table : list (list Cell) :=
  [header_row; master_row_62; noise_row; noise_row].

(** Two header rows, the qualifying row, two noise rows. *)
Definition two_header_table : list (list Cell) :=
  [header_row; header_row; master_row_62; noise_row; noise_row].

(** A name that starts with the region prefix and holds "Total" without
    ending in it, with a separator and 12 statistic cells. *)
Definition total_in_the_middle : list Cell :=
  entity_block "HSE Total Care Region" "5" 12.

(** A regional header, then a hospital and a regional total with their
    blocks. *)
Definition header_then_entities : list Cell :=
  plain_cell "HSE West and North West" 10
  :: entity_block "St. X Hospital" "5" 12 ++ entity_block "HSE West Total" "7" 12.

(** An entity whose statistic cells are all empty. *)
Definition blank_entity : list Cell := entity_block "St. X Hospital" "" 12.

(** A row as [scrape_with_colors] reads it: the name cell, then value cells
    of width 50. *)
Definition survey_row (name : string) (vals : list string) : list Cell :=
  mkCell name 8 [] None :: map (fun v => mkCell v 1 ["text-green"] (Some "50")) vals.

Definition three_survey_rows : list (list Cell) :=
  [ survey_row "St. X Hospital" ["3"; "2"; "5"; "1"; "0"];
    survey_row "St. Y Hospital" ["3"; ""; ""; ""; "2"];
    survey_row "St. Z Hospital" ["4"; "4"; "8"; "0"; "1"] ].

(** A row of the stored frame. *)
Definition daily_row (name total : string) : ScrapeHseData.DailyRow :=
  ScrapeHseData.mkDailyRow name (Some "3") (Some "2") (Some total) None None
    (Some "1") None "2026-01-05 09:00:00" "05/01/2026".

End Scenarios.

(* ===================================================================== *)
(** ** Fetching pages and ranging over dates *)
(* ===================================================================== *)

Module Fetch.

(** A call either raises or returns. *)
Inductive Outcome (A : Type) : Type :=
| Raised
| Returned (a : A).
Arguments Raised {A}.
Arguments Returned {A} _.

(** [date_str.replace('/', '%2F')] *)
Fixpoint encode_date (date_str : string) : string :=
  match date_str with
  | EmptyString => EmptyString
  | String c s =>
      if Ascii.eqb c "/" then ("%2F" ++ encode_date s)%string
      else String c (encode_date s)
  end.

(** The text holds no percent sign. *)
Fixpoint no_percent (s : string) : bool :=
  match s with
  | EmptyString => true
  | String c s' => negb (Ascii.eqb c "%") && no_percent s'
  end.

(** The text holds no slash. *)
Fixpoint no_slash (s : string) : bool :=
  match s with
  | EmptyString => true
  | String c s' => negb (Ascii.eqb c "/") && no_slash s'
  end.

(** [f'https://uec.hse.ie/uec/TGAR.php?EDDATE={encoded_date}'] *)
Definition tgar_url (date_str : string) : string :=
  ("https://uec.hse.ie/uec/TGAR.php?EDDATE=" ++ encode_date date_str)%string.

(** The scrapers behind their request.  [fetch url] stands for
    [requests.get], [raise_for_status], the parse and [soup.find('table')]:
    it raises, or returns what [find] gave, already read into cells. *)
Definition scrape_with_colors_v2_io
    (fetch : string -> Outcome (option (list Cell))) (date_str : string)
    : Outcome (option (list ScrapeColors.ColorRecord)) :=
  match fetch (tgar_url date_str) with
  | Raised => Raised
  | Returned table => Returned (ScrapeColors.scrape_with_colors_v2 date_str table)
  end.

Definition scrape_hse_trolleygar_io
    (fetch : string -> Outcome (option (list (list Cell)))) (now date_str : string)
    : Outcome (ScrapeHseData.ScrapeError + list ScrapeHseData.DailyRow) :=
  match fetch (tgar_url date_str) with
  | Raised => Raised
  | Returned table => Returned (ScrapeHseData.scrape_hse_trolleygar now date_str table)
  end.

(** *** [scrape_date_range] of get_colors/scrape_colors.py

    A date is the number of its day; [strftime] renders a day as
    'DD/MM/YYYY'.  [current += timedelta(days=1)] is the successor, and the
    days from [start] to [end_] are enough fuel. *)
Fixpoint colors_range_loop (fuel : nat)
    (scrape : string -> Outcome (option (list ScrapeColors.ColorRecord)))
    (strftime : nat -> string) (current end_ : nat)
    (all_data : list (list ScrapeColors.ColorRecord))
    : list (list ScrapeColors.ColorRecord) :=
  match fuel with
  | O => all_data
  | S fuel' =>
      if (current <=? end_)%nat then
        let date_str := strftime current in
        let all_data :=
          match scrape date_str with
          | Returned (Some df) => all_data ++ [df]
          | Returned None => all_data
          | Raised => all_data
          end in
        colors_range_loop fuel' scrape strftime (S current) end_ all_data
      else all_data
  end.

(** The frames one date adds to [all_data]. *)
Definition colors_frames_of
    (scrape : string -> Outcome (option (list ScrapeColors.ColorRecord)))
    (strftime : nat -> string) (day : nat) : list (list ScrapeColors.ColorRecord) :=
  match scrape (strftime day) with
  | Returned (Some df) => [df]
  | Returned None => []
  | Raised => []
  end.

Definition colors_scrape_date_range
    (fetch : string -> Outcome (option (list Cell)))
    (strftime : nat -> string) (start end_ : nat)
    : option (list ScrapeColors.ColorRecord) :=
  match colors_range_loop (S end_ - start) (scrape_with_colors_v2_io fetch)
          strftime start end_ [] with
  | [] => None
  | all_data => Some (concat all_data)
  end.

End Fetch.

(* ===================================================================== *)
(** ** old_code/scrape_hse_data.py: the row store and the daily update *)
(* ===================================================================== *)

Module RowStore.
Import Fetch ScrapeHseData.

(** The table [trolleygar_data] of the database: absent, or its rows in
    insertion order. *)
Definition Table : Type := option (list DailyRow).

Definition row_count (table : Table) : Z :=
  match table with
  | Some rows => Z.of_nat (length rows)
  | None => 0%Z
  end.

Definition rows_of (table : Table) : list DailyRow :=
  match table with
  | Some rows => rows
  | None => []
  end.

(** [save_to_sqlite]: the table after the call and the returned
    [rows_added]. *)
Definition save_to_sqlite (df : list DailyRow) (table : Table) : Table * Z :=
  let existing_count := row_count table in
  let table' :=
    match table with
    | Some rows => Some (rows ++ df)
    | None => Some df
    end in
  let new_count := row_count table' in
  (table', (new_count - existing_count)%Z).






(** [scrape_date_range] of this file: the frames of the dates that gave one,
    then one [save_to_sqlite] of their concatenation.  [now_at] is the clock
    reading during the scrape of a date. *)
Fixpoint daily_range_loop (fuel : nat)
    (scrape : string -> Outcome (ScrapeError + list DailyRow))
    (strftime : nat -> string) (current end_ : nat)
    (all_dfs : list (list DailyRow)) : list (list DailyRow) :=
  match fuel with
  | O => all_dfs
  | S fuel' =>
      if (current <=? end_)%nat then
        let date_str := strftime current in
        let all_dfs :=
          match scrape date_str with
          | Returned (inr df) => all_dfs ++ [df]
          | Returned (inl _) => all_dfs
          | Raised => all_dfs
          end in
        daily_range_loop fuel' scrape strftime (S current) end_ all_dfs
      else all_dfs
  end.

(** The frames one date adds to [all_dfs]. *)
Definition daily_frames_of
    (scrape : string -> Outcome (ScrapeError + list DailyRow))
    (strftime : nat -> string) (day : nat) : list (list DailyRow) :=
  match scrape (strftime day) with
  | Returned (inr df) => [df]
  | Returned (inl _) => []
  | Raised => []
  end.

Definition daily_scrape_date_range
    (fetch : string -> Outcome (option (list (list Cell))))
    (now_at : string -> string) (strftime : nat -> string) (start end_ : nat)
    (table : Table) : option (list DailyRow) * Table :=
  match daily_range_loop (S end_ - start)
          (fun date_str => scrape_hse_trolleygar_io fetch (now_at date_str) date_str)
          strftime start end_ [] with
  | [] => (None, table)
  | all_dfs =>
      let combined_df := concat all_dfs in
      (Some combined_df, fst (save_to_sqlite combined_df table))
  end.

End RowStore.

(* ===================================================================== *)
(** ** dash_app/app.py: the hover callback *)
(* ===================================================================== *)

Module DashApp.
Import Fetch.

(** A [dict] with string keys, as the list of its items in insertion
    order. *)
Definition Dict : Type := list (string * string).

Fixpoint dict_get (d : Dict) (k : string) : option string :=
  match d with
  | [] => None
  | (k', v) :: d' => if String.eqb k k' then Some v else dict_get d' k
  end.

(** [d[k] = v]: the value of a key already there is replaced in place, a
    new key goes last. *)
Fixpoint dict_set (d : Dict) (k v : string) : Dict :=
  match d with
  | [] => [(k, v)]
  | (k', v') :: d' =>
      if String.eqb k k' then (k, v) :: d' else (k', v') :: dict_set d' k v
  end.

Definition name_map : Dict :=
  [ ("HSE Dublin and Midlands", "HSE Dublin and Midlands HR");
    ("HSE Dublin and North East", "HSE Dublin and North East HR");
    ("HSE Dublin and South East", "HSE Dublin and South East HR");
    ("HSE Mid West", "HSE Midwest HR");
    ("HSE South West", "HSE South West HR");
    ("HSE West and North West", "HSE West and North West HR") ].

(** [{v: k for k, v in d.items()}] *)
Definition reverse_dict (d : Dict) : Dict :=
  fold_left (fun acc kv => dict_set acc (snd kv) (fst kv)) d [].

Definition reverse_name_map : Dict := reverse_dict name_map.

(** The hover event as the callback reads it: [None] (or an empty dict), or
    the locations of its points; a point without the key is [None]. *)
Definition HoverData : Type := option (list (option string)).

(** The double quote of the f-string. *)
Definition dquote : string := String (Ascii.ascii_of_nat 34) EmptyString.

Record StyleRule : Type := mkStyleRule {
  filter_query : string;
  backgroundColor : string
}.

(** [highlight_row].  Leaving out [points], an empty [points] and a point
    without [location] raise. *)
Definition highlight_row (hoverData : HoverData) : Outcome (list StyleRule) :=
  match hoverData with
  | None => Returned []
  | Some points =>
      match points with
      | [] => Raised
      | None :: _ => Raised
      | Some geojson_name :: _ =>
          match dict_get reverse_name_map geojson_name with
          | None => Returned []
          | Some region =>
              if PyStr.truthy region then
                Returned [ {| filter_query :=
                                ("{Region} = " ++ dquote ++ region ++ dquote)%string;
                              backgroundColor := "#ffffcc" |} ]
              else Returned []
          end
      end
  end.

End DashApp.

(* ===================================================================== *)
(** ** Rows laid out entity by entity *)
(* ===================================================================== *)

Module Layout.
Import PyStr.

(** The pieces a data row is made of: a regional header with the empty
    separator that may follow it, or an entity: its name cell, an empty
    separator, and its statistic cells. *)
Inductive Item : Type :=
| RegionHeader (name : Cell) (sep : list Cell)
| Entity (name sep : Cell) (stats : list Cell).

Definition item_cells (it : Item) : list Cell :=
  match it with
  | RegionHeader name sep => name :: sep
  | Entity name sep stats => name :: sep :: stats
  end.

Definition row_cells (items : list Item) : list Cell := flat_map item_cells items.

(** The separator after a header: none, or one cell without text. *)
Definition header_sep_ok (sep : list Cell) : Prop :=
  sep = [] \/ exists s, sep = [s] /\ text s = "".

(** The text of the statistic cell in slot [k], or nothing when it is
    empty. *)
Definition slot (stats : list Cell) (k : nat) : option string :=
  match nth_error stats k with
  | Some c => if truthy (text c) then Some (text c) else None
  | None => None
  end.

Definition slot_color (stats : list Cell) (k : nat) : string :=
  match nth_error stats k with
  | Some c => ScrapeColors.extract_color c
  | None => "none"
  end.

(** *** As the daily decoder reads them: 11 statistic cells *)

Definition daily_item_ok (it : Item) : Prop :=
  match it with
  | RegionHeader name sep =>
      (8 <= colspan name)%Z
      /\ ScrapeHseData.is_regional_header (text name) = true
      /\ header_sep_ok sep
  | Entity name sep stats =>
      (8 <= colspan name)%Z
      /\ text name <> ""
      /\ ScrapeHseData.is_regional_header (text name) = false
      /\ text sep = ""
      /\ length stats = 11%nat
  end.

Definition daily_item_rows (now date_str : string) (it : Item)
    : list ScrapeHseData.DailyRow :=
  match it with
  | RegionHeader _ _ => []
  | Entity name _ stats =>
      [ ScrapeHseData.mkDailyRow (text name)
          (slot stats 0) (slot stats 1) (slot stats 2) (slot stats 4)
          (slot stats 6) (slot stats 8) (slot stats 10) now date_str ]
  end.

(** *** As the survey decoder reads them: 12 cells after the separator *)

(** The test that opens an entity or a header in the survey decoder. *)
Definition survey_boundary (c : Cell) : bool :=
  (8 <=? colspan c)%Z && truthy (text c).

Definition survey_item_ok (it : Item) : Prop :=
  match it with
  | RegionHeader name sep =>
      (8 <= colspan name)%Z
      /\ ScrapeColors.is_regional_header (text name) = true
      /\ header_sep_ok sep
  | Entity name sep stats =>
      (8 <= colspan name)%Z
      /\ text name <> ""
      /\ ScrapeColors.is_regional_header (text name) = false
      /\ text sep = ""
      /\ length stats = 12%nat
  end.

Definition survey_item_records (date_str : string) (it : Item)
    : list ScrapeColors.ColorRecord :=
  match it with
  | RegionHeader _ _ => []
  | Entity name _ stats =>
      [ ScrapeColors.mkColorRecord date_str (text name)
          (slot stats 0) (slot stats 1) (slot stats 2) (slot_color stats 2)
          (slot stats 4) None (slot stats 6) (Some (slot_color stats 6))
          (slot stats 8) (slot stats 10) ]
  end.

End Layout.

(* ===================================================================== *)
(** ** How the two boundary reports relate *)
(* ===================================================================== *)

Module BoundaryRelation.

(** A colour change written the way the batch analysis writes an exact
    boundary. *)
Definition to_exact (e : ScrapeColors.ColorBoundary) : AnalyzeBoundaries.ExactBoundary :=
  AnalyzeBoundaries.mkExactBoundary (ScrapeColors.b_hospital e)
    (Frame.show_color (ScrapeColors.from_color e) ++ AnalyzeBoundaries.arrow
       ++ Frame.show_color (ScrapeColors.to_color e))%string
    (ScrapeColors.from_value e) (ScrapeColors.to_value e) true.

(** A colour change across a gap of one, for a hospital that is not the
    national total. *)
Definition unit_step (e : ScrapeColors.ColorBoundary) : bool :=
  (ScrapeColors.difference e =? 1)%Z
  && negb (String.eqb (ScrapeColors.b_hospital e) "National Total").

(** No hospital of the frame has valid observations in two colours. *)
Definition one_color_each (df : list (Frame.Row (option Z))) : Prop :=
  forall h c1 c2 n1 n2,
    Spec.Observed df h c1 n1 -> Spec.Observed df h c2 n2 -> c1 = c2.

End BoundaryRelation.

(* ===================================================================== *)
(** ** The shape of emitted records and of the table of estimates *)
(* ===================================================================== *)

Module RecordShape.
Import PyStr Spec Layout.

(** A field filled by [x if x else None] is missing or non-empty. *)
Definition filled (v : option string) : Prop := v <> Some "".

(** A record of the survey decoder, read against the cells it came from. *)
Definition survey_record_ok (date_str : string) (all_cells : list Cell)
    (r : ScrapeColors.ColorRecord) : Prop :=
  ScrapeColors.date r = date_str
  /\ (exists cell, In cell all_cells /\ survey_boundary cell = true
                   /\ text cell = ScrapeColors.hospital r)
  /\ ScrapeColors.hospital r <> ""
  /\ is_band (ScrapeColors.total_color r)
  /\ (exists c, ScrapeColors.delayed_color r = Some c /\ is_band c)
  /\ ScrapeColors.surge_color r = None
  /\ filled (ScrapeColors.ed_trolleys r) /\ filled (ScrapeColors.ward_trolleys r)
  /\ filled (ScrapeColors.total_trolleys r) /\ filled (ScrapeColors.surge r)
  /\ filled (ScrapeColors.delayed r) /\ filled (ScrapeColors.gt_24hrs r)
  /\ filled (ScrapeColors.gt_75_24hrs r).

(** A row of the daily decoder, read against the master row. *)
Definition daily_row_ok (now date_str : string) (cells : list Cell)
    (r : ScrapeHseData.DailyRow) : Prop :=
  ScrapeHseData.report_date r = date_str
  /\ ScrapeHseData.scrape_date r = now
  /\ (exists cell, In cell cells /\ (8 <= colspan cell)%Z
                   /\ text cell = ScrapeHseData.Hospital r)
  /\ ScrapeHseData.Hospital r <> ""
  /\ filled (ScrapeHseData.ED_Trolleys r) /\ filled (ScrapeHseData.Ward_Trolleys r)
  /\ filled (ScrapeHseData.Total_Trolleys r)
  /\ filled (ScrapeHseData.Surge_Capacity_in_Use r)
  /\ filled (ScrapeHseData.Delayed_Transfers_of_Care r)
  /\ filled (ScrapeHseData.Total_Waiting_gt_24hrs r)
  /\ filled (ScrapeHseData.Age_75plus_Waiting_gt_24hrs r).

(** A record of [scrape_with_colors], read against the rows of the table. *)
Definition row_record_ok (date_str : string) (rows : list (list Cell))
    (r : ScrapeColors.ColorRecord) : Prop :=
  ScrapeColors.date r = date_str
  /\ (exists first_cell rest,
         In (first_cell :: rest) rows
         /\ (5 <= length (first_cell :: rest))%nat
         /\ (8 <= colspan first_cell)%Z
         /\ text first_cell = ScrapeColors.hospital r)
  /\ ScrapeColors.hospital r <> ""
  /\ (startswith "HSE " (ScrapeColors.hospital r) = true ->
      contains "Total" (ScrapeColors.hospital r) = true)
  /\ (exists ed ward total,
         ScrapeColors.ed_trolleys r = Some ed /\ ed <> ""
         /\ ScrapeColors.ward_trolleys r = Some ward /\ ward <> ""
         /\ ScrapeColors.total_trolleys r = Some total /\ total <> "")
  /\ is_band (ScrapeColors.total_color r)
  /\ ScrapeColors.gt_24hrs r = None /\ ScrapeColors.gt_75_24hrs r = None.

(** Names in ascending order, as [sorted] leaves them. *)
Definition name_le (a b : string) : Prop := String.leb a b = true.

(** The hospital has a row with a number. *)
Definition has_valid (df : list (Frame.Row (option Z))) (h : string) : bool :=
  match Frame.dropna (Frame.select_hospital h df) with
  | [] => false
  | _ => true
  end.

End RecordShape.

(* ===================================================================== *)
(** ** More scenarios *)
(* ===================================================================== *)

Module MoreScenarios.
Import Layout Scenarios Fetch.

Definition stat_cells (vals : list string) : list Cell :=
  map (fun v => plain_cell v 1) vals.

(** Two regions, each with an entity, as the daily decoder reads a row. *)
Definition daily_items : list Item :=
  [ RegionHeader (plain_cell "HSE West and North West" 10) [plain_cell "" 1];
    Entity (plain_cell "St. X Hospital" 10) (plain_cell "" 1)
      (stat_cells ["3"; "2"; "5"; ""; "1"; ""; "0"; ""; "4"; ""; "2"]);
    RegionHeader (plain_cell "HSE South West" 10) [];
    Entity (plain_cell "HSE South West Total" 10) (plain_cell "" 1)
      (stat_cells ["9"; "8"; "17"; ""; "2"; ""; "1"; ""; "6"; ""; "3"]) ].

(** The same for the survey decoder: 12 cells per entity, the total
    coloured. *)
Definition survey_stats (ed ward total : string) (band : string) : list Cell :=
  [ plain_cell ed 1; plain_cell ward 1; mkCell total 1 [band] None;
    plain_cell "" 1; plain_cell "1" 1; plain_cell "" 1; plain_cell "0" 1;
    plain_cell "" 1; plain_cell "4" 1; plain_cell "" 1; plain_cell "2" 1;
    plain_cell "" 1 ].

Definition survey_items : list Item :=
  [ RegionHeader (plain_cell "HSE West and North West" 10) [plain_cell "" 1];
    Entity (plain_cell "St. X Hospital" 10) (plain_cell "" 1)
      (survey_stats "3" "2" "5" "text-green");
    Entity (plain_cell "HSE West Total" 10) (plain_cell "" 1)
      (survey_stats "9" "8" "17" "bg-red") ].

(** Two entities with 11 statistic cells and nothing between them. *)
Definition adjacent_entities : list Cell :=
  plain_cell "St. X Hospital" 10 :: plain_cell "" 1
    :: stat_cells ["3"; "2"; "5"; ""; "1"; ""; "0"; ""; "4"; ""; "2"]
    ++ plain_cell "St. Y Hospital" 10 :: plain_cell "" 1
    :: stat_cells ["7"; "1"; "8"; ""; "1"; ""; "0"; ""; "4"; ""; "2"].

(** Two hospitals, the second named first, and a row without a number. *)
Definition two_hospitals : list (Frame.Row (option Z)) :=
  [ Frame.mkRow "01/01/2026" "Y" (Some 11%Z) (Some "amber");
    Frame.mkRow "01/01/2026" "X" (Some 10%Z) (Some "green");
    Frame.mkRow "02/01/2026" "Z" None (Some "red");
    Frame.mkRow "02/01/2026" "X" (Some 12%Z) (Some "amber") ].

(** Two rows one apart, neither with a colour. *)
Definition no_colors : list (Frame.Row (option Z)) :=
  [ Frame.mkRow "01/01/2026" "X" (Some 10%Z) None;
    Frame.mkRow "02/01/2026" "X" (Some 11%Z) None ].

(** The highest green count is the largest int64. *)
Definition int64_edge : list (Frame.Row (option Z)) :=
  [ Frame.mkRow "01/01/2026" "X" (Some (2 ^ 63 - 1)%Z) (Some "green");
    Frame.mkRow "02/01/2026" "X" (Some 5%Z) (Some "amber") ].

(** A frame in which the hospital shows one colour. *)
Definition all_green : list (Frame.Row (option Z)) :=
  [ Frame.mkRow "01/01/2026" "X" (Some 10%Z) (Some "green");
    Frame.mkRow "02/01/2026" "X" (Some 11%Z) (Some "green") ].

(** The days 4 to 6 of January 2026; the page of the 5th has data, the
    request of the 4th raises and the page of the 6th has no table. *)
Definition january (day : nat) : string :=
  if (day =? 4)%nat then "04/01/2026"
  else if (day =? 5)%nat then "05/01/2026"
  else "06/01/2026".

Definition january_pages (url : string) : Outcome (option (list Cell)) :=
  if String.eqb url (tgar_url "04/01/2026") then Raised
  else if String.eqb url (tgar_url "05/01/2026") then Returned (Some header_then_entities)
  else Returned None.



End MoreScenarios.

(* ===================================================================== *)
(** ** Facts about the string operations *)
(* ===================================================================== *)

Module PyStrFacts.
Import PyStr.

Lemma prefix_app (p s : string) :
  String.prefix p s = true <-> exists b, s = (p ++ b)%string.
Proof.
  revert s; induction p as [|c p IH]; intros s.
  - split; [intros _; now exists s | intros _; destruct s; reflexivity].
  - destruct s as [|d s]; simpl.
    + split; [discriminate | intros [b Hb]; discriminate].
    + destruct (Ascii.ascii_dec c d) as [->|Hne].
      * rewrite IH. split; intros [b Hb]; exists b; [now rewrite Hb | now inversion Hb].
      * split; [discriminate | intros [b Hb]; inversion Hb; congruence].
Qed.

(** [sub in s] holds exactly when [s] splits around a copy of [sub]. *)
Lemma contains_spec (sub s : string) :
  contains sub s = true <-> exists a b, s = (a ++ sub ++ b)%string.
Proof.
  induction s as [|c s IH].
  - cbn [contains]. rewrite orb_false_r, prefix_app. split.
    + intros [b Hb]. now exists "", b.
    + intros [a [b Hab]]. destruct a; [now exists b | discriminate].
  - cbn [contains]. rewrite orb_true_iff, prefix_app, IH. split.
    + intros [[b Hb] | [a [b Hab]]].
      * now exists "", b.
      * exists (String c a), b. simpl. now rewrite Hab.
    + intros [a [b Hab]]. destruct a as [|d a].
      * left. now exists b.
      * right. simpl in Hab. inversion Hab. now exists a, b.
Qed.

(** [s.endswith(suf)] holds exactly when [s] is something followed by [suf]. *)
Lemma endswith_spec (suf s : string) :
  endswith suf s = true <-> exists a, s = (a ++ suf)%string.
Proof.
  induction s as [|c s IH].
  - cbn [endswith]. rewrite orb_false_r. split.
    + intros H. apply String.eqb_eq in H. now exists "".
    + intros [a Ha]. destruct a; simpl in Ha; [now apply String.eqb_eq | discriminate].
  - cbn [endswith]. rewrite orb_true_iff, IH. split.
    + intros [H | [a Ha]].
      * apply String.eqb_eq in H. now exists "".
      * exists (String c a). simpl. now rewrite Ha.
    + intros [a Ha]. destruct a as [|d a]; simpl in Ha.
      * left. now apply String.eqb_eq.
      * right. inversion Ha. now exists a.
Qed.

Lemma append_empty_r (s : string) : (s ++ "")%string = s.
Proof. induction s; simpl; congruence. Qed.

Lemma endswith_contains (suf s : string) :
  endswith suf s = true -> contains suf s = true.
Proof.
  rewrite endswith_spec, contains_spec. intros [a ->].
  exists a, "". now rewrite append_empty_r.
Qed.

Lemma truthy_true (s : string) : truthy s = true <-> s <> "".
Proof.
  unfold truthy. destruct (String.eqb_spec s ""); simpl; split; congruence.
Qed.

Lemma insert_sorted_In (x y : string) (l : list string) :
  In y (insert_sorted x l) <-> y = x \/ In y l.
Proof.
  induction l as [|z l IH]; simpl.
  - intuition congruence.
  - destruct (String.leb x z); simpl; rewrite ?IH; intuition congruence.
Qed.

(** [sorted] neither loses nor invents a name. *)
Lemma sorted_In (y : string) (l : list string) : In y (sorted l) <-> In y l.
Proof.
  induction l as [|x l IH]; simpl; [tauto|].
  rewrite insert_sorted_In, IH. intuition congruence.
Qed.

End PyStrFacts.

(* ===================================================================== *)
(** ** The colour classifier *)
(* ===================================================================== *)

Module ExtractColorFacts.
Import PyStr ScrapeColors Spec.

Lemma class_band_is_band (cls : string) : is_band (class_band cls).
Proof.
  unfold class_band, is_band.
  destruct (has_green cls), (has_red cls), (has_amber cls); auto.
Qed.

Lemma class_band_none (cls : string) :
  class_band cls = "none" <-> has_keyword cls = false.
Proof.
  unfold class_band, has_keyword.
  destruct (has_green cls), (has_red cls), (has_amber cls); simpl;
    split; intros H; try reflexivity; discriminate.
Qed.

(** One unfolding of the loop, phrased with [class_band]. *)
Lemma extract_color_classes_cons (cls : string) (rest : list string) :
  extract_color_classes (cls :: rest)
  = if has_keyword cls then class_band cls else extract_color_classes rest.
Proof.
  simpl. unfold has_keyword, class_band.
  destruct (has_green cls), (has_red cls), (has_amber cls); reflexivity.
Qed.

Lemma extract_color_classes_skip (pre rest : list string) :
  (forall c, In c pre -> has_keyword c = false) ->
  extract_color_classes (pre ++ rest) = extract_color_classes rest.
Proof.
  induction pre as [|c pre IH]; intros Hpre; [reflexivity|].
  rewrite <- app_comm_cons, extract_color_classes_cons.
  rewrite (Hpre c (or_introl eq_refl)). apply IH.
  intros c' Hc'. apply Hpre. now right.
Qed.

Lemma extract_color_classes_is_band (cls_list : list string) :
  is_band (extract_color_classes cls_list).
Proof.
  induction cls_list as [|cls rest IH].
  - unfold is_band; simpl; auto.
  - rewrite extract_color_classes_cons.
    destruct (has_keyword cls); [apply class_band_is_band | exact IH].
Qed.

Lemma extract_color_classes_none (cls_list : list string) :
  extract_color_classes cls_list = "none"
  <-> forall c, In c cls_list -> has_keyword c = false.
Proof.
  induction cls_list as [|cls rest IH].
  - simpl. split; [intros _ c [] | reflexivity].
  - rewrite extract_color_classes_cons. destruct (has_keyword cls) eqn:Hk.
    + rewrite class_band_none. split.
      * congruence.
      * intros H. apply H. now left.
    + rewrite IH. split.
      * intros H c [<-|Hc]; [exact Hk | now apply H].
      * intros H c Hc. apply H. now right.
Qed.

(** The specification's three sample cells. *)
Example extract_color_text_green_bold :
  extract_color (mkCell "12" 1 ["text-green"; "bold"] None) = "green".
Proof. reflexivity. Qed.

Example extract_color_amber_cell :
  extract_color (mkCell "12" 1 ["amber-cell"] None) = "amber".
Proof. reflexivity. Qed.

Example extract_color_foo :
  extract_color (mkCell "12" 1 ["foo"] None) = "none".
Proof. reflexivity. Qed.

(** C4, as stated, fails: with a class holding "red" ahead of a class holding
    "green", the category reading gives green and the code gives red; with
    the two classes swapped the code gives green, so the answer does depend
    on the order of the classes. *)
Lemma extract_color_depends_on_class_order :
  existsb has_green ["text-red"; "text-green"] = true
  /\ classify_by_category ["text-red"; "text-green"] = "green"
  /\ extract_color (mkCell "7" 1 ["text-red"; "text-green"] None) = "red"
  /\ extract_color (mkCell "7" 1 ["text-green"; "text-red"] None) = "green".
Proof. repeat split. Qed.

(** C4, amended: [extract_color] is a total function into the four bands;
    it answers "none" exactly when no class carries a keyword; otherwise the
    first class, in list order, that carries a keyword decides, and inside
    that one class the precedence is green, then red, then amber. *)
Theorem extract_color_first_keyword_class (cell : Cell) :
  is_band (extract_color cell)
  /\ (extract_color cell = "none"
      <-> forall c, In c (classes cell) -> has_keyword c = false)
  /\ (forall pre cls post,
        classes cell = pre ++ cls :: post ->
        (forall c, In c pre -> has_keyword c = false) ->
        has_keyword cls = true ->
        extract_color cell = class_band cls
        /\ (has_green cls = true -> extract_color cell = "green")
        /\ (has_green cls = false -> has_red cls = true ->
            extract_color cell = "red")
        /\ (has_green cls = false -> has_red cls = false ->
            extract_color cell = "amber")).
Proof.
  unfold extract_color. split; [apply extract_color_classes_is_band|].
  split; [apply extract_color_classes_none|].
  intros pre cls post -> Hpre Hk.
  rewrite (extract_color_classes_skip pre (cls :: post) Hpre).
  rewrite extract_color_classes_cons, Hk.
  split; [reflexivity|]. unfold class_band. unfold has_keyword in Hk.
  repeat split.
  - now intros ->.
  - now intros -> ->.
  - intros Hg Hr. rewrite Hg, Hr in *. simpl in Hk. now rewrite Hk.
Qed.

(** The amended statement at a cell whose first keyword class is the second
    of three. *)
Lemma extract_color_first_keyword_class_witness :
  extract_color (mkCell "7" 1 ["bold"; "cell-Red"; "text-green"] None)
  = class_band "cell-Red"
  /\ class_band "cell-Red" = "red".
Proof.
  split; [|reflexivity].
  destruct (extract_color_first_keyword_class
              (mkCell "7" 1 ["bold"; "cell-Red"; "text-green"] None))
    as (_ & _ & Hfirst).
  refine (proj1 (Hfirst ["bold"] "cell-Red" ["text-green"] eq_refl _ eq_refl)).
  intros c [<-|[]]. reflexivity.
Defined.

End ExtractColorFacts.

(* ===================================================================== *)
(** ** Loops that append to a list *)
(* ===================================================================== *)

Module LoopFacts.

(** A [for] loop whose body appends [f x] to the accumulator yields the
    accumulator followed by the contributions, in order. *)
Lemma fold_left_appending {A B : Type} (step : list B -> A -> list B)
    (f : A -> list B) :
  (forall acc x, step acc x = acc ++ f x) ->
  forall l acc, fold_left step l acc = acc ++ flat_map f l.
Proof.
  intros Hstep l. induction l as [|x l IH]; intros acc; simpl.
  - now rewrite app_nil_r.
  - now rewrite IH, Hstep, <- app_assoc.
Qed.

Section UniqueFacts.
Context {A : Type} (eqb : A -> A -> bool).
Hypothesis eqb_spec : forall x y, eqb x y = true <-> x = y.

Lemma existsb_eqb_In (x : A) (seen : list A) :
  existsb (eqb x) seen = true <-> In x seen.
Proof.
  rewrite existsb_exists. split.
  - intros [y [Hy Hxy]]. apply eqb_spec in Hxy. now subst.
  - intros H. exists x. split; [exact H | now apply eqb_spec].
Qed.

Lemma unique_from_In (x : A) (l seen : list A) :
  In x (unique_from eqb seen l) <-> In x l /\ ~ In x seen.
Proof.
  revert seen. induction l as [|y l IH]; intros seen; simpl.
  - tauto.
  - destruct (existsb (eqb y) seen) eqn:E.
    + apply existsb_eqb_In in E. rewrite IH. split.
      * tauto.
      * intros [[->|H] Hn]; tauto.
    + assert (Hy : ~ In y seen).
      { intros H. apply existsb_eqb_In in H. congruence. }
      simpl. rewrite IH. simpl. split.
      * intros [->|[H Hn]]; [tauto|]. split; [tauto|]. intros Hx. apply Hn. now right.
      * intros [[->|H] Hn]; [now left|].
        destruct (eqb y x) eqn:Eyx.
        -- apply eqb_spec in Eyx. now left.
        -- right. split; [exact H|]. intros [Hyx|Hx]; [|tauto].
           apply eqb_spec in Hyx. congruence.
Qed.

Lemma unique_In (x : A) (l : list A) : In x (unique eqb l) <-> In x l.
Proof. unfold unique. rewrite unique_from_In. simpl. tauto. Qed.

Lemma unique_from_NoDup (l seen : list A) : NoDup (unique_from eqb seen l).
Proof.
  revert seen. induction l as [|y l IH]; intros seen; simpl.
  - constructor.
  - destruct (existsb (eqb y) seen); [apply IH|].
    constructor; [|apply IH].
    rewrite unique_from_In. simpl. tauto.
Qed.

Lemma unique_NoDup (l : list A) : NoDup (unique eqb l).
Proof. apply unique_from_NoDup. Qed.

(** On a list without repeats none of whose members was seen, nothing is
    dropped. *)
Lemma unique_from_id (l seen : list A) :
  NoDup l -> (forall x, In x l -> ~ In x seen) -> unique_from eqb seen l = l.
Proof.
  revert seen. induction l as [|y l IH]; intros seen Hnd Hseen; simpl; [reflexivity|].
  inversion Hnd as [|? ? Hy Hl]; subst.
  destruct (existsb (eqb y) seen) eqn:E.
  - apply existsb_eqb_In in E. exfalso. apply (Hseen y); [now left | exact E].
  - f_equal. apply IH; [exact Hl|].
    intros x Hx [<-|Hs]; [contradiction|]. apply (Hseen x); [now right | exact Hs].
Qed.

(** Rows already seen are all dropped. *)
Lemma unique_from_seen (l seen : list A) :
  (forall x, In x l -> In x seen) -> unique_from eqb seen l = [].
Proof.
  revert seen. induction l as [|y l IH]; intros seen Hseen; simpl; [reflexivity|].
  assert (E : existsb (eqb y) seen = true).
  { apply existsb_eqb_In. apply Hseen. now left. }
  rewrite E. apply IH. intros x Hx. apply Hseen. now right.
Qed.

Lemma unique_from_app (l1 l2 seen : list A) :
  unique_from eqb seen (l1 ++ l2)
  = unique_from eqb seen l1 ++ unique_from eqb (rev (unique_from eqb seen l1) ++ seen) l2.
Proof.
  revert seen. induction l1 as [|y l1 IH]; intros seen; simpl; [reflexivity|].
  destruct (existsb (eqb y) seen); [apply IH|].
  simpl. rewrite IH. f_equal. now rewrite <- app_assoc.
Qed.

End UniqueFacts.

End LoopFacts.

(* ===================================================================== *)
(** ** Threshold inference *)
(* ===================================================================== *)

Module AnalyzeFacts.
Import Frame AnalyzeBoundaries Spec LoopFacts.

(** *** The series reductions *)

Lemma fold_max_spec (l : list Z) (v : Z) :
  In (fold_left Z.max l v) (v :: l)
  /\ forall x, In x (v :: l) -> (x <= fold_left Z.max l v)%Z.
Proof.
  revert v. induction l as [|y l IH]; intros v; simpl.
  - split; [now left | intros x [<-|[]]; lia].
  - destruct (IH (Z.max v y)) as [Hin Hub]. split.
    + destruct Hin as [Hin|Hin]; [|now right; right].
      rewrite <- Hin. destruct (Z.max_spec v y) as [[_ ->]|[_ ->]]; auto.
    + intros x [<-|[<-|Hx]].
      * specialize (Hub (Z.max v y) (or_introl eq_refl)). lia.
      * specialize (Hub (Z.max v y) (or_introl eq_refl)). lia.
      * apply Hub. now right.
Qed.

Lemma fold_min_spec (l : list Z) (v : Z) :
  In (fold_left Z.min l v) (v :: l)
  /\ forall x, In x (v :: l) -> (fold_left Z.min l v <= x)%Z.
Proof.
  revert v. induction l as [|y l IH]; intros v; simpl.
  - split; [now left | intros x [<-|[]]; lia].
  - destruct (IH (Z.min v y)) as [Hin Hlb]. split.
    + destruct Hin as [Hin|Hin]; [|now right; right].
      rewrite <- Hin. destruct (Z.min_spec v y) as [[_ ->]|[_ ->]]; auto.
    + intros x [<-|[<-|Hx]].
      * specialize (Hlb (Z.min v y) (or_introl eq_refl)). lia.
      * specialize (Hlb (Z.min v y) (or_introl eq_refl)). lia.
      * apply Hlb. now right.
Qed.

Lemma series_max_Some (l : list Z) (m : Z) :
  series_max l = Some m -> In m l /\ forall x, In x l -> (x <= m)%Z.
Proof.
  destruct l as [|v l]; [discriminate|]. simpl. intros [= <-]. apply fold_max_spec.
Qed.

Lemma series_min_Some (l : list Z) (m : Z) :
  series_min l = Some m -> In m l /\ forall x, In x l -> (m <= x)%Z.
Proof.
  destruct l as [|v l]; [discriminate|]. simpl. intros [= <-]. apply fold_min_spec.
Qed.

Lemma series_max_None (l : list Z) : series_max l = None <-> l = [].
Proof. destruct l; simpl; split; congruence. Qed.

Lemma series_min_None (l : list Z) : series_min l = None <-> l = [].
Proof. destruct l; simpl; split; congruence. Qed.

Lemma series_max_exists (l : list Z) (x : Z) :
  In x l -> exists m, series_max l = Some m.
Proof. destruct l; [intros [] | intros _; simpl; eauto]. Qed.

Lemma series_min_exists (l : list Z) (x : Z) :
  In x l -> exists m, series_min l = Some m.
Proof. destruct l; [intros [] | intros _; simpl; eauto]. Qed.

(** *** Selecting the valid observations of a hospital *)

Lemma dropna_In (df : list (Row (option Z))) (v : Row Z) :
  In v (dropna df)
  <-> exists r, In r df /\ total_num r = Some (total_num v)
                /\ date r = date v /\ Frame.hospital r = Frame.hospital v
                /\ total_color r = total_color v.
Proof.
  induction df as [|r df IH]; simpl.
  - split; [intros [] | intros [r [[] _]]].
  - destruct (total_num r) as [n|] eqn:En; simpl; rewrite IH; split.
    + intros [<-|[r' [Hin H]]]; [|exists r'; tauto].
      exists r. simpl. tauto.
    + intros [r' [[<-|Hin] (Hn & Hd & Hh & Hc)]]; [|right; exists r'; tauto].
      left. destruct v as [d h n' c]; simpl in *. congruence.
    + intros [r' [Hin H]]. exists r'. tauto.
    + intros [r' [[<-|Hin] (Hn & H)]]; [congruence|]. exists r'. tauto.
Qed.

Lemma color_is_true (c : string) (a : option string) :
  color_is c a = true <-> a = Some c.
Proof.
  destruct a as [x|]; simpl; [|split; discriminate].
  rewrite String.eqb_eq. split; congruence.
Qed.

Lemma color_vals_In (df : list (Row (option Z))) (h c : string) (n : Z) :
  In n (color_vals c (dropna (select_hospital h df))) <-> Observed df h c n.
Proof.
  unfold color_vals, select_hospital, Observed.
  rewrite in_map_iff. split.
  - intros [v [<- Hv]]. apply filter_In in Hv. destruct Hv as [Hv Hc].
    apply color_is_true in Hc. apply dropna_In in Hv.
    destruct Hv as [r [Hr (Hn & _ & Hh & Hcol)]].
    apply filter_In in Hr. destruct Hr as [Hr Hh'].
    apply String.eqb_eq in Hh'. exists r. repeat split; congruence.
  - intros [r (Hr & Hh & Hn & Hc)].
    exists (mkRow (date r) (Frame.hospital r) n (total_color r)). split; [reflexivity|].
    apply filter_In. split; [|now apply color_is_true].
    apply dropna_In. exists r. simpl. repeat split; try assumption.
    apply filter_In. split; [exact Hr | now apply String.eqb_eq].
Qed.

(** *** Adding one to a count *)

(** Within the int64 range the sum is the sum of the integers. *)
Lemma int64_add_exact (a b : Z) :
  (- 2 ^ 63 <= a + b < 2 ^ 63)%Z -> int64_add a b = (a + b)%Z.
Proof.
  intros H. unfold int64_add, wrap64.
  rewrite Z.mod_small by lia. lia.
Qed.

Lemma int64_add_one_exact (n : Z) :
  (Z.abs n < 2 ^ 53)%Z -> int64_add n 1 = (n + 1)%Z.
Proof. intros H. apply int64_add_exact. lia. Qed.

(** The counts seen for a hospital are counts of the frame. *)
Lemma Observed_exact (df : list (Row (option Z))) (h c : string) (n : Z) :
  exact_counts df -> Observed df h c n -> (Z.abs n < 2 ^ 53)%Z.
Proof. intros Hx [r (Hin & _ & Hn & _)]. exact (Hx r n Hin Hn). Qed.

Lemma series_max_Largest (df : list (Row (option Z))) (h c : string) (m : Z) :
  series_max (color_vals c (dropna (select_hospital h df))) = Some m
  <-> LargestObserved df h c m.
Proof.
  unfold LargestObserved. split.
  - intros H. apply series_max_Some in H. destruct H as [Hin Hub].
    split; [now apply color_vals_In|].
    intros n Hn. apply Hub. now apply color_vals_In.
  - intros [Hobs Hub]. apply color_vals_In in Hobs.
    destruct (series_max_exists _ _ Hobs) as [m' Hm'].
    rewrite Hm'. f_equal. apply series_max_Some in Hm'. destruct Hm' as [Hin' Hub'].
    apply Z.le_antisymm; [|now apply Hub'].
    apply Hub. now apply color_vals_In.
Qed.

Lemma series_min_Smallest (df : list (Row (option Z))) (h c : string) (m : Z) :
  series_min (color_vals c (dropna (select_hospital h df))) = Some m
  <-> SmallestObserved df h c m.
Proof.
  unfold SmallestObserved. split.
  - intros H. apply series_min_Some in H. destruct H as [Hin Hlb].
    split; [now apply color_vals_In|].
    intros n Hn. apply Hlb. now apply color_vals_In.
  - intros [Hobs Hlb]. apply color_vals_In in Hobs.
    destruct (series_min_exists _ _ Hobs) as [m' Hm'].
    rewrite Hm'. f_equal. apply series_min_Some in Hm'. destruct Hm' as [Hin' Hlb'].
    apply Z.le_antisymm; [now apply Hlb'|].
    apply Hlb. now apply color_vals_In.
Qed.

(** *** The loop over hospitals *)

Lemma analyze_as_flat_map (df : list (Row (option Z))) :
  analyze_hospital_thresholds df
  = flat_map (contribution df)
      (PyStr.sorted (unique String.eqb (map Frame.hospital df))).
Proof.
  unfold analyze_hospital_thresholds.
  rewrite (fold_left_appending (analyze_step df) (contribution df)); [reflexivity|].
  intros acc h. unfold analyze_step, contribution.
  destruct (String.eqb h "National Total"); [now rewrite app_nil_r|].
  destruct (hospital_result h df); [reflexivity | now rewrite app_nil_r].
Qed.

(** An estimate is in the output exactly when it is the result computed for
    a hospital of the frame other than the national total. *)
Lemma analyze_In (df : list (Row (option Z))) (r : Estimate) :
  In r (analyze_hospital_thresholds df)
  <-> exists h, In h (map Frame.hospital df) /\ h <> "National Total"
                /\ hospital_result h df = Some r.
Proof.
  rewrite analyze_as_flat_map, in_flat_map. split.
  - intros [h [Hh Hr]]. exists h.
    apply (proj1 (PyStrFacts.sorted_In _ _)) in Hh.
    apply (proj1 (unique_In String.eqb String.eqb_eq _ _)) in Hh.
    unfold contribution in Hr.
    destruct (String.eqb_spec h "National Total"); [destruct Hr|].
    destruct (hospital_result h df) as [r'|]; [|destruct Hr].
    destruct Hr as [<-|[]]. auto.
  - intros [h (Hh & Hne & Hr)]. exists h. split.
    + apply (proj2 (PyStrFacts.sorted_In _ _)).
      now apply (proj2 (unique_In String.eqb String.eqb_eq _ _)).
    + unfold contribution.
      destruct (String.eqb_spec h "National Total"); [contradiction|].
      rewrite Hr. now left.
Qed.

Lemma hospital_result_hospital (df : list (Row (option Z))) (h : string) (r : Estimate) :
  hospital_result h df = Some r -> AnalyzeBoundaries.hospital r = h.
Proof.
  unfold hospital_result. destruct (dropna (select_hospital h df)); [discriminate|].
  now intros [= <-].
Qed.

(** The two thresholds of a result, read off the observations. *)
Lemma hospital_result_thresholds (df : list (Row (option Z))) (h : string) (r : Estimate) :
  hospital_result h df = Some r ->
  amber_threshold r
  = infer_amber_threshold
      (series_max (color_vals "green" (dropna (select_hospital h df))))
      (series_min (color_vals "amber" (dropna (select_hospital h df))))
  /\ red_threshold r
     = infer_red_threshold
         (series_max (color_vals "green" (dropna (select_hospital h df))))
         (series_max (color_vals "amber" (dropna (select_hospital h df))))
         (series_min (color_vals "red" (dropna (select_hospital h df)))).
Proof.
  unfold hospital_result. destruct (dropna (select_hospital h df)); [discriminate|].
  intros [= <-]. split; reflexivity.
Qed.


End AnalyzeFacts.

Module ThresholdClaims.
Import Frame AnalyzeBoundaries Spec Scenarios LoopFacts AnalyzeFacts.

(** C1, as stated, fails: on [(15, amber), (20, amber), (30, red)] the
    amber threshold is 15, not null, and the red threshold is 21, not 30. *)
Lemma amber_amber_red_not_null_30 :
  map (fun r => (amber_threshold r, red_threshold r))
      (analyze_hospital_thresholds (amber_amber_red "X" "01/01/2026" "02/01/2026" "03/01/2026"))
  = [(Some 15%Z, Some 21%Z)]
  /\ Some 15%Z <> (None : option Z)
  /\ Some 21%Z <> Some 30%Z.
Proof. repeat split; discriminate. Qed.

(** C1, amended: for a hospital (other than the national total) whose only
    valid observations are [(15, amber), (20, amber), (30, red)], the
    inference returns one estimate, with amberThreshold = 15 (the lowest
    amber count, taken when no green was seen) and redThreshold = 21
    (one past the highest amber count, which is below the lowest red). *)
Theorem amber_amber_red_estimate (h d1 d2 d3 : string) :
  h <> "National Total" ->
  analyze_hospital_thresholds (amber_amber_red h d1 d2 d3)
  = [ {| AnalyzeBoundaries.hospital := h;
         green_max := None; green_min := None; green_count := 0;
         amber_max := Some 20%Z; amber_min := Some 15%Z; amber_count := 2;
         red_min := Some 30%Z; red_max := Some 30%Z; red_count := 1;
         amber_threshold := Some 15%Z;
         red_threshold := Some 21%Z |} ].
Proof.
  intros Hne. apply String.eqb_neq in Hne.
  unfold analyze_hospital_thresholds, amber_amber_red, unique.
  cbn [map Frame.hospital unique_from existsb].
  rewrite String.eqb_refl. cbn [orb PyStr.sorted fold_right PyStr.insert_sorted fold_left].
  unfold analyze_step. rewrite Hne.
  unfold hospital_result, select_hospital.
  cbn [filter Frame.hospital]. rewrite String.eqb_refl. reflexivity.
Qed.

Lemma amber_amber_red_estimate_witness :
  map (fun r => (amber_threshold r, red_threshold r))
      (analyze_hospital_thresholds (amber_amber_red "St. X Hospital" "a" "b" "c"))
  = [(Some 15%Z, Some 21%Z)].
Proof.
  rewrite (amber_amber_red_estimate "St. X Hospital" "a" "b" "c").
  - reflexivity.
  - discriminate.
Defined.



(** C7, as stated, fails: a red count (10) below the only amber count (20)
    gives amberThreshold = 20 and redThreshold = 10. *)
Lemma thresholds_out_of_order :
  map (fun r => (amber_threshold r, red_threshold r))
      (analyze_hospital_thresholds
         [ mkRow "01/01/2026" "X" (Some 20%Z) (Some "amber");
           mkRow "02/01/2026" "X" (Some 10%Z) (Some "red") ])
  = [(Some 20%Z, Some 10%Z)]
  /\ (20 > 10)%Z.
Proof. split; reflexivity. Qed.

(** C7, amended: in a frame whose counts are below 2^53 in size, for every
    estimate of the output whose two thresholds are both non-null,
    amberThreshold <= redThreshold holds exactly when no red-coloured count
    of that hospital lies below its amberThreshold; in particular it holds
    when no red-coloured count lies below an amber-coloured one. *)
Theorem thresholds_ordered_iff
    (df : list (Row (option Z))) (r : Estimate) (a t : Z) :
  exact_counts df ->
  In r (analyze_hospital_thresholds df) ->
  amber_threshold r = Some a ->
  red_threshold r = Some t ->
  ((a <= t)%Z
   <-> forall n, Observed df (AnalyzeBoundaries.hospital r) "red" n -> (a <= n)%Z)
  /\ ((forall na nr, Observed df (AnalyzeBoundaries.hospital r) "amber" na ->
                     Observed df (AnalyzeBoundaries.hospital r) "red" nr ->
                     (na <= nr)%Z) ->
      (a <= t)%Z).
Proof.
  intros Hexact Hin Ha Ht. apply analyze_In in Hin. destruct Hin as [h (_ & _ & Hr)].
  rewrite (hospital_result_hospital _ _ _ Hr).
  destruct (hospital_result_thresholds _ _ _ Hr) as [Ea Et].
  rewrite Ha in Ea. rewrite Ht in Et. clear Ha Ht Hr r.
  set (hd := dropna (select_hospital h df)) in *.
  destruct (series_min (color_vals "amber" hd)) as [amin|] eqn:Eamin;
    [|destruct (series_max (color_vals "green" hd)); discriminate].
  pose proof (series_min_Some _ _ Eamin) as [Hamin_in Hamin_lb].
  destruct (series_max_exists _ _ Hamin_in) as [amax Eamax].
  pose proof (series_max_Some _ _ Eamax) as [Hamax_in Hamax_ub].
  assert (Haa : (amin <= amax)%Z) by now apply Hamax_ub.
  assert (Hle : (a <= amin)%Z).
  { destruct (series_max (color_vals "green" hd)); cbn [infer_amber_threshold] in Ea;
      injection Ea as ->; lia. }
  assert (Hsmall : (Z.abs amax < 2 ^ 53)%Z).
  { apply (Observed_exact df h "amber" amax Hexact). now apply color_vals_In. }
  rewrite Eamax in Et.
  destruct (series_min (color_vals "red" hd)) as [rmin|] eqn:Ermin;
    [|destruct (series_max (color_vals "green" hd)); discriminate].
  cbn [infer_red_threshold] in Et.
  rewrite (int64_add_one_exact amax Hsmall) in Et. injection Et as ->.
  apply series_min_Smallest in Ermin. destruct Ermin as [Hrobs Hrlb].
  assert (Hiff : (a <= Z.min (amax + 1) rmin)%Z
                 <-> forall n, Observed df h "red" n -> (a <= n)%Z).
  { split.
    - intros H n Hn. specialize (Hrlb n Hn). lia.
    - intros H. specialize (H rmin Hrobs). lia. }
  split; [exact Hiff|].
  intros Hmono. apply Hiff. intros n Hn.
  specialize (Hmono amin n). 
  assert (Observed df h "amber" amin) by now apply color_vals_In.
  specialize (Hmono H Hn). lia.
Qed.

Lemma thresholds_ordered_iff_witness :
  exists r, In r (analyze_hospital_thresholds
                    (amber_amber_red "X" "01/01/2026" "02/01/2026" "03/01/2026"))
            /\ amber_threshold r = Some 15%Z /\ red_threshold r = Some 21%Z
            /\ (15 <= 21)%Z.
Proof.
  set (df := amber_amber_red "X" "01/01/2026" "02/01/2026" "03/01/2026").
  assert (Hin : In (mkEstimate "X" None None 0 (Some 20%Z) (Some 15%Z) 2
                      (Some 30%Z) (Some 30%Z) 1 (Some 15%Z) (Some 21%Z))
                   (analyze_hospital_thresholds df)) by (left; reflexivity).
  eexists. split; [exact Hin|].
  split; [reflexivity|]. split; [reflexivity|].
  assert (Hexact : exact_counts df).
  { intros r n [<-|[<-|[<-|[]]]] [= <-]; simpl; lia. }
  apply (proj2 (thresholds_ordered_iff df _ 15 21 Hexact Hin eq_refl eq_refl)).
  intros na nr [ra (Hra & _ & Hna & Hca)] [rr (Hrr & _ & Hnr & Hcr)].
  destruct Hra as [<-|[<-|[<-|[]]]]; simpl in *; try discriminate;
    destruct Hrr as [<-|[<-|[<-|[]]]]; simpl in *; try discriminate;
    injection Hna as <-; injection Hnr as <-; lia.
Defined.

End ThresholdClaims.

(* ===================================================================== *)
(** ** The boundary scans *)
(* ===================================================================== *)

Module BoundaryFacts.
Import Frame Spec LoopFacts.

Section ScanFacts.
Context {R E : Type} (test : R -> R -> bool) (entry : R -> R -> E).

(** The scan reports the pairs of consecutive rows that pass the test, one
    entry each, in order. *)
Lemma scan_adjacent (prev : option R) (rows : list R) (acc : list E) :
  Scan.scan test entry prev rows acc
  = acc ++ map (fun pq => entry (fst pq) (snd pq))
             (filter (fun pq => test (fst pq) (snd pq))
                     (adjacent_pairs (Scan.with_prev prev rows))).
Proof.
  revert prev acc. induction rows as [|row rest IH]; intros prev acc.
  - destruct prev as [p|]; simpl; now rewrite app_nil_r.
  - cbn [Scan.scan]. rewrite IH. destruct prev as [p|].
    + cbn [Scan.with_prev adjacent_pairs tl combine filter fst snd].
      destruct (test p row); cbn [map fst snd].
      * now rewrite <- app_assoc.
      * reflexivity.
    + reflexivity.
Qed.
End ScanFacts.

Lemma adjacent_pairs_cons {A : Type} (a b : A) (l : list A) :
  adjacent_pairs (a :: b :: l) = (a, b) :: adjacent_pairs (b :: l).
Proof. reflexivity. Qed.

(** Membership in [adjacent_pairs] is adjacency of positions. *)
Lemma adjacent_pairs_In {A : Type} (l : list A) (a b : A) :
  In (a, b) (adjacent_pairs l) <-> Adjacent l a b.
Proof.
  unfold Adjacent. induction l as [|x l IH].
  - simpl. split; [intros [] | intros [i [H _]]; destruct i; discriminate].
  - destruct l as [|y l].
    + simpl. split; [intros [] | intros [i [_ H]]; destruct i; discriminate].
    + rewrite adjacent_pairs_cons. simpl In. rewrite IH. split.
      * intros [H | [i Hi]].
        -- injection H as <- <-. now exists 0.
        -- now exists (S i).
      * intros [[|i] [Ha Hb]].
        -- left. simpl in Ha, Hb. congruence.
        -- right. now exists i.
Qed.

(** *** The stable instance meets the contract *)

Lemma insert_by_count_perm (x : Row Z) (l : list (Row Z)) :
  Permutation (x :: l) (insert_by_count x l).
Proof.
  induction l as [|y l IH]; simpl; [reflexivity|].
  destruct (total_num x <=? total_num y)%Z; [reflexivity|].
  rewrite perm_swap. now apply perm_skip.
Qed.

Lemma insert_by_count_sorted (x : Row Z) (l : list (Row Z)) :
  Sorted count_le l -> Sorted count_le (insert_by_count x l).
Proof.
  induction l as [|y l IH]; intros Hs; simpl.
  - repeat constructor.
  - destruct (total_num x <=? total_num y)%Z eqn:E.
    + constructor; [exact Hs|]. constructor. unfold count_le. lia.
    + inversion Hs as [|? ? Hl Hy]; subst. constructor; [now apply IH|].
      destruct l as [|z l]; simpl.
      * constructor. unfold count_le. lia.
      * destruct (total_num x <=? total_num z)%Z.
        -- constructor. unfold count_le. lia.
        -- constructor. now inversion Hy.
Qed.

Lemma stable_sort_values_contract : sort_contract stable_sort_values.
Proof.
  intros l. induction l as [|x l [IHp IHs]]; simpl.
  - split; constructor.
  - split.
    + rewrite <- insert_by_count_perm. now apply perm_skip.
    + now apply insert_by_count_sorted.
Qed.


(** *** The two scans of the code are instances of the shared shape *)

Lemma scan_exact_as_scan (h : string) (prev : option (Row Z)) (rows : list (Row Z))
    (acc : list AnalyzeBoundaries.ExactBoundary) :
  AnalyzeBoundaries.scan_exact h prev rows acc
  = Scan.scan AnalyzeBoundaries.is_exact (AnalyzeBoundaries.exact_entry h) prev rows acc.
Proof.
  revert prev acc. induction rows as [|row rest IH]; intros prev acc; simpl;
    [reflexivity | apply IH].
Qed.

Lemma scan_transitions_as_scan (h : string) (prev : option (Row Z))
    (rows : list (Row Z)) (acc : list ScrapeColors.ColorBoundary) :
  ScrapeColors.scan_transitions h prev rows acc
  = Scan.scan (fun p row => color_ne (total_color p) (total_color row))
      (ScrapeColors.boundary_entry h) prev rows acc.
Proof.
  revert prev acc. induction rows as [|row rest IH]; intros prev acc; simpl;
    [reflexivity | apply IH].
Qed.

(** *** Colours *)

Lemma same_color_true (a b : option string) : same_color a b = true <-> a = b.
Proof.
  destruct a as [x|], b as [y|]; simpl; try (split; congruence).
  rewrite String.eqb_eq. split; congruence.
Qed.

(** On two cells that hold a colour, [!=] tells whether the colours
    differ. *)
Lemma color_ne_colored (a b : option string) :
  a <> None -> b <> None -> color_ne a b = negb (same_color a b).
Proof. destruct a, b; simpl; congruence. Qed.

(** A cell without a colour is unequal to every cell, one without a colour
    included. *)
Lemma color_ne_missing (a : option string) :
  color_ne None a = true /\ color_ne a None = true.
Proof. destruct a; split; reflexivity. Qed.

Lemma colors_differ_true (a b : Row Z) :
  colors_differ (a, b) = true <-> total_color a <> total_color b.
Proof.
  unfold colors_differ. simpl. rewrite negb_true_iff.
  rewrite <- same_color_true. now destruct (same_color _ _).
Qed.


(** *** The code's selection of a hospital's rows gives its valid
    observations *)

Lemma dropna_select_hospital (h : string) (df : list (Row (option Z))) :
  dropna (select_hospital h df) = observations h df.
Proof.
  unfold select_hospital. induction df as [|r df IH]; [reflexivity|].
  cbn [filter observations]. rewrite (String.eqb_sym h).
  destruct (String.eqb_spec (Frame.hospital r) h) as [E|E].
  - cbn [dropna]. destruct (total_num r); rewrite IH; [now rewrite E | reflexivity].
  - rewrite IH. now destruct (total_num r).
Qed.

(** A valid observation of [h] is a row of the frame that names [h] and
    holds a number. *)
Lemma observations_In (h : string) (df : list (Row (option Z))) (v : Row Z) :
  In v (observations h df)
  <-> exists r, In r df /\ Frame.hospital r = h
                /\ total_num r = Some (total_num v)
                /\ v = mkRow (date r) h (total_num v) (total_color r).
Proof.
  induction df as [|r df IH]; cbn [observations In].
  - split; [intros [] | intros [r [[] _]]].
  - destruct (total_num r) as [n|] eqn:En.
    + destruct (String.eqb_spec h (Frame.hospital r)) as [E|E]; cbn [In]; rewrite IH; split.
      * intros [<-|[r' [Hin H]]]; [|exists r'; tauto].
        exists r. simpl. rewrite En. auto.
      * intros [r' [[<-|Hin] (Hh & Hn & Hv)]]; [|right; exists r'; tauto].
        left. rewrite Hv. f_equal. congruence.
      * intros [r' [Hin H]]. exists r'. tauto.
      * intros [r' [[<-|Hin] (Hh & H)]]; [congruence|]. exists r'. tauto.
    + rewrite IH. split.
      * intros [r' [Hin H]]. exists r'. tauto.
      * intros [r' [[<-|Hin] (Hh & Hn & H)]]; [congruence|]. exists r'. tauto.
Qed.

Lemma observations_colored (h : string) (df : list (Row (option Z))) (v : Row Z) :
  all_colored df -> In v (observations h df) -> total_color v <> None.
Proof.
  intros Hc Hv. apply observations_In in Hv.
  destruct Hv as [r (Hin & _ & _ & ->)]. simpl. now apply Hc.
Qed.

Lemma ordered_observations_colored (sort_values : list (Row Z) -> list (Row Z))
    (df : list (Row (option Z))) (h : string) (v : Row Z) :
  sort_contract sort_values ->
  all_colored df ->
  In v (ordered_observations sort_values df h) -> total_color v <> None.
Proof.
  intros Hs Hc Hv. apply (observations_colored h df v Hc).
  apply (Permutation_in v (Permutation_sym (proj1 (Hs (observations h df))))).
  exact Hv.
Qed.

Lemma adjacent_pairs_members {A : Type} (l : list A) (a b : A) :
  In (a, b) (adjacent_pairs l) -> In a l /\ In b l.
Proof.
  unfold adjacent_pairs. intros H. split.
  - now apply in_combine_l in H.
  - apply in_combine_r in H. destruct l; [destruct H | now right].
Qed.

(** *** The names of the frame *)

Lemma filter_filter {A : Type} (p q : A -> bool) (l : list A) :
  filter p (filter q l) = filter (fun x => q x && p x) l.
Proof.
  induction l as [|x l IH]; simpl; [reflexivity|].
  destruct (q x); simpl; [destruct (p x)|]; now rewrite IH.
Qed.

(** [unique()] lists the names in order of first appearance. *)
Lemma unique_from_first_appearances (seen names : list string) :
  unique_from String.eqb seen names
  = filter (fun y => negb (existsb (String.eqb y) seen)) (first_appearances names).
Proof.
  revert seen. induction names as [|x names IH]; intros seen; [reflexivity|].
  cbn [unique_from first_appearances filter].
  rewrite filter_filter. destruct (existsb (String.eqb x) seen) eqn:E; cbn [negb].
  - rewrite IH. apply filter_ext_in. intros y _.
    destruct (String.eqb_spec y x) as [->|Hne]; cbn [negb andb];
      [now rewrite E | reflexivity].
  - f_equal. rewrite IH. apply filter_ext. intros y.
    cbn [existsb]. now destruct (String.eqb y x).
Qed.

Lemma unique_first_appearances (names : list string) :
  unique String.eqb names = first_appearances names.
Proof.
  unfold unique. rewrite unique_from_first_appearances.
  induction (first_appearances names) as [|y l IH]; simpl in *;
    [reflexivity | now f_equal].
Qed.

Lemma hospitals_In (df : list (Row (option Z))) (h : string) :
  In h (hospitals df) <-> In h (map Frame.hospital df).
Proof.
  unfold hospitals. rewrite <- unique_first_appearances.
  apply (unique_In String.eqb String.eqb_eq).
Qed.

Lemma analysed_hospitals_In (df : list (Row (option Z))) (h : string) :
  In h (analysed_hospitals df)
  <-> In h (map Frame.hospital df) /\ h <> "National Total".
Proof.
  unfold analysed_hospitals.
  rewrite filter_In, hospitals_In, negb_true_iff, String.eqb_neq. tauto.
Qed.

Lemma flat_map_skip {A B : Type} (keep : A -> bool) (f : A -> list B) (l : list A) :
  flat_map (fun x => if keep x then f x else []) l = flat_map f (filter keep l).
Proof.
  induction l as [|x l IH]; simpl; [reflexivity|].
  destruct (keep x); simpl; now rewrite IH.
Qed.

Lemma Sorted_Adjacent {A : Type} (R : A -> A -> Prop) (l : list A) (a b : A) :
  Sorted R l -> Adjacent l a b -> R a b.
Proof.
  intros Hs. induction Hs as [|x l Hl IH Hhd]; intros [i [Ha Hb]].
  - destruct i; discriminate.
  - destruct i as [|i].
    + simpl in Ha, Hb. injection Ha as ->.
      destruct l as [|y l]; [discriminate|]. simpl in Hb. injection Hb as ->.
      now inversion Hhd.
    + apply IH. now exists i.
Qed.

(** *** The two analyses as passes over consecutive pairs *)

(** The batch analysis, hospital by hospital: the pairs of consecutive rows
    that pass the test of the code. *)
Lemma find_exact_boundaries_pairs (sort_values : list (Row Z) -> list (Row Z))
    (df : list (Row (option Z))) :
  AnalyzeBoundaries.find_exact_boundaries sort_values df
  = flat_map
      (fun h =>
         map (fun pq => AnalyzeBoundaries.exact_entry h (fst pq) (snd pq))
             (filter (fun pq => AnalyzeBoundaries.is_exact (fst pq) (snd pq))
                (adjacent_pairs (ordered_observations sort_values df h))))
      (analysed_hospitals df).
Proof.
  unfold AnalyzeBoundaries.find_exact_boundaries, analysed_hospitals, hospitals.
  rewrite <- unique_first_appearances, <- flat_map_skip.
  rewrite (fold_left_appending (AnalyzeBoundaries.exact_step sort_values df)
             (fun h => if negb (String.eqb h "National Total")
                       then map (fun pq => AnalyzeBoundaries.exact_entry h (fst pq) (snd pq))
                              (filter (fun pq => AnalyzeBoundaries.is_exact (fst pq) (snd pq))
                                 (adjacent_pairs (ordered_observations sort_values df h)))
                       else [])); [reflexivity|].
  intros acc h. unfold AnalyzeBoundaries.exact_step.
  destruct (String.eqb h "National Total"); cbn [negb]; [now rewrite app_nil_r|].
  rewrite scan_exact_as_scan, scan_adjacent, dropna_select_hospital. reflexivity.
Qed.

Lemma find_color_boundaries_pairs (sort_values : list (Row Z) -> list (Row Z))
    (df : list (Row (option Z))) :
  ScrapeColors.find_color_boundaries sort_values df
  = flat_map
      (fun h =>
         map (fun pq => ScrapeColors.boundary_entry h (fst pq) (snd pq))
             (filter (fun pq => color_ne (total_color (fst pq)) (total_color (snd pq)))
                (adjacent_pairs (ordered_observations sort_values df h))))
      (hospitals df).
Proof.
  unfold ScrapeColors.find_color_boundaries, hospitals.
  rewrite <- unique_first_appearances.
  rewrite (fold_left_appending _
             (fun h => map (fun pq => ScrapeColors.boundary_entry h (fst pq) (snd pq))
                         (filter (fun pq => color_ne (total_color (fst pq))
                                              (total_color (snd pq)))
                            (adjacent_pairs (ordered_observations sort_values df h)))));
    [reflexivity|].
  intros acc h.
  rewrite scan_transitions_as_scan, scan_adjacent, dropna_select_hospital. reflexivity.
Qed.


(** Without a colour on either side the test passes on the gap alone, and
    the entry prints the missing colour as [nan]. *)
Lemma is_exact_missing_color (p row : Row Z) :
  total_color p = None \/ total_color row = None ->
  AnalyzeBoundaries.is_exact p row = (total_num row - total_num p =? 1)%Z.
Proof.
  intros H. unfold AnalyzeBoundaries.is_exact.
  destruct H as [E|E]; rewrite E;
    [rewrite (proj2 (color_ne_missing _)) | rewrite (proj1 (color_ne_missing _))];
    apply andb_true_r.
Qed.


(** Two maps over two filters agree when test and entry agree on the
    members of the list. *)
Lemma map_filter_ext_in {A B : Type} (p q : A -> bool) (f g : A -> B) (l : list A) :
  (forall x, In x l -> p x = q x /\ f x = g x) ->
  map f (filter p l) = map g (filter q l).
Proof.
  intros H. induction l as [|x l IH]; [reflexivity|].
  destruct (H x (or_introl eq_refl)) as [Hp Hf].
  cbn [filter]. rewrite <- Hp.
  assert (IH' : map f (filter p l) = map g (filter q l)).
  { apply IH. intros y Hy. apply H. now right. }
  destruct (p x); cbn [map]; now rewrite ?Hf, IH'.
Qed.

End BoundaryFacts.

Module BoundaryClaims.
Import Frame Spec Scenarios LoopFacts BoundaryFacts.

Section WithSort.
Variable sort_values : list (Row Z) -> list (Row Z).
Hypothesis sort_values_ok : sort_contract sort_values.


(** C10: take a frame whose rows all carry a colour and whose counts are
    below 2^53 in size.  [find_color_boundaries] looks at every hospital of
    the frame (the national total included), arranges its valid
    observations (the rows that name it and hold a number) by ascending
    count, and reports exactly one entry for each consecutive pair of that
    arrangement whose colours differ, whatever the gap between the two
    counts; the entry records the gap as [difference], which is never
    negative and may be 0 or more than 1. *)
Theorem find_color_boundaries_every_transition (df : list (Row (option Z))) :
  all_colored df ->
  exact_counts df ->
  (forall h v,
      In v (observations h df)
      <-> exists r, In r df /\ Frame.hospital r = h
                    /\ total_num r = Some (total_num v)
                    /\ v = mkRow (date r) h (total_num v) (total_color r))
  /\ (forall h,
         Permutation (observations h df) (ordered_observations sort_values df h)
         /\ Sorted count_le (ordered_observations sort_values df h))
  /\ ScrapeColors.find_color_boundaries sort_values df
     = flat_map
         (fun h =>
            map (fun pq =>
                   ScrapeColors.mkColorBoundary h
                     (total_num (fst pq)) (total_color (fst pq))
                     (total_num (snd pq)) (total_color (snd pq))
                     (total_num (snd pq) - total_num (fst pq))%Z
                     (date (fst pq)) (date (snd pq)))
                (filter colors_differ
                   (adjacent_pairs (ordered_observations sort_values df h))))
         (hospitals df)
  /\ (forall e,
         In e (ScrapeColors.find_color_boundaries sort_values df)
         <-> exists h a b,
               In h (map Frame.hospital df)
               /\ Adjacent (ordered_observations sort_values df h) a b
               /\ total_color a <> total_color b
               /\ e = ScrapeColors.mkColorBoundary h
                        (total_num a) (total_color a)
                        (total_num b) (total_color b)
                        (total_num b - total_num a)%Z (date a) (date b))
  /\ (forall e,
         In e (ScrapeColors.find_color_boundaries sort_values df) ->
         ScrapeColors.difference e
         = (ScrapeColors.to_value e - ScrapeColors.from_value e)%Z
         /\ (0 <= ScrapeColors.difference e < 2 ^ 54)%Z).
Proof.
  intros Hcol Hexact.
  assert (Heq :
    ScrapeColors.find_color_boundaries sort_values df
    = flat_map
        (fun h =>
           map (fun pq => ScrapeColors.boundary_entry h (fst pq) (snd pq))
               (filter colors_differ
                  (adjacent_pairs (ordered_observations sort_values df h))))
        (hospitals df)).
  { rewrite find_color_boundaries_pairs. apply flat_map_ext. intros h.
    apply map_filter_ext_in. intros [p row] Hin. cbn [fst snd].
    apply adjacent_pairs_members in Hin. destruct Hin as [Hp Hrow].
    apply (ordered_observations_colored _ _ _ _ sort_values_ok Hcol) in Hp.
    apply (ordered_observations_colored _ _ _ _ sort_values_ok Hcol) in Hrow.
    split; [|reflexivity]. unfold colors_differ. cbn [fst snd].
    now apply color_ne_colored. }
  assert (Hmem : forall e,
    In e (ScrapeColors.find_color_boundaries sort_values df)
    <-> exists h a b,
          In h (map Frame.hospital df)
          /\ Adjacent (ordered_observations sort_values df h) a b
          /\ total_color a <> total_color b
          /\ e = ScrapeColors.boundary_entry h a b).
  { intros e. rewrite Heq, in_flat_map. split.
    - intros [h [Hh He]]. apply hospitals_In in Hh.
      apply in_map_iff in He. destruct He as [[a b] [<- Hab]].
      apply filter_In in Hab. destruct Hab as [Hadj Hc].
      apply adjacent_pairs_In in Hadj. apply colors_differ_true in Hc.
      exists h, a, b. repeat split; try assumption; reflexivity.
    - intros (h & a & b & Hh & Hadj & Hc & ->).
      exists h. split; [now apply hospitals_In|].
      apply in_map_iff. exists (a, b). split; [reflexivity|].
      apply filter_In. split; [now apply adjacent_pairs_In|].
      now apply colors_differ_true. }
  split; [intros h v; apply observations_In|].
  split; [intros h; apply sort_values_ok|].
  split; [exact Heq|]. split; [exact Hmem|].
  intros e He. apply Hmem in He. destruct He as (h & a & b & _ & Hadj & _ & ->).
  cbn [ScrapeColors.boundary_entry ScrapeColors.difference
       ScrapeColors.to_value ScrapeColors.from_value].
  split; [reflexivity|].
  assert (Hle : count_le a b).
  { apply (Sorted_Adjacent count_le _ a b (proj2 (sort_values_ok _)) Hadj). }
  assert (Hsmall : forall v, In v (ordered_observations sort_values df h) ->
                             (Z.abs (total_num v) < 2 ^ 53)%Z).
  { intros v Hv.
    apply (Permutation_in v (Permutation_sym (proj1 (sort_values_ok _)))) in Hv.
    apply observations_In in Hv. destruct Hv as [r (Hin & _ & Hn & _)].
    exact (Hexact r _ Hin Hn). }
  apply adjacent_pairs_In, adjacent_pairs_members in Hadj. destruct Hadj as [Ha Hb].
  apply Hsmall in Ha. apply Hsmall in Hb.
  unfold count_le in Hle. lia.
Qed.

End WithSort.


(** Gaps of 0 and of 5 are both reported, each with its difference, while
    the batch analysis reports neither. *)
Lemma find_color_boundaries_every_transition_witness :
  map (fun e => (ScrapeColors.from_value e, ScrapeColors.to_value e,
                 ScrapeColors.difference e))
      (ScrapeColors.find_color_boundaries stable_sort_values tie_and_jump)
  = [(10, 10, 0); (10, 15, 5)]%Z
  /\ AnalyzeBoundaries.find_exact_boundaries stable_sort_values tie_and_jump = []
  /\ In (ScrapeColors.mkColorBoundary "X" 10 (Some "amber") 15 (Some "red") 5
           "02/01/2026" "03/01/2026")
        (ScrapeColors.find_color_boundaries stable_sort_values tie_and_jump).
Proof.
  split; [reflexivity|]. split; [reflexivity|].
  destruct (find_color_boundaries_every_transition
              stable_sort_values stable_sort_values_contract tie_and_jump)
    as (_ & _ & _ & Hmem & _).
  - intros r [<-|[<-|[<-|[<-|[]]]]]; discriminate.
  - intros r n [<-|[<-|[<-|[<-|[]]]]] [= <-]; simpl; lia.
  - apply Hmem.
    exists "X", (mkRow "02/01/2026" "X" 10%Z (Some "amber")),
           (mkRow "03/01/2026" "X" 15%Z (Some "red")).
    split; [now left|]. split; [now exists 1|]. split; [discriminate | reflexivity].
Defined.

End BoundaryClaims.

(* ===================================================================== *)
(** ** The daily scraper: master row and persistence *)
(* ===================================================================== *)

Module DailyFacts.
Import PyStr ScrapeHseData Spec Scenarios LoopFacts.

(** *** Finding the master row *)

Lemma first_master_row_None (rows : list (list Cell)) :
  first_master_row rows = None
  <-> forall row, In row rows -> (hospital_count row < 50)%nat.
Proof.
  induction rows as [|row rest IH]; cbn [first_master_row].
  - split; [intros _ r [] | reflexivity].
  - destruct (50 <=? hospital_count row)%nat eqn:E.
    + apply Nat.leb_le in E. split; [discriminate|].
      intros H. specialize (H row (or_introl eq_refl)). lia.
    + apply Nat.leb_gt in E. rewrite IH. split.
      * intros H r [<-|Hr]; [exact E | now apply H].
      * intros H r Hr. apply H. now right.
Qed.

Lemma first_master_row_first (pre post : list (list Cell)) (m : list Cell) :
  (forall row, In row pre -> (hospital_count row < 50)%nat) ->
  (50 <= hospital_count m)%nat ->
  first_master_row (pre ++ m :: post) = Some m.
Proof.
  intros Hpre Hm. induction pre as [|row pre IH]; cbn [app first_master_row].
  - apply Nat.leb_le in Hm. now rewrite Hm.
  - assert (E : (50 <=? hospital_count row)%nat = false).
    { apply Nat.leb_gt. apply Hpre. now left. }
    rewrite E. apply IH. intros r Hr. apply Hpre. now right.
Qed.

(** C6, as stated, fails: with one header row only, the qualifying row is
    the second row of the table, which the code skips with the first; the
    noise rows do not qualify and the call ends with NoMasterRowFound. *)
Lemma one_header_row_master_skipped :
  hospital_count master_row_62 = 62%nat
  /\ hospital_count noise_row = 3%nat
  /\ scrape_hse_trolleygar "2026-01-05 09:00:00" "05/01/2026" (Some one_header_table)
     = inl NoMasterRowFound.
Proof. repeat split. Qed.

(** C6, amended: in daily mode the extractor passes over the first two rows
    of the table, whatever they hold, and selects the first later row in
    which at least 50 cells have colspan >= 8 (the text of those cells is not
    looked at); the result is the decoding of that row alone.  If no row
    after the first two qualifies the call fails with NoMasterRowFound, and
    without a table with NoTableFound; neither returns records. *)
Theorem scrape_hse_trolleygar_master_row (now date_str : string) :
  scrape_hse_trolleygar now date_str None = inl NoTableFound
  /\ (forall rows,
        (forall row, In row (skipn 2 rows) -> (hospital_count row < 50)%nat) <->
        scrape_hse_trolleygar now date_str (Some rows) = inl NoMasterRowFound)
  /\ (forall h1 h2 pre m post,
        (forall row, In row pre -> (hospital_count row < 50)%nat) ->
        (50 <= hospital_count m)%nat ->
        find_master_row (h1 :: h2 :: pre ++ m :: post) = Some m
        /\ scrape_hse_trolleygar now date_str (Some (h1 :: h2 :: pre ++ m :: post))
           = inr (decode_row now date_str m)).
Proof.
  split; [reflexivity|]. split.
  - intros rows. unfold scrape_hse_trolleygar, find_master_row.
    rewrite <- first_master_row_None.
    destruct (first_master_row (skipn 2 rows)); split; congruence.
  - intros h1 h2 pre m post Hpre Hm.
    unfold scrape_hse_trolleygar, find_master_row. cbn [skipn].
    now rewrite (first_master_row_first pre post m Hpre Hm).
Qed.

(** The scenario with two header rows: the row with 62 boundaries is the
    one selected, and its 62 entities are the result. *)
Lemma scrape_hse_trolleygar_master_row_witness :
  find_master_row two_header_table = Some master_row_62
  /\ scrape_hse_trolleygar "2026-01-05 09:00:00" "05/01/2026" (Some two_header_table)
     = inr (decode_row "2026-01-05 09:00:00" "05/01/2026" master_row_62)
  /\ length (decode_row "2026-01-05 09:00:00" "05/01/2026" master_row_62) = 62%nat.
Proof.
  destruct (scrape_hse_trolleygar_master_row "2026-01-05 09:00:00" "05/01/2026")
    as (_ & _ & Hsel).
  destruct (Hsel header_row header_row [] master_row_62 [noise_row; noise_row])
    as [Hfind Hscrape].
  - intros row [].
  - apply Nat.leb_le. vm_compute. reflexivity.
  - split; [exact Hfind|]. split; [exact Hscrape|]. vm_compute. reflexivity.
Defined.

(** *** Appending to the stored frame *)

Lemma value_eqb_spec (a b : Value) : value_eqb a b = true <-> a = b.
Proof.
  destruct a as [x|x|], b as [y|y|]; simpl; try (split; congruence);
    rewrite String.eqb_eq; split; congruence.
Qed.

Lemma row_eqb_spec (a b : list Value) : row_eqb a b = true <-> a = b.
Proof.
  revert b. induction a as [|x a IH]; intros [|y b]; simpl; try (split; congruence).
  rewrite andb_true_iff, value_eqb_spec, IH. split; [intros [-> ->] | intros [= -> ->]]; auto.
Qed.

Lemma drop_duplicates_In (r : list Value) (df : list (list Value)) :
  In r (drop_duplicates df) <-> In r df.
Proof. apply (unique_In row_eqb row_eqb_spec). Qed.

Lemma drop_duplicates_NoDup (df : list (list Value)) : NoDup (drop_duplicates df).
Proof. apply (unique_NoDup row_eqb row_eqb_spec). Qed.

Lemma drop_duplicates_id (df : list (list Value)) :
  NoDup df -> drop_duplicates df = df.
Proof.
  intros H. apply (unique_from_id row_eqb row_eqb_spec); [exact H | intros x _ []].
Qed.

(** Rows the frame already holds add nothing. *)
Lemma drop_duplicates_absorb (existing df : list (list Value)) :
  (forall r, In r df -> In r existing) ->
  drop_duplicates (existing ++ df) = drop_duplicates existing.
Proof.
  intros Hsub. unfold drop_duplicates, unique.
  rewrite unique_from_app, (unique_from_seen row_eqb row_eqb_spec df).
  - now rewrite app_nil_r.
  - intros x Hx. rewrite app_nil_r. apply in_rev. rewrite rev_involutive.
    apply (proj2 (unique_In row_eqb row_eqb_spec x existing)). now apply Hsub.
Qed.

Lemma write_file_same (filename : string) (df : list (list Value)) (fs : Files) :
  write_file filename df fs filename = Some df.
Proof. unfold write_file. now rewrite String.eqb_refl. Qed.

Lemma save_to_csv_new (read_csv : list (list Value) -> list (list Value))
    (df : list DailyRow) (filename : string) (append : bool) (fs : Files) :
  fs filename = None ->
  save_to_csv read_csv df filename append fs filename = Some (map cells_of df).
Proof.
  intros H. unfold save_to_csv. rewrite H.
  destruct append; apply write_file_same.
Qed.

Lemma save_to_csv_existing (read_csv : list (list Value) -> list (list Value))
    (df : list DailyRow) (written : list (list Value)) (filename : string)
    (fs : Files) :
  fs filename = Some written ->
  save_to_csv read_csv df filename true fs filename
  = Some (drop_duplicates (read_csv written ++ map cells_of df)).
Proof. intros H. unfold save_to_csv. rewrite H. apply write_file_same. Qed.

(** C9 fails on the code.  Appending one scraped row to a file that does
    not exist stores that row; appending it a second time stores two rows
    whenever [read_csv] returns the stored row with a cell typed anew, as it
    does for a cell of digits: the row read back and the row appended differ
    in that cell, and [drop_duplicates] keeps both. *)
Theorem save_to_csv_second_append_keeps_both
    (read_csv : list (list Value) -> list (list Value))
    (r : DailyRow) (existing_row : list Value) (filename : string) (fs : Files) :
  fs filename = None ->
  read_csv [cells_of r] = [existing_row] ->
  existing_row <> cells_of r ->
  save_to_csv read_csv [r] filename true fs filename = Some [cells_of r]
  /\ save_to_csv read_csv [r] filename true
       (save_to_csv read_csv [r] filename true fs) filename
     = Some [existing_row; cells_of r].
Proof.
  intros Hnew Hread Hne.
  pose proof (save_to_csv_new read_csv [r] filename true fs Hnew) as Hfirst.
  split; [exact Hfirst|].
  rewrite (save_to_csv_existing read_csv [r] _ filename _ Hfirst).
  cbn [map]. rewrite Hread. unfold drop_duplicates, unique.
  cbn [app unique_from existsb orb].
  destruct (row_eqb (cells_of r) existing_row) eqn:E; [|reflexivity].
  apply row_eqb_spec in E. congruence.
Qed.

(** The row of the scenario holds the counts 3, 2, 5 and 1: read back they
    are numbers, and the second append leaves two rows. *)
Lemma save_to_csv_second_append_keeps_both_witness :
  save_to_csv read_csv_plain [daily_row "St. X Hospital" "5"] "hse.csv" true
    (save_to_csv read_csv_plain [daily_row "St. X Hospital" "5"] "hse.csv" true
       (fun _ => None))
    "hse.csv"
  = Some [ [ Text "St. X Hospital"; Number "3"; Number "2"; Number "5";
             Missing; Missing; Number "1"; Missing;
             Text "2026-01-05 09:00:00"; Text "05/01/2026" ];
           [ Text "St. X Hospital"; Text "3"; Text "2"; Text "5";
             Missing; Missing; Text "1"; Missing;
             Text "2026-01-05 09:00:00"; Text "05/01/2026" ] ].
Proof.
  apply (save_to_csv_second_append_keeps_both read_csv_plain
           (daily_row "St. X Hospital" "5")
           [ Text "St. X Hospital"; Number "3"; Number "2"; Number "5";
             Missing; Missing; Number "1"; Missing;
             Text "2026-01-05 09:00:00"; Text "05/01/2026" ]
           "hse.csv" (fun _ => None)).
  - reflexivity.
  - reflexivity.
  - discriminate.
Defined.

End DailyFacts.

(* ===================================================================== *)
(** ** The cursor decoders *)
(* ===================================================================== *)

Module CursorFacts.

(** The cells from the cursor on: the cell under the cursor, if any, then
    the cells after it. *)
Lemma skipn_nth_error {A : Type} (l : list A) (i : nat) :
  skipn i l = match nth_error l i with
              | Some c => c :: skipn (S i) l
              | None => []
              end.
Proof.
  revert i. induction l as [|x l IH]; intros [|i]; try reflexivity.
  simpl nth_error. rewrite <- IH. reflexivity.
Qed.

Lemma nth_error_In_cell {A : Type} (l : list A) (i : nat) (c : A) :
  nth_error l i = Some c -> In c l /\ (i < length l)%nat.
Proof.
  intros H. split; [now apply nth_error_In in H|].
  apply nth_error_Some. congruence.
Qed.

Lemma length_firstn_skipn {A : Type} (l : list A) (n i : nat) :
  length (firstn n (skipn i l)) = Nat.min n (length l - i).
Proof. now rewrite length_firstn, length_skipn. Qed.

End CursorFacts.

Module SurveyFacts.
Import PyStr ScrapeColors Spec CursorFacts.

(** The statistics block is the next [n] cells, or as many as are left. *)
Lemma survey_collect_stats_spec (n : nat) (all_cells : list Cell) (i : nat)
    (stats : list Stat) :
  collect_stats n all_cells i stats
  = ((i + Nat.min n (length all_cells - i))%nat,
     stats ++ map stat_of (firstn n (skipn i all_cells))).
Proof.
  revert i stats. induction n as [|n IH]; intros i stats.
  - simpl. now rewrite Nat.add_0_r, app_nil_r.
  - cbn [collect_stats]. rewrite (skipn_nth_error all_cells i).
    destruct (nth_error all_cells i) as [c|] eqn:E.
    + apply nth_error_In_cell in E. destruct E as [_ Hi].
      rewrite IH. cbn [firstn map]. rewrite <- app_assoc. f_equal. lia.
    + apply nth_error_None in E. rewrite IH.
      rewrite (skipn_all2 all_cells) by lia. rewrite firstn_nil. f_equal. lia.
Qed.

Lemma survey_skip_separator_bounds (all_cells : list Cell) (i : nat) :
  (i <= length all_cells)%nat ->
  (i <= skip_separator all_cells i <= length all_cells)%nat.
Proof.
  intros Hi. unfold skip_separator.
  destruct (nth_error all_cells i) as [c|] eqn:E; [|lia].
  apply nth_error_In_cell in E. destruct (String.eqb (text c) ""); lia.
Qed.

Lemma stats_record_Some (date_str name : string) (stats : list Stat) :
  (11 <= length stats)%nat ->
  exists record, stats_record date_str name stats = Some record
                 /\ hospital record = name.
Proof.
  intros H. do 11 (destruct stats as [|? stats]; [simpl in H; lia|]).
  simpl. eauto.
Qed.

Lemma stats_record_None (date_str name : string) (stats : list Stat) :
  (length stats < 11)%nat -> stats_record date_str name stats = None.
Proof.
  intros H.
  do 11 (destruct stats as [|? stats]; [reflexivity|]).
  simpl in H. lia.
Qed.

Lemma stats_record_hospital (date_str name : string) (stats : list Stat)
    (record : ColorRecord) :
  stats_record date_str name stats = Some record -> hospital record = name.
Proof.
  intros H. do 11 (destruct stats as [|? stats]; [discriminate|]).
  simpl in H. now injection H as <-.
Qed.

(** One turn at a boundary that is not a regional header. *)
Lemma v2_body_entity (date_str : string) (all_cells : list Cell) (i : nat)
    (data : list ColorRecord) (cell : Cell) :
  nth_error all_cells i = Some cell ->
  (8 <= colspan cell)%Z ->
  text cell <> "" ->
  is_regional_header (text cell) = false ->
  let start := skip_separator all_cells (S i) in
  let stats := map stat_of (firstn 12 (skipn start all_cells)) in
  v2_body date_str all_cells i data
  = ((start + Nat.min 12 (length all_cells - start))%nat,
     match stats_record date_str (text cell) stats with
     | Some record => data ++ [record]
     | None => data
     end).
Proof.
  intros Hcell Hspan Htext Hhdr start stats. unfold v2_body. rewrite Hcell.
  apply Z.leb_le in Hspan. apply PyStrFacts.truthy_true in Htext.
  rewrite Hspan, Htext, Hhdr. cbn [andb].
  rewrite survey_collect_stats_spec. cbn [app]. fold start. fold stats.
  now destruct (stats_record date_str (text cell) stats).
Qed.

(** Each turn moves the cursor forward and keeps what was recorded. *)
Lemma v2_body_progress (date_str : string) (all_cells : list Cell) (i : nat)
    (data : list ColorRecord) :
  (i < length all_cells)%nat ->
  (i < fst (v2_body date_str all_cells i data))%nat
  /\ exists more, snd (v2_body date_str all_cells i data) = data ++ more
                  /\ forall r, In r more ->
                       is_regional_header (hospital r) = false
                       /\ exists cell, In cell all_cells /\ (8 <= colspan cell)%Z
                                       /\ text cell = hospital r
                                       /\ hospital r <> "".
Proof.
  intros Hi. unfold v2_body.
  destruct (nth_error all_cells i) as [cell|] eqn:Hcell;
    [|apply nth_error_None in Hcell; lia].
  destruct ((8 <=? colspan cell)%Z && truthy (text cell)) eqn:Hb.
  - destruct (is_regional_header (text cell)) eqn:Hhdr.
    + simpl. split; [lia|]. exists []. rewrite app_nil_r. split; [reflexivity | intros r []].
    + rewrite survey_collect_stats_spec. cbn [app].
      pose proof (survey_skip_separator_bounds all_cells (S i) Hi) as Hsep.
      apply andb_true_iff in Hb. destruct Hb as [Hspan Htext].
      apply Z.leb_le in Hspan. apply PyStrFacts.truthy_true in Htext.
      destruct (stats_record date_str (text cell) _) as [record|] eqn:Hrec; simpl.
      * split; [lia|]. exists [record]. split; [reflexivity|].
        intros r [<-|[]]. apply stats_record_hospital in Hrec. rewrite Hrec.
        split; [exact Hhdr|]. exists cell. repeat split; try assumption.
        now apply nth_error_In in Hcell.
      * split; [lia|]. exists []. rewrite app_nil_r.
        split; [reflexivity | intros r []].
  - simpl. split; [lia|]. exists []. rewrite app_nil_r. split; [reflexivity | intros r []].
Qed.

(** The loop, given as many turns as there are cells, leaves through its own
    test, and what it adds are entities that are no regional headers. *)
Lemma v2_loop_spec (fuel : nat) (date_str : string) (all_cells : list Cell)
    (i : nat) (data : list ColorRecord) :
  (length all_cells - i <= fuel)%nat ->
  (length all_cells <= fst (v2_loop fuel date_str all_cells i data))%nat
  /\ exists more, snd (v2_loop fuel date_str all_cells i data) = data ++ more
                  /\ forall r, In r more ->
                       is_regional_header (hospital r) = false
                       /\ exists cell, In cell all_cells /\ (8 <= colspan cell)%Z
                                       /\ text cell = hospital r
                                       /\ hospital r <> "".
Proof.
  revert i data. induction fuel as [|fuel IH]; intros i data Hfuel.
  - simpl. split; [lia|]. exists []. rewrite app_nil_r. split; [reflexivity | intros r []].
  - cbn [v2_loop]. destruct (i <? length all_cells)%nat eqn:Hi.
    + apply Nat.ltb_lt in Hi.
      destruct (v2_body_progress date_str all_cells i data Hi)
        as [Hprog [more1 [Hdata1 Hmore1]]].
      destruct (v2_body date_str all_cells i data) as [i' data'] eqn:Hbody.
      simpl in Hprog, Hdata1. subst data'.
      destruct (IH i' (data ++ more1)) as [Hexit [more2 [Hdata2 Hmore2]]]; [lia|].
      split; [exact Hexit|]. exists (more1 ++ more2).
      rewrite Hdata2, app_assoc. split; [reflexivity|].
      intros r Hr. apply in_app_or in Hr. destruct Hr; auto.
    + apply Nat.ltb_ge in Hi. simpl. split; [lia|]. exists [].
      rewrite app_nil_r. split; [reflexivity | intros r []].
Qed.

(** More fuel than cells changes nothing. *)
Lemma v2_loop_fuel (fuel fuel' : nat) (date_str : string) (all_cells : list Cell)
    (i : nat) (data : list ColorRecord) :
  (length all_cells - i <= fuel)%nat ->
  (length all_cells - i <= fuel')%nat ->
  v2_loop fuel date_str all_cells i data = v2_loop fuel' date_str all_cells i data.
Proof.
  revert fuel' i data. induction fuel as [|fuel IH]; intros fuel' i data H H'.
  - destruct fuel' as [|fuel']; [reflexivity|]. cbn [v2_loop].
    assert (E : (i <? length all_cells)%nat = false) by (apply Nat.ltb_ge; lia).
    now rewrite E.
  - cbn [v2_loop]. destruct (i <? length all_cells)%nat eqn:Hi.
    + apply Nat.ltb_lt in Hi. destruct fuel' as [|fuel']; [lia|].
      cbn [v2_loop]. apply Nat.ltb_lt in Hi. rewrite Hi. apply Nat.ltb_lt in Hi.
      pose proof (v2_body_progress date_str all_cells i data Hi) as [Hprog _].
      destruct (v2_body date_str all_cells i data) as [i' data'].
      simpl in Hprog. apply IH; lia.
    + destruct fuel' as [|fuel']; [reflexivity|]. cbn [v2_loop]. now rewrite Hi.
Qed.

(** The loop over rows of [scrape_with_colors] adds what each row gives. *)
Lemma append_rows_flat_map (date_str : string) (rows : list (list Cell))
    (data : list ColorRecord) :
  fold_left (append_row date_str) rows data
  = data ++ flat_map (fun cells => match row_record date_str cells with
                                   | Some record => [record]
                                   | None => []
                                   end) rows.
Proof.
  apply LoopFacts.fold_left_appending. intros acc cells. unfold append_row.
  destruct (row_record date_str cells); [reflexivity | now rewrite app_nil_r].
Qed.

Lemma row_record_few_values (date_str : string) (cells : list Cell) :
  (length (nonempty_values (data_cells_of (tl cells))) < 3)%nat ->
  row_record date_str cells = None.
Proof.
  intros H. unfold row_record.
  destruct (length cells <? 5)%nat; [reflexivity|].
  destruct cells as [|first_cell rest]; [reflexivity|]. cbn [tl] in H.
  destruct (8 <=? colspan first_cell)%Z; [|reflexivity].
  destruct (startswith "HSE " (text first_cell)
            && negb (contains "Total" (text first_cell))); [reflexivity|].
  destruct (negb (truthy (text first_cell))); [reflexivity|].
  destruct (3 <=? length (data_cells_of rest))%nat; [|reflexivity].
  destruct (nonempty_values (data_cells_of rest)) as [|v0 [|v1 [|v2 more]]];
    try reflexivity.
  simpl in H. lia.
Qed.

End SurveyFacts.

Module DailyDecoderFacts.
Import PyStr ScrapeHseData Spec CursorFacts.

Lemma daily_collect_stats_spec (n : nat) (cells : list Cell) (i : nat)
    (stats : list (option string)) :
  collect_stats n cells i stats
  = ((i + Nat.min n (length cells - i))%nat,
     stats ++ map val_of (firstn n (skipn i cells))).
Proof.
  revert i stats. induction n as [|n IH]; intros i stats.
  - simpl. now rewrite Nat.add_0_r, app_nil_r.
  - cbn [collect_stats]. rewrite (skipn_nth_error cells i).
    destruct (nth_error cells i) as [c|] eqn:E.
    + apply nth_error_In_cell in E. destruct E as [_ Hi].
      rewrite IH. cbn [firstn map]. rewrite <- app_assoc. f_equal. lia.
    + apply nth_error_None in E. rewrite firstn_nil, app_nil_r. f_equal. lia.
Qed.

Lemma daily_skip_separator_bounds (cells : list Cell) (i : nat) :
  (i <= length cells)%nat ->
  (i <= skip_separator cells i <= length cells)%nat.
Proof.
  intros Hi. unfold skip_separator.
  destruct (nth_error cells i) as [c|] eqn:E; [|lia].
  apply nth_error_In_cell in E. destruct (String.eqb (text c) ""); lia.
Qed.

Lemma stats_row_Some (now date_str name : string) (stats : list (option string)) :
  name <> "" ->
  (11 <= length stats)%nat ->
  exists row, stats_row now date_str name stats = Some row /\ Hospital row = name.
Proof.
  intros Hname H. unfold stats_row.
  apply PyStrFacts.truthy_true in Hname. rewrite Hname.
  do 11 (destruct stats as [|? stats]; [simpl in H; lia|]).
  simpl. eauto.
Qed.

Lemma stats_row_hospital (now date_str name : string) (stats : list (option string))
    (row : DailyRow) :
  stats_row now date_str name stats = Some row ->
  Hospital row = name /\ name <> "".
Proof.
  unfold stats_row. destruct (truthy name) eqn:Hname; [|discriminate].
  apply PyStrFacts.truthy_true in Hname. intros H.
  do 11 (destruct stats as [|? stats]; [discriminate|]).
  simpl in H. injection H as <-. now split.
Qed.

Lemma body_progress (now date_str : string) (cells : list Cell) (i : nat)
    (data : list DailyRow) :
  (i < length cells)%nat ->
  (i < fst (body now date_str cells i data))%nat
  /\ exists more, snd (body now date_str cells i data) = data ++ more
                  /\ forall r, In r more ->
                       is_regional_header (Hospital r) = false
                       /\ exists cell, In cell cells /\ (8 <= colspan cell)%Z
                                       /\ text cell = Hospital r
                                       /\ Hospital r <> "".
Proof.
  intros Hi. unfold body.
  destruct (nth_error cells i) as [cell|] eqn:Hcell;
    [|apply nth_error_None in Hcell; lia].
  pose proof (daily_skip_separator_bounds cells (S i) Hi) as Hsep.
  destruct (8 <=? colspan cell)%Z eqn:Hspan.
  - destruct (is_regional_header (text cell)) eqn:Hhdr.
    + simpl. split; [lia|]. exists []. rewrite app_nil_r. split; [reflexivity | intros r []].
    + rewrite daily_collect_stats_spec. cbn [app]. apply Z.leb_le in Hspan.
      destruct (stats_row now date_str (text cell) _) as [row|] eqn:Hrow; simpl.
      * split; [lia|]. exists [row]. split; [reflexivity|].
        intros r [<-|[]]. apply stats_row_hospital in Hrow.
        destruct Hrow as [-> Hne].
        split; [exact Hhdr|]. exists cell. repeat split; try assumption.
        now apply nth_error_In in Hcell.
      * split; [lia|]. exists []. rewrite app_nil_r.
        split; [reflexivity | intros r []].
  - simpl. split; [lia|]. exists []. rewrite app_nil_r. split; [reflexivity | intros r []].
Qed.

Lemma loop_spec (fuel : nat) (now date_str : string) (cells : list Cell)
    (i : nat) (data : list DailyRow) :
  (length cells - i <= fuel)%nat ->
  (length cells <= fst (loop fuel now date_str cells i data))%nat
  /\ exists more, snd (loop fuel now date_str cells i data) = data ++ more
                  /\ forall r, In r more ->
                       is_regional_header (Hospital r) = false
                       /\ exists cell, In cell cells /\ (8 <= colspan cell)%Z
                                       /\ text cell = Hospital r
                                       /\ Hospital r <> "".
Proof.
  revert i data. induction fuel as [|fuel IH]; intros i data Hfuel.
  - simpl. split; [lia|]. exists []. rewrite app_nil_r. split; [reflexivity | intros r []].
  - cbn [loop]. destruct (i <? length cells)%nat eqn:Hi.
    + apply Nat.ltb_lt in Hi.
      destruct (body_progress now date_str cells i data Hi)
        as [Hprog [more1 [Hdata1 Hmore1]]].
      destruct (body now date_str cells i data) as [i' data'] eqn:Hbody.
      simpl in Hprog, Hdata1. subst data'.
      destruct (IH i' (data ++ more1)) as [Hexit [more2 [Hdata2 Hmore2]]]; [lia|].
      split; [exact Hexit|]. exists (more1 ++ more2).
      rewrite Hdata2, app_assoc. split; [reflexivity|].
      intros r Hr. apply in_app_or in Hr. destruct Hr; auto.
    + apply Nat.ltb_ge in Hi. simpl. split; [lia|]. exists [].
      rewrite app_nil_r. split; [reflexivity | intros r []].
Qed.

End DailyDecoderFacts.

(* ===================================================================== *)
(** ** Regional headers and malformed entities *)
(* ===================================================================== *)

Module DecoderClaims.
Import PyStr Spec Scenarios CursorFacts.

(** The daily decoder's header test is the specification's. *)
Lemma daily_header_test (name : string) :
  ScrapeHseData.is_regional_header name = regional_header name.
Proof.
  unfold ScrapeHseData.is_regional_header, regional_header.
  now rewrite negb_orb, andb_assoc.
Qed.

(** The survey decoder's header test is narrower: a name holding "Total"
    anywhere is never a header. *)
Lemma survey_header_test (name : string) :
  ScrapeColors.is_regional_header name
  = regional_header name && negb (contains "Total" name).
Proof.
  unfold ScrapeColors.is_regional_header, regional_header.
  destruct (endswith "Total" name) eqn:Et.
  - rewrite (PyStrFacts.endswith_contains _ _ Et). simpl.
    now rewrite !andb_false_r.
  - simpl. destruct (startswith "HSE " name), (contains "Total" name),
      (endswith "Hospital" name); reflexivity.
Qed.

Lemma suffix_not_header (name : string) :
  endswith "Total" name || endswith "Hospital" name = true ->
  regional_header name = false.
Proof.
  intros H. unfold regional_header. rewrite H. simpl. apply andb_false_r.
Qed.

(** C5, as stated, fails for the survey decoder: a boundary whose text
    starts with "HSE " and ends with neither suffix, but holds "Total" in
    the middle, is decoded and emitted (the daily decoder skips it). *)
Lemma survey_emits_total_in_the_middle :
  regional_header "HSE Total Care Region" = true
  /\ option_map (map ScrapeColors.hospital)
       (ScrapeColors.scrape_with_colors_v2 "05/01/2026" (Some total_in_the_middle))
     = Some ["HSE Total Care Region"]
  /\ ScrapeHseData.decode_row "2026-01-05 09:00:00" "05/01/2026" total_in_the_middle
     = [].
Proof. repeat split. Qed.

(** C5, amended: the daily row decoder ([scrape_hse_trolleygar]) never emits
    a record named by a regional header, where a header is a name that
    starts with "HSE " and ends with neither "Total" nor "Hospital": such a
    boundary is passed over with no record, and a boundary ending in one of
    the suffixes, followed by its 11 cells, is emitted under its name.  The
    survey decoder ([scrape_with_colors_v2]) does the same with a narrower
    header test: a name is a header when it starts with "HSE ", holds
    "Total" nowhere, and does not end with "Hospital"; so the only names it
    can emit that the first test calls headers are those holding "Total"
    before their end. *)
Theorem regional_headers_not_emitted :
  (forall name,
      ScrapeHseData.is_regional_header name = regional_header name
      /\ ScrapeColors.is_regional_header name
         = regional_header name && negb (contains "Total" name))
  /\ (forall now date_str cells r,
        In r (ScrapeHseData.decode_row now date_str cells) ->
        regional_header (ScrapeHseData.Hospital r) = false)
  /\ (forall now date_str table rows r,
        ScrapeHseData.scrape_hse_trolleygar now date_str table = inr rows ->
        In r rows ->
        regional_header (ScrapeHseData.Hospital r) = false)
  /\ (forall date_str table records r,
        ScrapeColors.scrape_with_colors_v2 date_str table = Some records ->
        In r records ->
        ScrapeColors.is_regional_header (ScrapeColors.hospital r) = false
        /\ (regional_header (ScrapeColors.hospital r) = true ->
            contains "Total" (ScrapeColors.hospital r) = true))
  /\ (forall now date_str cells i data cell,
        nth_error cells i = Some cell ->
        (8 <= colspan cell)%Z ->
        regional_header (text cell) = true ->
        snd (ScrapeHseData.body now date_str cells i data) = data
        /\ (i < fst (ScrapeHseData.body now date_str cells i data))%nat)
  /\ (forall date_str cells i data cell,
        nth_error cells i = Some cell ->
        (8 <= colspan cell)%Z ->
        ScrapeColors.is_regional_header (text cell) = true ->
        ScrapeColors.v2_body date_str cells i data = (S i, data))
  /\ (forall now date_str cells i data cell,
        nth_error cells i = Some cell ->
        (8 <= colspan cell)%Z ->
        endswith "Total" (text cell) || endswith "Hospital" (text cell) = true ->
        (ScrapeHseData.skip_separator cells (S i) + 11 <= length cells)%nat ->
        exists row,
          snd (ScrapeHseData.body now date_str cells i data) = data ++ [row]
          /\ ScrapeHseData.Hospital row = text cell)
  /\ (forall date_str cells i data cell,
        nth_error cells i = Some cell ->
        (8 <= colspan cell)%Z ->
        endswith "Total" (text cell) || endswith "Hospital" (text cell) = true ->
        (ScrapeColors.skip_separator cells (S i) + 11 <= length cells)%nat ->
        exists record,
          snd (ScrapeColors.v2_body date_str cells i data) = data ++ [record]
          /\ ScrapeColors.hospital record = text cell).
Proof.
  split; [intros name; split; [apply daily_header_test | apply survey_header_test]|].
  assert (Hdecode : forall now date_str cells r,
             In r (ScrapeHseData.decode_row now date_str cells) ->
             regional_header (ScrapeHseData.Hospital r) = false).
  { intros now date_str cells r Hr. unfold ScrapeHseData.decode_row in Hr.
    destruct (DailyDecoderFacts.loop_spec (length cells) now date_str cells 0 [])
      as [_ [more [Hdata Hmore]]]; [lia|].
    rewrite Hdata in Hr. simpl in Hr. rewrite <- daily_header_test.
    now apply Hmore. }
  split; [exact Hdecode|].
  split; [|split; [|split; [|split; [|split]]]].
  - intros now date_str table rows r Hscrape Hr.
    unfold ScrapeHseData.scrape_hse_trolleygar in Hscrape.
    destruct table as [trs|]; [|discriminate].
    destruct (ScrapeHseData.find_master_row trs) as [data_row|]; [|discriminate].
    injection Hscrape as <-. now apply (Hdecode now date_str data_row).
  - intros date_str table records r Hscrape Hr.
    unfold ScrapeColors.scrape_with_colors_v2 in Hscrape.
    destruct table as [all_cells|]; [|discriminate].
    destruct (SurveyFacts.v2_loop_spec (length all_cells) date_str all_cells 0 [])
      as [_ [more [Hdata Hmore]]]; [lia|].
    rewrite Hdata in Hscrape. simpl in Hscrape.
    destruct more as [|r0 more]; [discriminate|]. injection Hscrape as <-.
    destruct (Hmore r Hr) as [Hhdr _]. split; [exact Hhdr|].
    intros Hspec. rewrite survey_header_test, Hspec in Hhdr. simpl in Hhdr.
    now apply negb_false_iff in Hhdr.
  - intros now date_str cells i data cell Hcell Hspan Hhdr.
    unfold ScrapeHseData.body. rewrite Hcell.
    apply Z.leb_le in Hspan. rewrite Hspan, daily_header_test, Hhdr. simpl.
    split; [reflexivity|].
    apply nth_error_In_cell in Hcell. destruct Hcell as [_ Hi].
    pose proof (DailyDecoderFacts.daily_skip_separator_bounds cells (S i) Hi). lia.
  - intros date_str cells i data cell Hcell Hspan Hhdr.
    unfold ScrapeColors.v2_body. rewrite Hcell.
    apply Z.leb_le in Hspan. rewrite Hspan, Hhdr.
    assert (Ht : truthy (text cell) = true).
    { apply PyStrFacts.truthy_true. intros E. rewrite E in Hhdr. discriminate. }
    now rewrite Ht.
  - intros now date_str cells i data cell Hcell Hspan Hsuf Hroom.
    assert (Hname : text cell <> "").
    { intros E. rewrite E in Hsuf. discriminate. }
    unfold ScrapeHseData.body. rewrite Hcell.
    apply Z.leb_le in Hspan.
    rewrite Hspan, daily_header_test, (suffix_not_header _ Hsuf).
    rewrite DailyDecoderFacts.daily_collect_stats_spec. cbn [app].
    destruct (DailyDecoderFacts.stats_row_Some now date_str (text cell)
                (map val_of
                   (firstn 11 (skipn (ScrapeHseData.skip_separator cells (S i)) cells)))
                Hname) as [row [Hrow Hh]].
    { rewrite length_map, length_firstn_skipn. lia. }
    rewrite Hrow. exists row. now split.
  - intros date_str cells i data cell Hcell Hspan Hsuf Hroom.
    assert (Hname : text cell <> "").
    { intros E. rewrite E in Hsuf. discriminate. }
    assert (Hhdr : ScrapeColors.is_regional_header (text cell) = false).
    { rewrite survey_header_test, (suffix_not_header _ Hsuf). reflexivity. }
    rewrite (SurveyFacts.v2_body_entity date_str cells i data cell Hcell Hspan Hname Hhdr).
    destruct (SurveyFacts.stats_record_Some date_str (text cell)
                (map stat_of
                   (firstn 12 (skipn (ScrapeColors.skip_separator cells (S i)) cells))))
      as [record [Hrec Hh]].
    { rewrite length_map, length_firstn_skipn. lia. }
    rewrite Hrec. exists record. now split.
Qed.

(** A regional header next to a hospital and a regional total: both
    decoders emit the two entities and nothing for the header. *)
Lemma regional_headers_not_emitted_witness :
  map ScrapeHseData.Hospital
      (ScrapeHseData.decode_row "2026-01-05 09:00:00" "05/01/2026" header_then_entities)
  = ["St. X Hospital"; "HSE West Total"]
  /\ regional_header "HSE West and North West" = true
  /\ regional_header "HSE West Total" = false
  /\ ScrapeColors.v2_body "05/01/2026" header_then_entities 0 [] = (1%nat, []).
Proof.
  destruct regional_headers_not_emitted as (_ & Hdaily & _ & _ & _ & Hskip & _).
  split; [reflexivity|]. split; [reflexivity|]. split.
  - apply (Hdaily "2026-01-05 09:00:00" "05/01/2026" header_then_entities
             (ScrapeHseData.mkDailyRow "HSE West Total" (Some "7") (Some "7")
                (Some "7") (Some "7") (Some "7") (Some "7") (Some "7")
                "2026-01-05 09:00:00" "05/01/2026")).
    right. left. reflexivity.
  - apply (Hskip "05/01/2026" header_then_entities 0%nat []
             (plain_cell "HSE West and North West" 10)).
    + reflexivity.
    + simpl. lia.
    + reflexivity.
Defined.

(** C8, as stated, fails for the survey decoder: a boundary followed by
    empty statistic cells only (no non-empty value at all) still yields a
    record, with its values missing. *)
Lemma survey_emits_blank_entity :
  length (filter (fun c => truthy (text c)) (tl blank_entity)) = 0%nat
  /\ option_map
       (map (fun r => (ScrapeColors.hospital r, ScrapeColors.ed_trolleys r,
                       ScrapeColors.ward_trolleys r, ScrapeColors.total_trolleys r)))
       (ScrapeColors.scrape_with_colors_v2 "05/01/2026" (Some blank_entity))
     = Some [("St. X Hospital", None, None, None)].
Proof. split; reflexivity. Qed.

(** C8, amended: in [scrape_with_colors] a row whose entity has fewer than
    3 non-empty statistic values yields no record, and the records of the
    rows before and after it are the result.  In [scrape_with_colors_v2] an
    entity is dropped when fewer than 11 cells are left for its block, which
    happens only when the cells run out, and is recorded otherwise, whatever
    number of its values are empty.  Neither raises: the cursor loop keeps
    what it recorded before and runs to the end of the cells. *)
Theorem malformed_entity_dropped :
  (forall date_str cells,
      (length (ScrapeColors.nonempty_values
                 (ScrapeColors.data_cells_of (tl cells))) < 3)%nat ->
      ScrapeColors.row_record date_str cells = None)
  /\ (forall date_str before cells after,
        ScrapeColors.row_record date_str cells = None ->
        fold_left (ScrapeColors.append_row date_str) (before ++ cells :: after) []
        = fold_left (ScrapeColors.append_row date_str) before []
          ++ fold_left (ScrapeColors.append_row date_str) after [])
  /\ (forall date_str all_cells i data cell,
        nth_error all_cells i = Some cell ->
        (8 <= colspan cell)%Z ->
        text cell <> "" ->
        ScrapeColors.is_regional_header (text cell) = false ->
        let start := ScrapeColors.skip_separator all_cells (S i) in
        ((start + 11 <= length all_cells)%nat ->
         exists record,
           ScrapeColors.v2_body date_str all_cells i data
           = (Nat.min (start + 12) (length all_cells), data ++ [record])
           /\ ScrapeColors.hospital record = text cell)
        /\ ((length all_cells < start + 11)%nat ->
            ScrapeColors.v2_body date_str all_cells i data
            = (length all_cells, data)))
  /\ (forall date_str all_cells i data,
        (length all_cells
         <= fst (ScrapeColors.v2_loop (length all_cells) date_str all_cells i data))%nat
        /\ exists more,
             snd (ScrapeColors.v2_loop (length all_cells) date_str all_cells i data)
             = data ++ more).
Proof.
  split; [apply SurveyFacts.row_record_few_values|].
  split; [|split].
  - intros date_str before cells after Hnone.
    rewrite !SurveyFacts.append_rows_flat_map. cbn [app].
    rewrite flat_map_app. cbn [flat_map]. now rewrite Hnone.
  - intros date_str all_cells i data cell Hcell Hspan Hname Hhdr start.
    rewrite (SurveyFacts.v2_body_entity date_str all_cells i data cell
               Hcell Hspan Hname Hhdr).
    fold start.
    assert (Hstart : (start <= length all_cells)%nat).
    { apply nth_error_In_cell in Hcell. destruct Hcell as [_ Hi].
      pose proof (SurveyFacts.survey_skip_separator_bounds all_cells (S i) Hi).
      unfold start. lia. }
    split.
    + intros Hroom.
      destruct (SurveyFacts.stats_record_Some date_str (text cell)
                  (map stat_of (firstn 12 (skipn start all_cells))))
        as [record [Hrec Hh]].
      { rewrite length_map, length_firstn_skipn. lia. }
      rewrite Hrec. exists record. split; [|exact Hh]. f_equal. lia.
    + intros Hshort.
      rewrite SurveyFacts.stats_record_None.
      * f_equal. lia.
      * rewrite length_map, length_firstn_skipn. lia.
  - intros date_str all_cells i data.
    destruct (SurveyFacts.v2_loop_spec (length all_cells) date_str all_cells i data)
      as [Hexit [more [Hdata _]]]; [lia|].
    split; [exact Hexit | now exists more].
Qed.

(** Three rows, the middle one with two non-empty values: the first and
    the third are recorded. *)
Lemma malformed_entity_dropped_witness :
  map ScrapeColors.hospital
      (fold_left (ScrapeColors.append_row "05/01/2026") three_survey_rows [])
  = ["St. X Hospital"; "St. Z Hospital"].
Proof.
  destruct malformed_entity_dropped as (Hfew & Hrest & _).
  change three_survey_rows
    with ([survey_row "St. X Hospital" ["3"; "2"; "5"; "1"; "0"]]
          ++ survey_row "St. Y Hospital" ["3"; ""; ""; ""; "2"]
          :: [survey_row "St. Z Hospital" ["4"; "4"; "8"; "0"; "1"]]).
  rewrite Hrest.
  - reflexivity.
  - apply Hfew. simpl. lia.
Defined.

End DecoderClaims.


(* ===================================================================== *)
(** ** The daily decoder: termination, layout, records *)
(* ===================================================================== *)

Module DailyDecoderMore.
Import PyStr ScrapeHseData Spec Layout CursorFacts DailyDecoderFacts.

(** One turn never moves the cursor past the end. *)
Lemma body_bound (now date_str : string) (cells : list Cell) (i : nat)
    (data : list DailyRow) :
  (i < length cells)%nat ->
  (i < fst (body now date_str cells i data) <= length cells)%nat.
Proof.
  intros Hi. unfold body.
  destruct (nth_error cells i) as [cell|] eqn:Hcell;
    [|apply nth_error_None in Hcell; lia].
  pose proof (daily_skip_separator_bounds cells (S i) Hi) as Hsep.
  destruct (8 <=? colspan cell)%Z; [|cbn [fst]; lia].
  destruct (is_regional_header (text cell)); [cbn [fst]; lia|].
  rewrite daily_collect_stats_spec.
  destruct (stats_row now date_str (text cell) _); cbn [fst]; lia.
Qed.

Lemma loop_fuel (fuel fuel' : nat) (now date_str : string) (cells : list Cell)
    (i : nat) (data : list DailyRow) :
  (length cells - i <= fuel)%nat ->
  (length cells - i <= fuel')%nat ->
  loop fuel now date_str cells i data = loop fuel' now date_str cells i data.
Proof.
  revert fuel' i data. induction fuel as [|fuel IH]; intros fuel' i data H H'.
  - destruct fuel' as [|fuel']; [reflexivity|]. cbn [loop].
    assert (E : (i <? length cells)%nat = false) by (apply Nat.ltb_ge; lia).
    now rewrite E.
  - cbn [loop]. destruct (i <? length cells)%nat eqn:Hi.
    + destruct fuel' as [|fuel']; [apply Nat.ltb_lt in Hi; lia|].
      cbn [loop]. rewrite Hi. apply Nat.ltb_lt in Hi.
      pose proof (body_bound now date_str cells i data Hi) as Hb.
      destruct (body now date_str cells i data) as [i' data'].
      simpl in Hb. apply IH; lia.
    + destruct fuel' as [|fuel']; [reflexivity|]. cbn [loop]. now rewrite Hi.
Qed.

(** One turn of the loop, with the fuel that is left to need. *)
Lemma loop_unroll (now date_str : string) (cells : list Cell) (i : nat)
    (data : list DailyRow) :
  (i < length cells)%nat ->
  loop (length cells - i) now date_str cells i data
  = loop (length cells - fst (body now date_str cells i data)) now date_str cells
      (fst (body now date_str cells i data))
      (snd (body now date_str cells i data)).
Proof.
  intros Hi. pose proof (body_bound now date_str cells i data Hi) as Hb.
  destruct (length cells - i)%nat as [|fuel] eqn:Hf; [lia|].
  cbn [loop]. apply Nat.ltb_lt in Hi. rewrite Hi.
  destruct (body now date_str cells i data) as [i' data'].
  simpl in *. apply loop_fuel; lia.
Qed.

(** X1: the [while] loop of the daily decoder ends: started anywhere inside
    the row with as many turns as cells are left, it stops with the cursor
    exactly at the end of the row, and more turns change nothing. *)
Theorem daily_loop_terminates (fuel : nat) (now date_str : string)
    (cells : list Cell) (i : nat) (data : list DailyRow) :
  (i <= length cells)%nat ->
  (length cells - i <= fuel)%nat ->
  fst (loop fuel now date_str cells i data) = length cells
  /\ loop fuel now date_str cells i data
     = loop (length cells - i) now date_str cells i data.
Proof.
  intros Hi Hfuel. split; [|apply loop_fuel; lia].
  revert i data Hi Hfuel. induction fuel as [|fuel IH]; intros i data Hi Hfuel.
  - simpl. lia.
  - cbn [loop]. destruct (i <? length cells)%nat eqn:E.
    + apply Nat.ltb_lt in E.
      pose proof (body_bound now date_str cells i data E) as Hb.
      destruct (body now date_str cells i data) as [i' data'].
      simpl in Hb. apply IH; lia.
    + apply Nat.ltb_ge in E. simpl. lia.
Qed.

Lemma daily_loop_terminates_witness :
  fst (loop 100 "2026-01-05 09:00:00" "05/01/2026"
         Scenarios.header_then_entities 0 [])
  = length Scenarios.header_then_entities.
Proof.
  apply (daily_loop_terminates 100 "2026-01-05 09:00:00" "05/01/2026"
           Scenarios.header_then_entities 0 []).
  - simpl. lia.
  - simpl. lia.
Defined.

(** *** Rows laid out entity by entity *)

Lemma nth_error_after {A : Type} (pre : list A) (c : A) (rest : list A) :
  nth_error (pre ++ c :: rest) (length pre) = Some c.
Proof. rewrite nth_error_app2 by lia. now rewrite Nat.sub_diag. Qed.

Lemma nth_error_after_S {A : Type} (pre : list A) (c : A) (rest : list A) (k : nat) :
  nth_error (pre ++ c :: rest) (S (length pre + k)) = nth_error rest k.
Proof.
  rewrite nth_error_app2 by lia.
  replace (S (length pre + k) - length pre)%nat with (S k) by lia. reflexivity.
Qed.

Lemma skipn_after {A : Type} (pre : list A) (l : list A) (k : nat) :
  skipn (length pre + k) (pre ++ l) = skipn k l.
Proof.
  rewrite skipn_app. rewrite skipn_all2 by lia.
  replace (length pre + k - length pre)%nat with k by lia. reflexivity.
Qed.

Lemma firstn_exact {A : Type} (l rest : list A) (n : nat) :
  length l = n -> firstn n (l ++ rest) = l.
Proof.
  intros <-. rewrite firstn_app, Nat.sub_diag, firstn_all. simpl. apply app_nil_r.
Qed.

Lemma header_text_nonempty (name : string) :
  is_regional_header name = true -> name <> "".
Proof. intros H E. rewrite E in H. discriminate. Qed.

(** The first cell of a well-formed layout carries text. *)
Lemma daily_first_cell_text (items : list Item) (c : Cell) :
  Forall daily_item_ok items ->
  nth_error (row_cells items) 0 = Some c -> text c <> "".
Proof.
  intros Hok. destruct items as [|it items]; [discriminate|].
  inversion Hok as [|? ? Hit _]; subst.
  destruct it as [name sep|name sep stats]; simpl; intros [= <-].
  - destruct Hit as (_ & Hh & _). now apply header_text_nonempty.
  - now destruct Hit as (_ & Ht & _).
Qed.

Lemma stats_row_slots (now date_str name : string) (stats : list Cell) :
  name <> "" ->
  length stats = 11%nat ->
  stats_row now date_str name (map val_of stats)
  = Some (mkDailyRow name (slot stats 0) (slot stats 1) (slot stats 2)
            (slot stats 4) (slot stats 6) (slot stats 8) (slot stats 10)
            now date_str).
Proof.
  intros Hname Hlen. unfold stats_row.
  apply PyStrFacts.truthy_true in Hname. rewrite Hname.
  do 11 (destruct stats as [|? stats]; [discriminate|]).
  reflexivity.
Qed.

(** The decoder on the cells of one item, wherever it stands in the row. *)
Lemma body_on_item (now date_str : string) (pre : list Cell) (it : Item)
    (items : list Item) (data : list DailyRow) :
  daily_item_ok it ->
  Forall daily_item_ok items ->
  body now date_str (pre ++ item_cells it ++ row_cells items) (length pre) data
  = ((length pre + length (item_cells it))%nat,
     data ++ daily_item_rows now date_str it).
Proof.
  intros Hit Hitems. unfold body.
  destruct it as [name sep|name sep stats]; cbn [item_cells app].
  - destruct Hit as (Hspan & Hhdr & Hsep).
    rewrite nth_error_after. apply Z.leb_le in Hspan. rewrite Hspan, Hhdr.
    cbn [daily_item_rows]. rewrite app_nil_r. f_equal.
    unfold skip_separator.
    replace (S (length pre)) with (S (length pre + 0)) by lia.
    rewrite nth_error_after_S.
    destruct Hsep as [->|[s [-> Hs]]]; cbn [app length].
    + destruct (nth_error (row_cells items) 0) as [c|] eqn:Hc; [|lia].
      pose proof (daily_first_cell_text items c Hitems Hc) as Ht.
      apply String.eqb_neq in Ht. rewrite Ht. lia.
    + simpl. rewrite Hs. simpl. lia.
  - destruct Hit as (Hspan & Hname & Hhdr & Hsep & Hlen).
    rewrite nth_error_after. apply Z.leb_le in Hspan. rewrite Hspan, Hhdr.
    assert (Hskip : skip_separator (pre ++ name :: sep :: stats ++ row_cells items)
                      (S (length pre)) = (length pre + 2)%nat).
    { unfold skip_separator.
      replace (S (length pre)) with (S (length pre + 0)) by lia.
      rewrite nth_error_after_S. simpl. rewrite Hsep. simpl. lia. }
    rewrite Hskip, daily_collect_stats_spec. cbn [app].
    rewrite skipn_after. cbn [skipn].
    rewrite (firstn_exact stats (row_cells items) 11 Hlen).
    rewrite (stats_row_slots now date_str (text name) stats Hname Hlen).
    cbn [daily_item_rows length]. f_equal.
    rewrite !length_app. cbn [length]. rewrite length_app. lia.
Qed.

Lemma loop_on_items (now date_str : string) (items : list Item) :
  Forall daily_item_ok items ->
  forall (pre : list Cell) (data : list DailyRow),
    loop (length (pre ++ row_cells items) - length pre) now date_str
      (pre ++ row_cells items) (length pre) data
    = (length (pre ++ row_cells items),
       data ++ flat_map (daily_item_rows now date_str) items).
Proof.
  induction 1 as [|it items Hit Hitems IH]; intros pre data.
  - cbn [row_cells flat_map]. rewrite !app_nil_r, Nat.sub_diag. reflexivity.
  - cbn [row_cells flat_map]. fold (row_cells items).
    rewrite loop_unroll.
    2:{ rewrite !length_app. destruct it; cbn [item_cells length]; lia. }
    rewrite (body_on_item now date_str pre it items data Hit Hitems).
    cbn [fst snd].
    specialize (IH (pre ++ item_cells it) (data ++ daily_item_rows now date_str it)).
    rewrite <- length_app, (app_assoc pre), (app_assoc data). exact IH.
Qed.

(** X2: decoding a row laid out as regional headers and entities (name
    cell, empty separator, 11 statistic cells) gives one record per entity,
    in order, with the seven slots the code reads (0, 1, 2, 4, 6, 8, 10) and
    nothing for the headers. *)
Theorem daily_decode_layout (now date_str : string) (items : list Item) :
  Forall daily_item_ok items ->
  decode_row now date_str (row_cells items)
  = flat_map (daily_item_rows now date_str) items.
Proof.
  intros Hok. unfold decode_row.
  pose proof (loop_on_items now date_str items Hok [] []) as H.
  cbn [app length] in H. rewrite Nat.sub_0_r in H. now rewrite H.
Qed.

Lemma daily_decode_layout_witness :
  map Hospital
    (decode_row "2026-01-05 09:00:00" "05/01/2026"
       (row_cells MoreScenarios.daily_items))
  = ["St. X Hospital"; "HSE South West Total"].
Proof.
  rewrite (daily_decode_layout "2026-01-05 09:00:00" "05/01/2026"
             MoreScenarios.daily_items).
  - reflexivity.
  - repeat (apply Forall_cons;
            [ cbn [daily_item_ok]; repeat split;
              first [ discriminate | reflexivity | (cbn; lia)
                    | (left; reflexivity)
                    | (right; eexists; split; reflexivity) ] | ]).
    apply Forall_nil.
Defined.

End DailyDecoderMore.


(* ===================================================================== *)
(** ** The survey decoder: termination, layout, records *)
(* ===================================================================== *)

Module SurveyDecoderMore.
Import PyStr ScrapeColors Spec Layout CursorFacts SurveyFacts.

Lemma v2_body_bound (date_str : string) (all_cells : list Cell) (i : nat)
    (data : list ColorRecord) :
  (i < length all_cells)%nat ->
  (i < fst (v2_body date_str all_cells i data) <= length all_cells)%nat.
Proof.
  intros Hi. unfold v2_body.
  destruct (nth_error all_cells i) as [cell|] eqn:Hcell;
    [|apply nth_error_None in Hcell; lia].
  pose proof (survey_skip_separator_bounds all_cells (S i) Hi) as Hsep.
  destruct ((8 <=? colspan cell)%Z && truthy (text cell)); [|cbn [fst]; lia].
  destruct (is_regional_header (text cell)); [cbn [fst]; lia|].
  rewrite survey_collect_stats_spec.
  destruct (stats_record date_str (text cell) _); cbn [fst]; lia.
Qed.

Lemma v2_loop_unroll (date_str : string) (all_cells : list Cell) (i : nat)
    (data : list ColorRecord) :
  (i < length all_cells)%nat ->
  v2_loop (length all_cells - i) date_str all_cells i data
  = v2_loop (length all_cells - fst (v2_body date_str all_cells i data))
      date_str all_cells
      (fst (v2_body date_str all_cells i data))
      (snd (v2_body date_str all_cells i data)).
Proof.
  intros Hi. pose proof (v2_body_bound date_str all_cells i data Hi) as Hb.
  destruct (length all_cells - i)%nat as [|fuel] eqn:Hf; [lia|].
  cbn [v2_loop]. apply Nat.ltb_lt in Hi. rewrite Hi.
  destruct (v2_body date_str all_cells i data) as [i' data'].
  simpl in *. apply v2_loop_fuel; lia.
Qed.

(** X3: the [while] loop of [scrape_with_colors_v2] ends: with as many turns
    as cells are left it stops with the cursor exactly at the end of the
    cells, never beyond, and more turns change nothing. *)
Theorem survey_loop_terminates (fuel : nat) (date_str : string)
    (all_cells : list Cell) (i : nat) (data : list ColorRecord) :
  (i <= length all_cells)%nat ->
  (length all_cells - i <= fuel)%nat ->
  fst (v2_loop fuel date_str all_cells i data) = length all_cells
  /\ v2_loop fuel date_str all_cells i data
     = v2_loop (length all_cells - i) date_str all_cells i data.
Proof.
  intros Hi Hfuel. split; [|apply v2_loop_fuel; lia].
  revert i data Hi Hfuel. induction fuel as [|fuel IH]; intros i data Hi Hfuel.
  - simpl. lia.
  - cbn [v2_loop]. destruct (i <? length all_cells)%nat eqn:E.
    + apply Nat.ltb_lt in E.
      pose proof (v2_body_bound date_str all_cells i data E) as Hb.
      destruct (v2_body date_str all_cells i data) as [i' data'].
      simpl in Hb. apply IH; lia.
    + apply Nat.ltb_ge in E. simpl. lia.
Qed.

Lemma survey_loop_terminates_witness :
  fst (v2_loop 100 "05/01/2026" Scenarios.header_then_entities 0 [])
  = length Scenarios.header_then_entities.
Proof.
  apply (survey_loop_terminates 100 "05/01/2026"
           Scenarios.header_then_entities 0 []).
  - simpl. lia.
  - simpl. lia.
Defined.

(** *** Rows laid out entity by entity *)

Lemma survey_header_text_nonempty (name : string) :
  is_regional_header name = true -> name <> "".
Proof. intros H E. rewrite E in H. discriminate. Qed.

Lemma stats_record_slots (date_str name : string) (stats : list Cell) :
  length stats = 12%nat ->
  stats_record date_str name (map stat_of stats)
  = Some (mkColorRecord date_str name
            (slot stats 0) (slot stats 1) (slot stats 2) (slot_color stats 2)
            (slot stats 4) None (slot stats 6) (Some (slot_color stats 6))
            (slot stats 8) (slot stats 10)).
Proof.
  intros Hlen. do 12 (destruct stats as [|? stats]; [discriminate|]).
  reflexivity.
Qed.

(** The loop across the cells of one item, wherever it stands. *)
Lemma v2_loop_on_item (date_str : string) (pre : list Cell) (it : Item)
    (rest : list Cell) (data : list ColorRecord) :
  survey_item_ok it ->
  v2_loop (length (pre ++ item_cells it ++ rest) - length pre) date_str
    (pre ++ item_cells it ++ rest) (length pre) data
  = v2_loop (length (pre ++ item_cells it ++ rest)
             - (length pre + length (item_cells it))) date_str
      (pre ++ item_cells it ++ rest) (length pre + length (item_cells it))
      (data ++ survey_item_records date_str it).
Proof.
  intros Hit.
  rewrite v2_loop_unroll
    by (rewrite !length_app; destruct it; cbn [item_cells length]; lia).
  destruct it as [name sep|name sep stats]; cbn [item_cells app].
  - destruct Hit as (Hspan & Hhdr & Hsep).
    assert (Hbody : forall tail d,
              v2_body date_str (pre ++ name :: tail) (length pre) d
              = (S (length pre), d)).
    { intros tail d. unfold v2_body. rewrite DailyDecoderMore.nth_error_after.
      apply Z.leb_le in Hspan. rewrite Hspan, Hhdr.
      apply survey_header_text_nonempty, PyStrFacts.truthy_true in Hhdr.
      now rewrite Hhdr. }
    rewrite Hbody. cbn [fst snd survey_item_records]. rewrite app_nil_r.
    destruct Hsep as [->|[s [-> Hs]]]; cbn [app length].
    + now rewrite Nat.add_1_r.
    + rewrite v2_loop_unroll by (rewrite length_app; cbn [length]; lia).
      assert (Hsepcell : v2_body date_str (pre ++ name :: s :: rest)
                           (S (length pre)) data
                         = (S (S (length pre)), data)).
      { unfold v2_body.
        replace (S (length pre)) with (S (length pre + 0)) at 1 by lia.
        rewrite DailyDecoderMore.nth_error_after_S. cbn [nth_error].
        unfold truthy. rewrite Hs. cbn. now rewrite andb_false_r. }
      rewrite Hsepcell. cbn [fst snd].
      now replace (length pre + 2)%nat with (S (S (length pre))) by lia.
  - destruct Hit as (Hspan & Hname & Hhdr & Hsep & Hlen).
    assert (Hskip : skip_separator (pre ++ name :: sep :: stats ++ rest)
                      (S (length pre)) = (length pre + 2)%nat).
    { unfold skip_separator.
      replace (S (length pre)) with (S (length pre + 0)) by lia.
      rewrite DailyDecoderMore.nth_error_after_S. simpl. rewrite Hsep. simpl. lia. }
    rewrite (v2_body_entity date_str _ (length pre) data name
               (DailyDecoderMore.nth_error_after pre name _) Hspan Hname Hhdr).
    rewrite Hskip, DailyDecoderMore.skipn_after. cbn [skipn].
    rewrite (DailyDecoderMore.firstn_exact stats rest 12 Hlen).
    rewrite (stats_record_slots date_str (text name) stats Hlen).
    cbn [fst snd survey_item_records length].
    assert (E : (length pre + 2
                 + Nat.min 12 (length (pre ++ name :: sep :: stats ++ rest)
                               - (length pre + 2)))%nat
                = (length pre + S (S (length stats)))%nat).
    { rewrite !length_app. cbn [length]. rewrite length_app. lia. }
    now rewrite E.
Qed.

Lemma v2_loop_on_items (date_str : string) (items : list Item) (tail : list Cell) :
  Forall survey_item_ok items ->
  forall (pre : list Cell) (data : list ColorRecord),
    v2_loop (length (pre ++ row_cells items ++ tail) - length pre) date_str
      (pre ++ row_cells items ++ tail) (length pre) data
    = v2_loop (length (pre ++ row_cells items ++ tail)
               - (length pre + length (row_cells items))) date_str
        (pre ++ row_cells items ++ tail) (length pre + length (row_cells items))
        (data ++ flat_map (survey_item_records date_str) items).
Proof.
  induction 1 as [|it items Hit Hitems IH]; intros pre data.
  - cbn [row_cells flat_map app length]. now rewrite Nat.add_0_r, app_nil_r.
  - cbn [row_cells flat_map]. fold (row_cells items).
    rewrite <- !app_assoc.
    rewrite (v2_loop_on_item date_str pre it (row_cells items ++ tail) data Hit).
    specialize (IH (pre ++ item_cells it) (data ++ survey_item_records date_str it)).
    rewrite <- !app_assoc in IH. rewrite (length_app pre (item_cells it)) in IH.
    rewrite IH. now rewrite (length_app (item_cells it)), Nat.add_assoc.
Qed.

(** Cells that open nothing are passed over. *)
Lemma v2_loop_on_filler (date_str : string) (tail : list Cell) :
  Forall (fun c => survey_boundary c = false) tail ->
  forall (pre : list Cell) (data : list ColorRecord),
    v2_loop (length (pre ++ tail) - length pre) date_str (pre ++ tail)
      (length pre) data
    = (length (pre ++ tail), data).
Proof.
  induction 1 as [|c tail Hc Htail IH]; intros pre data.
  - rewrite app_nil_r, Nat.sub_diag. reflexivity.
  - rewrite v2_loop_unroll by (rewrite length_app; cbn [length]; lia).
    assert (Hbody : v2_body date_str (pre ++ c :: tail) (length pre) data
                    = (S (length pre), data)).
    { unfold v2_body. rewrite DailyDecoderMore.nth_error_after.
      unfold survey_boundary in Hc. now rewrite Hc. }
    rewrite Hbody. cbn [fst snd].
    specialize (IH (pre ++ [c]) data).
    rewrite <- !app_assoc in IH. cbn [app] in IH.
    replace (length (pre ++ [c])) with (S (length pre)) in IH
      by (rewrite length_app; cbn [length]; lia).
    exact IH.
Qed.

(** X4: the survey decoder on cells laid out as regional headers and
    entities (name cell, empty separator, 12 cells), followed by any cells
    that open nothing, records one entity per block, in order, with slots
    0, 1, 2, 4, 6, 8, 10 and the colours of slots 2 and 6, and nothing for
    the headers; with no entity at all the result is [None]. *)
Theorem survey_decode_layout (date_str : string) (items : list Item)
    (tail : list Cell) :
  Forall survey_item_ok items ->
  Forall (fun c => survey_boundary c = false) tail ->
  scrape_with_colors_v2 date_str (Some (row_cells items ++ tail))
  = match flat_map (survey_item_records date_str) items with
    | [] => None
    | data => Some data
    end.
Proof.
  intros Hok Htail. unfold scrape_with_colors_v2.
  pose proof (v2_loop_on_items date_str items tail Hok [] []) as H.
  cbn [app length Nat.add] in H. rewrite Nat.sub_0_r in H. rewrite H.
  pose proof (v2_loop_on_filler date_str tail Htail (row_cells items)
                (flat_map (survey_item_records date_str) items)) as Hf.
  rewrite Hf. reflexivity.
Qed.

(** X5: entities laid out with 11 statistic cells and nothing between them
    do not survive the 12-cell read: the name cell of the second entity is
    taken as the twelfth cell of the first, and the second entity, its
    cells being narrow, is not recorded. *)
Theorem survey_swallows_adjacent_entity (date_str : string)
    (name1 sep1 : Cell) (stats1 : list Cell) (name2 : Cell) (rest2 : list Cell) :
  (8 <= colspan name1)%Z ->
  text name1 <> "" ->
  is_regional_header (text name1) = false ->
  text sep1 = "" ->
  length stats1 = 11%nat ->
  Forall (fun c => survey_boundary c = false) rest2 ->
  scrape_with_colors_v2 date_str
    (Some (name1 :: sep1 :: stats1 ++ name2 :: rest2))
  = Some [ mkColorRecord date_str (text name1)
             (slot stats1 0) (slot stats1 1) (slot stats1 2) (slot_color stats1 2)
             (slot stats1 4) None (slot stats1 6) (Some (slot_color stats1 6))
             (slot stats1 8) (slot stats1 10) ].
Proof.
  intros Hspan Hname Hhdr Hsep Hlen Hrest.
  assert (Hok : Forall survey_item_ok [Entity name1 sep1 (stats1 ++ [name2])]).
  { repeat constructor; try assumption. rewrite length_app. cbn [length]. lia. }
  pose proof (v2_loop_on_items date_str _ rest2 Hok [] []) as H.
  cbn [app length Nat.add] in H. rewrite Nat.sub_0_r in H.
  pose proof (v2_loop_on_filler date_str rest2 Hrest
                (row_cells [Entity name1 sep1 (stats1 ++ [name2])])
                (flat_map (survey_item_records date_str)
                   [Entity name1 sep1 (stats1 ++ [name2])])) as Hf.
  rewrite Hf in H. clear Hf.
  cbn [row_cells flat_map item_cells survey_item_records app] in H.
  rewrite app_nil_r, <- app_assoc in H. cbn [app] in H.
  unfold scrape_with_colors_v2. rewrite H. cbn [snd].
  unfold slot, slot_color.
  do 11 (destruct stats1 as [|? stats1]; [discriminate|]).
  destruct stats1; [reflexivity | discriminate].
Qed.

Lemma survey_decode_layout_witness :
  option_map (map (fun r => (hospital r, total_trolleys r, total_color r)))
    (scrape_with_colors_v2 "05/01/2026"
       (Some (row_cells MoreScenarios.survey_items ++ [Scenarios.plain_cell "" 10])))
  = Some [ ("St. X Hospital", Some "5", "green"); ("HSE West Total", Some "17", "red") ].
Proof.
  rewrite (survey_decode_layout "05/01/2026" MoreScenarios.survey_items
             [Scenarios.plain_cell "" 10]).
  - reflexivity.
  - repeat (apply Forall_cons;
            [ cbn [survey_item_ok]; repeat split;
              first [ discriminate | reflexivity | (cbn; lia)
                    | (left; reflexivity)
                    | (right; eexists; split; reflexivity) ] | ]).
    apply Forall_nil.
  - repeat constructor.
Defined.

Lemma survey_swallows_adjacent_entity_witness :
  option_map (map hospital)
    (scrape_with_colors_v2 "05/01/2026" (Some MoreScenarios.adjacent_entities))
  = Some ["St. X Hospital"].
Proof.
  unfold MoreScenarios.adjacent_entities.
  rewrite (survey_swallows_adjacent_entity "05/01/2026").
  - reflexivity.
  - cbn. lia.
  - discriminate.
  - reflexivity.
  - reflexivity.
  - reflexivity.
  - repeat constructor.
Defined.

End SurveyDecoderMore.


(* ===================================================================== *)
(** ** What the emitted records look like *)
(* ===================================================================== *)

Module RecordFacts.
Import PyStr Spec Layout RecordShape CursorFacts.

Lemma or_none_filled (s : string) : filled (ScrapeColors.or_none s).
Proof.
  unfold filled, ScrapeColors.or_none. destruct (truthy s) eqn:E; [|discriminate].
  apply PyStrFacts.truthy_true in E. congruence.
Qed.

Lemma val_of_filled (c : Cell) : filled (val_of c).
Proof.
  unfold filled, val_of. destruct (truthy (text c)) eqn:E; [|discriminate].
  apply PyStrFacts.truthy_true in E. congruence.
Qed.

Lemma extract_color_is_band (c : Cell) : is_band (ScrapeColors.extract_color c).
Proof. apply ExtractColorFacts.extract_color_classes_is_band. Qed.

(** *** The survey decoder *)

Lemma stats_record_ok (date_str : string) (all_cells : list Cell) (cell : Cell)
    (stats : list Cell) (r : ScrapeColors.ColorRecord) :
  In cell all_cells ->
  survey_boundary cell = true ->
  ScrapeColors.stats_record date_str (text cell) (map stat_of stats) = Some r ->
  survey_record_ok date_str all_cells r.
Proof.
  intros Hin Hb Hrec.
  do 11 (destruct stats as [|? stats]; [discriminate|]).
  cbn in Hrec. injection Hrec as <-. unfold survey_record_ok. cbn.
  split; [reflexivity|]. split; [now exists cell|]. split.
  { unfold survey_boundary in Hb. apply andb_true_iff in Hb.
    now apply PyStrFacts.truthy_true. }
  split; [apply extract_color_is_band|].
  split; [eexists; split; [reflexivity | apply extract_color_is_band]|].
  split; [reflexivity|].
  repeat split; apply or_none_filled.
Qed.

Lemma v2_body_records (date_str : string) (all_cells : list Cell) (i : nat)
    (data : list ScrapeColors.ColorRecord) :
  (i < length all_cells)%nat ->
  exists more,
    snd (ScrapeColors.v2_body date_str all_cells i data) = data ++ more
    /\ Forall (survey_record_ok date_str all_cells) more
    /\ (12 * length more
        <= fst (ScrapeColors.v2_body date_str all_cells i data) - i)%nat.
Proof.
  intros Hi. unfold ScrapeColors.v2_body.
  destruct (nth_error all_cells i) as [cell|] eqn:Hcell;
    [|apply nth_error_None in Hcell; lia].
  destruct ((8 <=? colspan cell)%Z && truthy (text cell)) eqn:Hb.
  2:{ exists []. rewrite app_nil_r. cbn. repeat split; [constructor | lia]. }
  destruct (ScrapeColors.is_regional_header (text cell)).
  { exists []. rewrite app_nil_r. cbn. repeat split; [constructor | lia]. }
  rewrite SurveyFacts.survey_collect_stats_spec. cbn [app].
  pose proof (SurveyFacts.survey_skip_separator_bounds all_cells (S i) Hi) as Hsep.
  set (start := ScrapeColors.skip_separator all_cells (S i)) in *.
  destruct (ScrapeColors.stats_record date_str (text cell)
              (map stat_of (firstn 12 (skipn start all_cells)))) as [r|] eqn:Hrec.
  - exists [r]. cbn [fst snd]. split; [reflexivity|]. split.
    + constructor; [|constructor].
      apply (stats_record_ok date_str all_cells cell
               (firstn 12 (skipn start all_cells)) r); try assumption.
      now apply nth_error_In in Hcell.
    + assert (Hlen : (11 <= length (map stat_of (firstn 12 (skipn start all_cells))))%nat).
      { destruct (le_lt_dec 11 (length (map stat_of (firstn 12 (skipn start all_cells)))))
          as [H|H]; [exact H|].
        rewrite (SurveyFacts.stats_record_None _ _ _ H) in Hrec. discriminate. }
      rewrite length_map, length_firstn_skipn in Hlen. cbn [length]. lia.
  - exists []. rewrite app_nil_r. cbn [fst snd length].
    repeat split; [constructor | lia].
Qed.

Lemma v2_loop_records (fuel : nat) (date_str : string) (all_cells : list Cell)
    (i : nat) (data : list ScrapeColors.ColorRecord) :
  (i <= length all_cells)%nat ->
  exists more,
    snd (ScrapeColors.v2_loop fuel date_str all_cells i data) = data ++ more
    /\ Forall (survey_record_ok date_str all_cells) more
    /\ (12 * length more <= length all_cells - i)%nat.
Proof.
  revert i data. induction fuel as [|fuel IH]; intros i data Hi.
  - exists []. rewrite app_nil_r. cbn. repeat split; [constructor | lia].
  - cbn [ScrapeColors.v2_loop]. destruct (i <? length all_cells)%nat eqn:E.
    + apply Nat.ltb_lt in E.
      destruct (v2_body_records date_str all_cells i data E)
        as [more1 (Hd1 & Hok1 & Hn1)].
      pose proof (SurveyDecoderMore.v2_body_bound date_str all_cells i data E) as Hb.
      destruct (ScrapeColors.v2_body date_str all_cells i data) as [i' data'].
      cbn [fst snd] in *. subst data'.
      destruct (IH i' (data ++ more1)) as [more2 (Hd2 & Hok2 & Hn2)]; [lia|].
      exists (more1 ++ more2). rewrite Hd2, app_assoc.
      split; [reflexivity|]. split; [now apply Forall_app|].
      rewrite length_app. lia.
    + exists []. rewrite app_nil_r. cbn. repeat split; [constructor | lia].
Qed.

(** X6: every record of [scrape_with_colors_v2] carries the requested
    date, the non-empty text of a wide cell of the table as its name, one
    of the four bands as total colour and as delayed colour, no surge
    colour, and values that are missing or non-empty; a result is never
    empty, and each record stands for at least 12 cells of the table. *)
Theorem survey_records_well_formed (date_str : string) (all_cells : list Cell)
    (records : list ScrapeColors.ColorRecord) :
  ScrapeColors.scrape_with_colors_v2 date_str (Some all_cells) = Some records ->
  records <> []
  /\ Forall (survey_record_ok date_str all_cells) records
  /\ (12 * length records <= length all_cells)%nat.
Proof.
  unfold ScrapeColors.scrape_with_colors_v2. intros H.
  destruct (v2_loop_records (length all_cells) date_str all_cells 0 [])
    as [more (Hd & Hok & Hn)]; [lia|].
  rewrite Hd in H. cbn [app] in H.
  destruct more as [|r more]; [discriminate|]. injection H as <-.
  split; [discriminate|]. split; [exact Hok | lia].
Qed.

(** *** The daily decoder *)

Lemma stats_row_ok (now date_str : string) (cells : list Cell) (cell : Cell)
    (stats : list Cell) (r : ScrapeHseData.DailyRow) :
  In cell cells ->
  (8 <= colspan cell)%Z ->
  ScrapeHseData.stats_row now date_str (text cell) (map val_of stats) = Some r ->
  daily_row_ok now date_str cells r /\ (11 <= length stats)%nat.
Proof.
  intros Hin Hspan Hrow. unfold ScrapeHseData.stats_row in Hrow.
  destruct (truthy (text cell)) eqn:Ht; [|discriminate].
  apply PyStrFacts.truthy_true in Ht.
  do 11 (destruct stats as [|? stats]; [discriminate|]).
  cbn in Hrow. injection Hrow as <-. unfold daily_row_ok. cbn.
  split; [|lia].
  split; [reflexivity|]. split; [reflexivity|]. split; [now exists cell|].
  split; [exact Ht|]. repeat split; apply val_of_filled.
Qed.

Lemma daily_loop_records (fuel : nat) (now date_str : string) (cells : list Cell)
    (i : nat) (data : list ScrapeHseData.DailyRow) :
  (i <= length cells)%nat ->
  exists more,
    snd (ScrapeHseData.loop fuel now date_str cells i data) = data ++ more
    /\ Forall (daily_row_ok now date_str cells) more
    /\ (12 * length more <= length cells - i)%nat.
Proof.
  revert i data. induction fuel as [|fuel IH]; intros i data Hi.
  - exists []. rewrite app_nil_r. cbn. repeat split; [constructor | lia].
  - cbn [ScrapeHseData.loop]. destruct (i <? length cells)%nat eqn:E.
    2:{ exists []. rewrite app_nil_r. cbn. repeat split; [constructor | lia]. }
    apply Nat.ltb_lt in E.
    assert (Hbody : exists more1,
               snd (ScrapeHseData.body now date_str cells i data) = data ++ more1
               /\ Forall (daily_row_ok now date_str cells) more1
               /\ (12 * length more1
                   <= fst (ScrapeHseData.body now date_str cells i data) - i)%nat).
    { unfold ScrapeHseData.body.
      destruct (nth_error cells i) as [cell|] eqn:Hcell;
        [|apply nth_error_None in Hcell; lia].
      destruct (8 <=? colspan cell)%Z eqn:Hspan.
      2:{ exists []. rewrite app_nil_r. cbn. repeat split; [constructor | lia]. }
      destruct (ScrapeHseData.is_regional_header (text cell)).
      { exists []. rewrite app_nil_r. cbn [fst snd length].
        repeat split; [constructor | lia]. }
      rewrite DailyDecoderFacts.daily_collect_stats_spec. cbn [app].
      pose proof (DailyDecoderFacts.daily_skip_separator_bounds cells (S i) E) as Hsep.
      set (start := ScrapeHseData.skip_separator cells (S i)) in *.
      destruct (ScrapeHseData.stats_row now date_str (text cell)
                  (map val_of (firstn 11 (skipn start cells)))) as [r|] eqn:Hrow.
      - apply Z.leb_le in Hspan.
        destruct (stats_row_ok now date_str cells cell
                    (firstn 11 (skipn start cells)) r
                    (nth_error_In _ _ Hcell) Hspan Hrow) as [Hok Hlen].
        rewrite length_firstn_skipn in Hlen.
        exists [r]. cbn [fst snd length]. split; [reflexivity|].
        split; [constructor; [exact Hok | constructor] | lia].
      - exists []. rewrite app_nil_r. cbn [fst snd length].
        repeat split; [constructor | lia]. }
    destruct Hbody as [more1 (Hd1 & Hok1 & Hn1)].
    pose proof (DailyDecoderMore.body_bound now date_str cells i data E) as Hb.
    destruct (ScrapeHseData.body now date_str cells i data) as [i' data'].
    cbn [fst snd] in *. subst data'.
    destruct (IH i' (data ++ more1)) as [more2 (Hd2 & Hok2 & Hn2)]; [lia|].
    exists (more1 ++ more2). rewrite Hd2, app_assoc.
    split; [reflexivity|]. split; [now apply Forall_app|].
    rewrite length_app. lia.
Qed.

(** X7: every row of a successful [scrape_hse_trolleygar] carries the
    requested report date and the clock reading, the non-empty text of a
    wide cell of the master row as its name, and values that are missing or
    non-empty; each row stands for at least 12 cells of the master row, which
    is a row of the table after the first two with at least 50 wide cells. *)
Theorem daily_rows_well_formed (now date_str : string)
    (table : option (list (list Cell))) (rows : list ScrapeHseData.DailyRow) :
  ScrapeHseData.scrape_hse_trolleygar now date_str table = inr rows ->
  exists trs data_row,
    table = Some trs
    /\ In data_row (skipn 2 trs)
    /\ (50 <= ScrapeHseData.hospital_count data_row)%nat
    /\ Forall (daily_row_ok now date_str data_row) rows
    /\ (12 * length rows <= length data_row)%nat.
Proof.
  unfold ScrapeHseData.scrape_hse_trolleygar. intros H.
  destruct table as [trs|]; [|discriminate].
  destruct (ScrapeHseData.find_master_row trs) as [data_row|] eqn:Hfind;
    [|discriminate].
  injection H as <-. exists trs, data_row. split; [reflexivity|].
  assert (Hm : In data_row (skipn 2 trs)
               /\ (50 <= ScrapeHseData.hospital_count data_row)%nat).
  { unfold ScrapeHseData.find_master_row in Hfind.
    induction (skipn 2 trs) as [|row rest IH]; [discriminate|].
    cbn [ScrapeHseData.first_master_row] in Hfind.
    destruct (50 <=? ScrapeHseData.hospital_count row)%nat eqn:E.
    - injection Hfind as <-. apply Nat.leb_le in E. split; [now left | exact E].
    - destruct (IH Hfind) as [Hin Hc]. split; [now right | exact Hc]. }
  destruct Hm as [Hin Hcount]. split; [exact Hin|]. split; [exact Hcount|].
  unfold ScrapeHseData.decode_row.
  destruct (daily_loop_records (length data_row) now date_str data_row 0 [])
    as [more (Hd & Hok & Hn)]; [lia|].
  rewrite Hd. cbn [app]. split; [exact Hok | lia].
Qed.

(** *** [scrape_with_colors] *)

Lemma nonempty_values_In (v : ScrapeColors.DataCell) (rest : list Cell) :
  In v (ScrapeColors.nonempty_values (ScrapeColors.data_cells_of rest)) ->
  ScrapeColors.dvalue v <> "" /\ is_band (ScrapeColors.dcolor v).
Proof.
  unfold ScrapeColors.nonempty_values, ScrapeColors.data_cells_of.
  intros H. apply filter_In in H. destruct H as [Hin Hv].
  apply andb_true_iff in Hv. destruct Hv as [Hv _].
  apply PyStrFacts.truthy_true in Hv. split; [exact Hv|].
  apply in_map_iff in Hin. destruct Hin as [c [<- _]]. cbn.
  apply extract_color_is_band.
Qed.

Lemma row_record_Some (date_str : string) (rows : list (list Cell))
    (cells : list Cell) (r : ScrapeColors.ColorRecord) :
  In cells rows ->
  ScrapeColors.row_record date_str cells = Some r ->
  row_record_ok date_str rows r.
Proof.
  intros Hin. unfold ScrapeColors.row_record.
  destruct (length cells <? 5)%nat eqn:Hlen; [discriminate|].
  apply Nat.ltb_ge in Hlen.
  destruct cells as [|first_cell rest]; [discriminate|].
  destruct (8 <=? colspan first_cell)%Z eqn:Hspan; [|discriminate].
  apply Z.leb_le in Hspan.
  destruct (startswith "HSE " (text first_cell)
            && negb (contains "Total" (text first_cell))) eqn:Hhse; [discriminate|].
  destruct (truthy (text first_cell)) eqn:Ht; [|discriminate]. cbn [negb].
  apply PyStrFacts.truthy_true in Ht.
  destruct (3 <=? length (ScrapeColors.data_cells_of rest))%nat; [|discriminate].
  destruct (ScrapeColors.nonempty_values (ScrapeColors.data_cells_of rest))
    as [|v0 [|v1 [|v2 more]]] eqn:Hvals; try discriminate.
  intros [= <-]. unfold row_record_ok. cbn.
  assert (H0 : In v0 (ScrapeColors.nonempty_values (ScrapeColors.data_cells_of rest)))
    by (rewrite Hvals; simpl; auto).
  assert (H1 : In v1 (ScrapeColors.nonempty_values (ScrapeColors.data_cells_of rest)))
    by (rewrite Hvals; simpl; auto).
  assert (H2 : In v2 (ScrapeColors.nonempty_values (ScrapeColors.data_cells_of rest)))
    by (rewrite Hvals; simpl; auto).
  apply nonempty_values_In in H0, H1, H2.
  split; [reflexivity|]. split; [now exists first_cell, rest|].
  split; [exact Ht|]. split.
  { intros Hsw. unfold startswith in *. rewrite Hsw in Hhse. cbn [andb] in Hhse.
    now apply negb_false_iff in Hhse. }
  split; [exists (ScrapeColors.dvalue v0), (ScrapeColors.dvalue v1),
                 (ScrapeColors.dvalue v2); tauto|].
  split; [tauto|]. split; reflexivity.
Qed.

(** X8: [scrape_with_colors] gives at most one record per table row, in
    row order; each carries the requested date, the non-empty text of the
    first cell of a row of at least 5 cells as its name (which, if it starts
    with "HSE ", holds "Total"), three non-empty leading values and a band
    as total colour; the result is [None] exactly when no row gives a
    record. *)
Theorem scrape_with_colors_records (date_str : string) (rows : list (list Cell)) :
  (ScrapeColors.scrape_with_colors date_str (Some rows) = None
   <-> forall cells, In cells rows -> ScrapeColors.row_record date_str cells = None)
  /\ (forall records,
        ScrapeColors.scrape_with_colors date_str (Some rows) = Some records ->
        Forall (row_record_ok date_str rows) records
        /\ (length records <= length rows)%nat
        /\ records
           = flat_map (fun cells =>
                         match ScrapeColors.row_record date_str cells with
                         | Some record => [record]
                         | None => []
                         end) rows).
Proof.
  unfold ScrapeColors.scrape_with_colors.
  rewrite SurveyFacts.append_rows_flat_map. cbn [app].
  set (f := fun cells => match ScrapeColors.row_record date_str cells with
                         | Some record => [record]
                         | None => []
                         end).
  assert (Hall : Forall (row_record_ok date_str rows) (flat_map f rows)).
  { apply Forall_forall. intros r Hr. apply in_flat_map in Hr.
    destruct Hr as [cells [Hin Hr]]. unfold f in Hr.
    destruct (ScrapeColors.row_record date_str cells) as [r'|] eqn:E; [|destruct Hr].
    destruct Hr as [<-|[]]. now apply (row_record_Some date_str rows cells). }
  assert (Hlen : (length (flat_map f rows) <= length rows)%nat).
  { clear Hall. induction rows as [|cells rows IH]; [simpl; lia|].
    cbn [flat_map]. rewrite length_app. unfold f at 1.
    destruct (ScrapeColors.row_record date_str cells); cbn [length]; lia. }
  split.
  - split.
    + intros H cells Hin.
      destruct (ScrapeColors.row_record date_str cells) as [r|] eqn:E; [|reflexivity].
      assert (Hr : In r (flat_map f rows)).
      { apply in_flat_map. exists cells. split; [exact Hin|]. unfold f.
        rewrite E. now left. }
      destruct (flat_map f rows); [destruct Hr | discriminate].
    + intros H. assert (E : flat_map f rows = []).
      { clear Hall Hlen. induction rows as [|cells rows IH]; [reflexivity|].
        cbn [flat_map]. unfold f at 1. rewrite (H cells (or_introl eq_refl)).
        apply IH. intros c Hc. apply H. now right. }
      now rewrite E.
  - intros records H.
    destruct (flat_map f rows) as [|r l] eqn:E; [discriminate|].
    injection H as <-. auto.
Qed.

Lemma survey_records_well_formed_witness :
  exists records,
    ScrapeColors.scrape_with_colors_v2 "05/01/2026"
      (Some Scenarios.header_then_entities) = Some records
    /\ Forall (survey_record_ok "05/01/2026" Scenarios.header_then_entities) records
    /\ length records = 2%nat.
Proof.
  eexists. split; [reflexivity|]. split; [|reflexivity].
  apply (survey_records_well_formed "05/01/2026" Scenarios.header_then_entities).
  reflexivity.
Defined.

Lemma daily_rows_well_formed_witness :
  exists trs data_row,
    Some Scenarios.two_header_table = Some trs
    /\ In data_row (skipn 2 trs)
    /\ (50 <= ScrapeHseData.hospital_count data_row)%nat
    /\ Forall (daily_row_ok "2026-01-05 09:00:00" "05/01/2026" data_row)
         (ScrapeHseData.decode_row "2026-01-05 09:00:00" "05/01/2026"
            Scenarios.master_row_62)
    /\ (12 * length (ScrapeHseData.decode_row "2026-01-05 09:00:00" "05/01/2026"
                       Scenarios.master_row_62)
        <= length data_row)%nat.
Proof.
  apply (daily_rows_well_formed "2026-01-05 09:00:00" "05/01/2026"
           (Some Scenarios.two_header_table)).
  reflexivity.
Defined.

Lemma scrape_with_colors_records_witness :
  exists records,
    ScrapeColors.scrape_with_colors "05/01/2026" (Some Scenarios.three_survey_rows)
    = Some records
    /\ Forall (row_record_ok "05/01/2026" Scenarios.three_survey_rows) records
    /\ (length records <= 3)%nat.
Proof.
  eexists. split; [reflexivity|].
  destruct (scrape_with_colors_records "05/01/2026" Scenarios.three_survey_rows)
    as [_ Hsome].
  destruct (Hsome _ eq_refl) as (Hok & Hlen & _). split; [exact Hok | exact Hlen].
Defined.

End RecordFacts.


(* ===================================================================== *)
(** ** The table of estimates *)
(* ===================================================================== *)

Module EstimateFacts.
Import Frame AnalyzeBoundaries Spec RecordShape LoopFacts AnalyzeFacts.

(** *** The order of names *)

Lemma leb_iff (a b : string) : String.leb a b = true <-> String.compare a b <> Gt.
Proof. unfold String.leb. destruct (String.compare a b); split; congruence. Qed.

Lemma compare_cases (a b : string) :
  String.compare a b <> Gt <-> OrderedTypeEx.String_as_OT.lt a b \/ a = b.
Proof.
  pose proof (OrderedTypeEx.String_as_OT.cmp_lt a b) as Hlt.
  pose proof (OrderedTypeEx.String_as_OT.cmp_eq a b) as Heq.
  unfold OrderedTypeEx.String_as_OT.cmp in *.
  destruct (String.compare a b) eqn:E; split; intros H; try congruence.
  - right. now apply Heq.
  - left. now apply Hlt.
  - exfalso. destruct H as [H|H]; [apply Hlt in H | apply Heq in H]; congruence.
Qed.

Lemma name_le_trans (a b c : string) : name_le a b -> name_le b c -> name_le a c.
Proof.
  unfold name_le. rewrite !leb_iff, !compare_cases.
  intros [Hab | ->] [Hbc | ->]; auto.
  left. eapply OrderedTypeEx.String_as_OT.lt_trans; eassumption.
Qed.

Lemma insert_sorted_perm (x : string) (l : list string) :
  Permutation (x :: l) (PyStr.insert_sorted x l).
Proof.
  induction l as [|y l IH]; simpl; [reflexivity|].
  destruct (String.leb x y); [reflexivity|].
  rewrite perm_swap. now apply perm_skip.
Qed.

Lemma sorted_perm (l : list string) : Permutation l (PyStr.sorted l).
Proof.
  induction l as [|x l IH]; simpl; [constructor|].
  rewrite <- insert_sorted_perm. now apply perm_skip.
Qed.

Lemma insert_sorted_sorted (x : string) (l : list string) :
  StronglySorted name_le l -> StronglySorted name_le (PyStr.insert_sorted x l).
Proof.
  induction l as [|y l IH]; intros Hs; simpl.
  - repeat constructor.
  - inversion Hs as [|? ? Hl Hy]; subst.
    destruct (String.leb x y) eqn:E.
    + constructor; [exact Hs|]. constructor; [exact E|].
      apply Forall_forall. intros z Hz. rewrite Forall_forall in Hy.
      apply (name_le_trans x y z E). now apply Hy.
    + constructor; [now apply IH|].
      apply Forall_forall. intros z Hz.
      apply (Permutation_in _ (Permutation_sym (insert_sorted_perm x l))) in Hz.
      destruct Hz as [<-|Hz].
      * destruct (String.leb_total x y) as [H|H]; [congruence | exact H].
      * rewrite Forall_forall in Hy. now apply Hy.
Qed.

Lemma sorted_sorted (l : list string) : StronglySorted name_le (PyStr.sorted l).
Proof.
  induction l as [|x l IH]; simpl; [constructor | now apply insert_sorted_sorted].
Qed.

(** Two ascending arrangements of the same names are the same list. *)
Lemma sorted_unique_arrangement (l1 l2 : list string) :
  StronglySorted name_le l1 -> StronglySorted name_le l2 ->
  Permutation l1 l2 -> l1 = l2.
Proof.
  intros H1. revert l2. induction H1 as [|x l1 Hl1 IH Hx]; intros l2 H2 Hp.
  - apply Permutation_nil in Hp. now subst.
  - destruct H2 as [|y l2 Hl2 Hy].
    + apply Permutation_sym, Permutation_nil in Hp. discriminate.
    + assert (x = y).
      { rewrite Forall_forall in Hx, Hy.
        assert (Hxin : In x (y :: l2)) by (apply (Permutation_in _ Hp); now left).
        assert (Hyin : In y (x :: l1))
          by (apply (Permutation_in _ (Permutation_sym Hp)); now left).
        destruct Hxin as [->|Hxin]; [reflexivity|].
        destruct Hyin as [->|Hyin]; [reflexivity|].
        apply String.leb_antisym; [now apply Hx | now apply Hy]. }
      subst y. f_equal. apply IH; [exact Hl2|].
      now apply Permutation_cons_inv in Hp.
Qed.

Lemma sorted_of_perm (l1 l2 : list string) :
  Permutation l1 l2 -> PyStr.sorted l1 = PyStr.sorted l2.
Proof.
  intros Hp. apply sorted_unique_arrangement; try apply sorted_sorted.
  now rewrite <- !sorted_perm.
Qed.

(** *** Which hospitals are reported *)

Lemma has_valid_true (df : list (Row (option Z))) (h : string) :
  has_valid df h = true
  <-> exists r n, In r df /\ Frame.hospital r = h /\ total_num r = Some n.
Proof.
  unfold has_valid. split.
  - destruct (dropna (select_hospital h df)) as [|v l] eqn:E; [discriminate|].
    intros _. assert (Hv : In v (dropna (select_hospital h df)))
      by (rewrite E; now left).
    apply dropna_In in Hv. destruct Hv as [r (Hr & Hn & _ & Hh & Hc)].
    apply filter_In in Hr. destruct Hr as [Hr Hh'].
    apply String.eqb_eq in Hh'.
    exists r, (total_num v). repeat split; assumption.
  - intros [r [n (Hr & Hh & Hn)]].
    assert (Hv : In (mkRow (date r) (Frame.hospital r) n (total_color r))
                    (dropna (select_hospital h df))).
    { apply dropna_In. exists r. simpl. repeat split; try assumption.
      apply filter_In. split; [exact Hr | now apply String.eqb_eq]. }
    destruct (dropna (select_hospital h df)); [destruct Hv | reflexivity].
Qed.

Lemma contribution_names (df : list (Row (option Z))) (l : list string) :
  map AnalyzeBoundaries.hospital (flat_map (contribution df) l)
  = filter (fun h => negb (String.eqb h "National Total") && has_valid df h) l.
Proof.
  induction l as [|h l IH]; [reflexivity|].
  cbn [flat_map filter]. rewrite map_app, IH. unfold contribution at 1, has_valid.
  destruct (String.eqb h "National Total"); [reflexivity|]. cbn [negb andb].
  unfold hospital_result.
  destruct (dropna (select_hospital h df)); reflexivity.
Qed.

Lemma StronglySorted_filter {A : Type} (R : A -> A -> Prop) (f : A -> bool)
    (l : list A) :
  StronglySorted R l -> StronglySorted R (filter f l).
Proof.
  induction 1 as [|x l Hl IH Hx]; simpl; [constructor|].
  destruct (f x); [|exact IH]. constructor; [exact IH|].
  rewrite Forall_forall in *. intros y Hy. apply filter_In in Hy. now apply Hx.
Qed.

(** X9: the table of estimates has exactly one line for each hospital of
    the frame that has at least one row with a number, the national total
    apart, and no other line; the lines come in ascending order of hospital
    name. *)
Theorem analyze_reports_each_hospital_once (df : list (Row (option Z))) :
  (forall h, In h (map AnalyzeBoundaries.hospital (analyze_hospital_thresholds df))
             <-> h <> "National Total"
                 /\ exists r n, In r df /\ Frame.hospital r = h
                                /\ total_num r = Some n)
  /\ NoDup (map AnalyzeBoundaries.hospital (analyze_hospital_thresholds df))
  /\ StronglySorted name_le
       (map AnalyzeBoundaries.hospital (analyze_hospital_thresholds df)).
Proof.
  rewrite analyze_as_flat_map, contribution_names. split; [|split].
  - intros h. rewrite filter_In, andb_true_iff, negb_true_iff, String.eqb_neq,
      has_valid_true. split.
    + tauto.
    + intros [Hne [r [n (Hr & Hh & Hn)]]].
      split; [|split; [exact Hne | now exists r, n]].
      apply (Permutation_in _ (sorted_perm _)).
      apply (proj2 (unique_In String.eqb String.eqb_eq _ _)).
      rewrite <- Hh. now apply in_map.
  - apply NoDup_filter.
    apply (Permutation_NoDup (sorted_perm _)).
    apply (unique_NoDup String.eqb String.eqb_eq).
  - apply StronglySorted_filter, sorted_sorted.
Qed.

(** *** Where the thresholds come from *)

Lemma no_observation_iff (df : list (Row (option Z))) (h c : string) :
  color_vals c (dropna (select_hospital h df)) = []
  <-> forall n, ~ Observed df h c n.
Proof.
  split.
  - intros E n Hobs. apply color_vals_In in Hobs. rewrite E in Hobs. destruct Hobs.
  - intros H. destruct (color_vals c (dropna (select_hospital h df))) as [|n l] eqn:E;
      [reflexivity|].
    exfalso. apply (H n). apply color_vals_In. rewrite E. now left.
Qed.

(** X10: an estimate has no amber threshold exactly when its hospital was
    never seen amber, whatever was seen green, and no red threshold exactly
    when it was never seen red. *)
Theorem thresholds_null_iff (df : list (Row (option Z))) (r : Estimate) :
  In r (analyze_hospital_thresholds df) ->
  (amber_threshold r = None
   <-> forall n, ~ Observed df (AnalyzeBoundaries.hospital r) "amber" n)
  /\ (red_threshold r = None
      <-> forall n, ~ Observed df (AnalyzeBoundaries.hospital r) "red" n).
Proof.
  intros Hin. apply analyze_In in Hin. destruct Hin as [h (_ & _ & Hr)].
  rewrite (hospital_result_hospital _ _ _ Hr).
  destruct (hospital_result_thresholds _ _ _ Hr) as [-> ->].
  rewrite <- !no_observation_iff, <- series_min_None.
  rewrite <- (series_min_None (color_vals "red" _)).
  split.
  - destruct (series_max (color_vals "green" _)), (series_min (color_vals "amber" _));
      simpl; split; congruence.
  - destruct (series_max (color_vals "green" _)), (series_max (color_vals "amber" _)),
      (series_min (color_vals "red" _)); simpl; split; congruence.
Qed.

(** X11: a threshold is never invented.  In a frame whose counts are below
    2^53 in size, the amber threshold is the lowest amber count or one more
    than the highest green count, and no amber count lies below it; the red
    threshold is the lowest red count or one more than the highest amber
    count, and no red count lies below it. *)
Theorem thresholds_grounded (df : list (Row (option Z))) (r : Estimate) :
  exact_counts df ->
  In r (analyze_hospital_thresholds df) ->
  (forall a, amber_threshold r = Some a ->
     (SmallestObserved df (AnalyzeBoundaries.hospital r) "amber" a
      \/ exists g, LargestObserved df (AnalyzeBoundaries.hospital r) "green" g
                   /\ a = (g + 1)%Z)
     /\ forall n, Observed df (AnalyzeBoundaries.hospital r) "amber" n -> (a <= n)%Z)
  /\ (forall t, red_threshold r = Some t ->
        (SmallestObserved df (AnalyzeBoundaries.hospital r) "red" t
         \/ exists a, LargestObserved df (AnalyzeBoundaries.hospital r) "amber" a
                      /\ t = (a + 1)%Z)
        /\ forall n, Observed df (AnalyzeBoundaries.hospital r) "red" n -> (t <= n)%Z).
Proof.
  intros Hexact Hin. apply analyze_In in Hin. destruct Hin as [h (_ & _ & Hr)].
  rewrite (hospital_result_hospital _ _ _ Hr).
  destruct (hospital_result_thresholds _ _ _ Hr) as [-> ->]. clear Hr r.
  split.
  - intros a Ha.
    destruct (series_min (color_vals "amber" (dropna (select_hospital h df))))
      as [amin|] eqn:Eamin;
      [|destruct (series_max (color_vals "green" _)); discriminate].
    apply series_min_Smallest in Eamin.
    destruct (series_max (color_vals "green" (dropna (select_hospital h df))))
      as [g|] eqn:Eg; cbn [infer_amber_threshold] in Ha; injection Ha as <-.
    + apply series_max_Largest in Eg.
      rewrite (int64_add_one_exact g (Observed_exact _ _ _ _ Hexact (proj1 Eg))).
      split.
      * destruct (Z.min_spec (g + 1) amin) as [[_ ->]|[_ ->]];
          [right; now exists g | now left].
      * intros n Hn. destruct Eamin as [_ Hlb]. specialize (Hlb n Hn). lia.
    + split; [now left|]. now destruct Eamin.
  - intros t Ht.
    destruct (series_min (color_vals "red" (dropna (select_hospital h df))))
      as [rmin|] eqn:Ermin.
    2:{ destruct (series_max (color_vals "green" _)),
          (series_max (color_vals "amber" _)); discriminate. }
    apply series_min_Smallest in Ermin.
    destruct (series_max (color_vals "amber" (dropna (select_hospital h df))))
      as [a|] eqn:Ea.
    + cbn [infer_red_threshold] in Ht. injection Ht as <-.
      apply series_max_Largest in Ea.
      rewrite (int64_add_one_exact a (Observed_exact _ _ _ _ Hexact (proj1 Ea))).
      split.
      * destruct (Z.min_spec (a + 1) rmin) as [[_ ->]|[_ ->]];
          [right; now exists a | now left].
      * intros n Hn. destruct Ermin as [_ Hlb]. specialize (Hlb n Hn). lia.
    + assert (t = rmin).
      { destruct (series_max (color_vals "green" _));
          cbn [infer_red_threshold] in Ht; congruence. }
      subst t. split; [now left|]. now destruct Ermin.
Qed.

(** X12: the red threshold, spelled out, in a frame whose counts are below
    2^53 in size: with amber and red both seen it is
    min(highest amber + 1, lowest red); with red seen and amber never, it is
    the lowest red count, whatever was seen green. *)
Theorem red_threshold_formula (df : list (Row (option Z))) (r : Estimate) (rmin : Z) :
  exact_counts df ->
  In r (analyze_hospital_thresholds df) ->
  SmallestObserved df (AnalyzeBoundaries.hospital r) "red" rmin ->
  (forall amax, LargestObserved df (AnalyzeBoundaries.hospital r) "amber" amax ->
                red_threshold r = Some (Z.min (amax + 1) rmin))
  /\ ((forall n, ~ Observed df (AnalyzeBoundaries.hospital r) "amber" n) ->
      red_threshold r = Some rmin).
Proof.
  intros Hexact Hin Hrmin. apply analyze_In in Hin. destruct Hin as [h (_ & _ & Hr)].
  rewrite (hospital_result_hospital _ _ _ Hr) in *.
  destruct (hospital_result_thresholds _ _ _ Hr) as [_ ->].
  apply series_min_Smallest in Hrmin. rewrite Hrmin. split.
  - intros amax Ha.
    pose proof (Observed_exact _ _ _ _ Hexact (proj1 Ha)) as Hsmall.
    apply series_max_Largest in Ha. rewrite Ha. cbn [infer_red_threshold].
    now rewrite (int64_add_one_exact amax Hsmall).
  - intros Hno. apply no_observation_iff in Hno. rewrite Hno. simpl.
    now destruct (series_max (color_vals "green" _)).
Qed.

(** *** The order of the rows of the frame does not matter *)

Lemma select_hospital_perm {N : Type} (h : string) (df df' : list (Row N)) :
  Permutation df df' -> Permutation (select_hospital h df) (select_hospital h df').
Proof.
  unfold select_hospital.
  induction 1 as [|x l l' Hp IH|x y l|l l' l'' H1 IH1 H2 IH2]; simpl.
  - constructor.
  - destruct (String.eqb (Frame.hospital x) h); [now apply perm_skip | exact IH].
  - destruct (String.eqb (Frame.hospital x) h), (String.eqb (Frame.hospital y) h);
      try reflexivity. apply perm_swap.
  - now transitivity (filter (fun r => String.eqb (Frame.hospital r) h) l').
Qed.

Lemma dropna_perm (df df' : list (Row (option Z))) :
  Permutation df df' -> Permutation (dropna df) (dropna df').
Proof.
  induction 1 as [|x l l' Hp IH|x y l|l l' l'' H1 IH1 H2 IH2]; simpl.
  - constructor.
  - destruct (total_num x); [now apply perm_skip | exact IH].
  - destruct (total_num x), (total_num y); try reflexivity. apply perm_swap.
  - now transitivity (dropna l').
Qed.

Lemma color_vals_perm (c : string) (l l' : list (Row Z)) :
  Permutation l l' -> Permutation (color_vals c l) (color_vals c l').
Proof.
  intros Hp. unfold color_vals. apply Permutation_map.
  induction Hp as [|x l l' Hp IH|x y l|l l' l'' H1 IH1 H2 IH2]; simpl.
  - constructor.
  - destruct (color_is c (total_color x)); [now apply perm_skip | exact IH].
  - destruct (color_is c (total_color x)), (color_is c (total_color y));
      try reflexivity. apply perm_swap.
  - now transitivity (filter (fun r => color_is c (total_color r)) l').
Qed.

Lemma series_max_perm (l l' : list Z) :
  Permutation l l' -> series_max l = series_max l'.
Proof.
  intros Hp. destruct (series_max l) as [m|] eqn:E, (series_max l') as [m'|] eqn:E'.
  - apply series_max_Some in E, E'. destruct E as [Hin Hub], E' as [Hin' Hub'].
    f_equal. apply Z.le_antisymm.
    + apply Hub'. now apply (Permutation_in _ Hp).
    + apply Hub. now apply (Permutation_in _ (Permutation_sym Hp)).
  - apply series_max_None in E'. subst l'. apply Permutation_sym, Permutation_nil in Hp.
    subst l. discriminate.
  - apply series_max_None in E. subst l. apply Permutation_nil in Hp.
    subst l'. discriminate.
  - reflexivity.
Qed.

Lemma series_min_perm (l l' : list Z) :
  Permutation l l' -> series_min l = series_min l'.
Proof.
  intros Hp. destruct (series_min l) as [m|] eqn:E, (series_min l') as [m'|] eqn:E'.
  - apply series_min_Some in E, E'. destruct E as [Hin Hlb], E' as [Hin' Hlb'].
    f_equal. apply Z.le_antisymm.
    + apply Hlb. now apply (Permutation_in _ (Permutation_sym Hp)).
    + apply Hlb'. now apply (Permutation_in _ Hp).
  - apply series_min_None in E'. subst l'. apply Permutation_sym, Permutation_nil in Hp.
    subst l. discriminate.
  - apply series_min_None in E. subst l. apply Permutation_nil in Hp.
    subst l'. discriminate.
  - reflexivity.
Qed.

Lemma hospital_result_perm (h : string) (df df' : list (Row (option Z))) :
  Permutation df df' -> hospital_result h df = hospital_result h df'.
Proof.
  intros Hp. unfold hospital_result.
  pose proof (dropna_perm _ _ (select_hospital_perm h _ _ Hp)) as Hd.
  destruct (dropna (select_hospital h df)) as [|v l] eqn:E,
           (dropna (select_hospital h df')) as [|v' l'] eqn:E'.
  - reflexivity.
  - apply Permutation_nil in Hd. discriminate.
  - apply Permutation_sym, Permutation_nil in Hd. discriminate.
  - pose proof (color_vals_perm "green" _ _ Hd) as Hg.
    pose proof (color_vals_perm "amber" _ _ Hd) as Ha.
    pose proof (color_vals_perm "red" _ _ Hd) as Hr.
    rewrite (series_max_perm _ _ Hg), (series_min_perm _ _ Hg),
      (series_max_perm _ _ Ha), (series_min_perm _ _ Ha),
      (series_max_perm _ _ Hr), (series_min_perm _ _ Hr),
      (Permutation_length Hg), (Permutation_length Ha), (Permutation_length Hr).
    reflexivity.
Qed.

(** X13: the table of estimates depends on which rows the frame holds, not
    on their order: two frames with the same rows in any order give the same
    table, line for line. *)
Theorem analyze_order_independent (df df' : list (Row (option Z))) :
  Permutation df df' ->
  analyze_hospital_thresholds df = analyze_hospital_thresholds df'.
Proof.
  intros Hp. rewrite !analyze_as_flat_map.
  assert (Hnames : PyStr.sorted (unique String.eqb (map Frame.hospital df))
                   = PyStr.sorted (unique String.eqb (map Frame.hospital df'))).
  { apply sorted_of_perm. apply NoDup_Permutation.
    - apply (unique_NoDup String.eqb String.eqb_eq).
    - apply (unique_NoDup String.eqb String.eqb_eq).
    - intros h. rewrite !(unique_In String.eqb String.eqb_eq). split; intros H.
      + now apply (Permutation_in _ (Permutation_map Frame.hospital Hp)).
      + now apply (Permutation_in _ (Permutation_sym (Permutation_map Frame.hospital Hp))). }
  rewrite Hnames. apply flat_map_ext. intros h. unfold contribution.
  now rewrite (hospital_result_perm h df df' Hp).
Qed.

Lemma analyze_reports_each_hospital_once_witness :
  map AnalyzeBoundaries.hospital
    (analyze_hospital_thresholds MoreScenarios.two_hospitals)
  = ["X"; "Y"]
  /\ NoDup (map AnalyzeBoundaries.hospital
              (analyze_hospital_thresholds MoreScenarios.two_hospitals)).
Proof.
  split; [reflexivity|].
  apply (analyze_reports_each_hospital_once MoreScenarios.two_hospitals).
Defined.

Lemma thresholds_null_iff_witness :
  (amber_threshold
     (mkEstimate "X" (Some 10%Z) (Some 10%Z) 1 (Some 11%Z) (Some 11%Z) 1
        None None 0 (Some 11%Z) None) = None
   <-> forall n, ~ Observed Scenarios.green10_amber11 "X" "amber" n)
  /\ (red_threshold
        (mkEstimate "X" (Some 10%Z) (Some 10%Z) 1 (Some 11%Z) (Some 11%Z) 1
           None None 0 (Some 11%Z) None) = None
      <-> forall n, ~ Observed Scenarios.green10_amber11 "X" "red" n).
Proof.
  apply (thresholds_null_iff Scenarios.green10_amber11
           (mkEstimate "X" (Some 10%Z) (Some 10%Z) 1 (Some 11%Z) (Some 11%Z) 1
              None None 0 (Some 11%Z) None)).
  left. reflexivity.
Defined.

Lemma thresholds_grounded_witness :
  (SmallestObserved Scenarios.green10_amber11 "X" "amber" 11
   \/ exists g, LargestObserved Scenarios.green10_amber11 "X" "green" g
                /\ 11%Z = (g + 1)%Z)
  /\ In (mkEstimate "X" (Some 10%Z) (Some 10%Z) 1 (Some 11%Z) (Some 11%Z) 1
           None None 0 (Some 11%Z) None)
        (analyze_hospital_thresholds Scenarios.green10_amber11).
Proof.
  split; [|left; reflexivity].
  destruct (thresholds_grounded Scenarios.green10_amber11
              (mkEstimate "X" (Some 10%Z) (Some 10%Z) 1 (Some 11%Z) (Some 11%Z) 1
                 None None 0 (Some 11%Z) None)) as [Hamber _].
  - intros r n [<-|[<-|[]]] [= <-]; simpl; lia.
  - left. reflexivity.
  - exact (proj1 (Hamber 11%Z eq_refl)).
Defined.

Lemma red_threshold_formula_witness :
  red_threshold
    (mkEstimate "X" None None 0 (Some 20%Z) (Some 15%Z) 2
       (Some 30%Z) (Some 30%Z) 1 (Some 15%Z) (Some 21%Z))
  = Some (Z.min (20 + 1) 30)
  /\ In (mkEstimate "X" None None 0 (Some 20%Z) (Some 15%Z) 2
           (Some 30%Z) (Some 30%Z) 1 (Some 15%Z) (Some 21%Z))
        (analyze_hospital_thresholds
           (Scenarios.amber_amber_red "X" "01/01/2026" "02/01/2026" "03/01/2026")).
Proof.
  split; [|left; reflexivity].
  assert (Hexact : exact_counts
            (Scenarios.amber_amber_red "X" "01/01/2026" "02/01/2026" "03/01/2026")).
  { intros r n [<-|[<-|[<-|[]]]] [= <-]; simpl; lia. }
  assert (Hred : SmallestObserved
            (Scenarios.amber_amber_red "X" "01/01/2026" "02/01/2026" "03/01/2026")
            "X" "red" 30).
  { split.
    - exists (mkRow "03/01/2026" "X" (Some 30%Z) (Some "red")). simpl. tauto.
    - intros n [r (Hin & _ & Hn & Hc)].
      destruct Hin as [<-|[<-|[<-|[]]]]; simpl in *; try discriminate.
      injection Hn as <-. lia. }
  assert (Hamber : LargestObserved
            (Scenarios.amber_amber_red "X" "01/01/2026" "02/01/2026" "03/01/2026")
            "X" "amber" 20).
  { split.
    - exists (mkRow "02/01/2026" "X" (Some 20%Z) (Some "amber")). simpl. tauto.
    - intros n [r (Hin & _ & Hn & Hc)].
      destruct Hin as [<-|[<-|[<-|[]]]]; simpl in *; try discriminate;
        injection Hn as <-; lia. }
  exact (proj1 (red_threshold_formula _
                  (mkEstimate "X" None None 0 (Some 20%Z) (Some 15%Z) 2
                     (Some 30%Z) (Some 30%Z) 1 (Some 15%Z) (Some 21%Z))
                  30 Hexact (or_introl eq_refl) Hred) 20%Z Hamber).
Defined.

Lemma analyze_order_independent_witness :
  analyze_hospital_thresholds MoreScenarios.two_hospitals
  = analyze_hospital_thresholds (rev MoreScenarios.two_hospitals).
Proof.
  apply analyze_order_independent. apply Permutation_rev.
Defined.

(** *** The edge of int64 *)

(** X14: the sum [green_max + 1] is an int64 sum.  In a frame whose rows
    all hold a number within int64, a hospital whose highest green count is
    2^63 - 1 and that was seen amber gets the amber threshold -2^63: the sum
    wraps, and the wrapped value is below every amber count. *)
Theorem amber_threshold_wraps (df : list (Row (option Z))) (r : Estimate) (amin : Z) :
  (forall row, In row df ->
     exists n, total_num row = Some n /\ (- 2 ^ 63 <= n < 2 ^ 63)%Z) ->
  In r (analyze_hospital_thresholds df) ->
  LargestObserved df (AnalyzeBoundaries.hospital r) "green" (2 ^ 63 - 1) ->
  SmallestObserved df (AnalyzeBoundaries.hospital r) "amber" amin ->
  amber_threshold r = Some (- 2 ^ 63)%Z.
Proof.
  intros Hint Hin Hg Ha. apply analyze_In in Hin. destruct Hin as [h (_ & _ & Hr)].
  rewrite (hospital_result_hospital _ _ _ Hr) in *.
  destruct (hospital_result_thresholds _ _ _ Hr) as [-> _].
  assert (Hamin : (- 2 ^ 63 <= amin)%Z).
  { destruct Ha as [[row (Hrow & _ & Hn & _)] _].
    destruct (Hint row Hrow) as [n [Hn' Hrange]]. rewrite Hn in Hn'.
    injection Hn' as <-. lia. }
  apply series_max_Largest in Hg. apply series_min_Smallest in Ha.
  rewrite Hg, Ha. cbn [infer_amber_threshold]. f_equal.
  change (int64_add (2 ^ 63 - 1) 1) with (- 2 ^ 63)%Z. lia.
Qed.

Lemma amber_threshold_wraps_witness :
  amber_threshold
    (mkEstimate "X" (Some (2 ^ 63 - 1)%Z) (Some (2 ^ 63 - 1)%Z) 1
       (Some 5%Z) (Some 5%Z) 1 None None 0 (Some (- 2 ^ 63)%Z) None)
  = Some (- 2 ^ 63)%Z
  /\ analyze_hospital_thresholds MoreScenarios.int64_edge
     = [ mkEstimate "X" (Some (2 ^ 63 - 1)%Z) (Some (2 ^ 63 - 1)%Z) 1
           (Some 5%Z) (Some 5%Z) 1 None None 0 (Some (- 2 ^ 63)%Z) None ].
Proof.
  split; [|reflexivity].
  apply (amber_threshold_wraps MoreScenarios.int64_edge
           (mkEstimate "X" (Some (2 ^ 63 - 1)%Z) (Some (2 ^ 63 - 1)%Z) 1
              (Some 5%Z) (Some 5%Z) 1 None None 0 (Some (- 2 ^ 63)%Z) None)
           5%Z).
  - intros row [<-|[<-|[]]]; eexists; (split; [reflexivity|]); simpl; lia.
  - left. reflexivity.
  - split.
    + exists (mkRow "01/01/2026" "X" (Some (2 ^ 63 - 1)%Z) (Some "green")).
      simpl. tauto.
    + intros n [row (Hrow & _ & Hn & Hc)].
      destruct Hrow as [<-|[<-|[]]]; simpl in *; [injection Hn as <-; lia | discriminate].
  - split.
    + exists (mkRow "02/01/2026" "X" (Some 5%Z) (Some "amber")). simpl. tauto.
    + intros n [row (Hrow & _ & Hn & Hc)].
      destruct Hrow as [<-|[<-|[]]]; simpl in *; [discriminate | injection Hn as <-; lia].
Defined.

End EstimateFacts.

(* ===================================================================== *)
(** ** The two boundary reports *)
(* ===================================================================== *)

Module BoundaryMore.
Import Frame Spec LoopFacts BoundaryFacts BoundaryRelation.

Lemma filter_flat_map {A B : Type} (p : B -> bool) (f : A -> list B) (l : list A) :
  filter p (flat_map f l) = flat_map (fun x => filter p (f x)) l.
Proof.
  induction l as [|x l IH]; [reflexivity|].
  cbn [flat_map]. now rewrite filter_app, IH.
Qed.

Lemma map_flat_map {A B C : Type} (g : B -> C) (f : A -> list B) (l : list A) :
  map g (flat_map f l) = flat_map (fun x => map g (f x)) l.
Proof.
  induction l as [|x l IH]; [reflexivity|].
  cbn [flat_map]. now rewrite map_app, IH.
Qed.

Lemma color_ne_sym (a b : option string) : color_ne a b = color_ne b a.
Proof. destruct a, b; simpl; try reflexivity. now rewrite String.eqb_sym. Qed.

Lemma unit_steps_of_hospital (h : string) (pairs : list (Row Z * Row Z)) :
  map to_exact
    (filter unit_step
       (map (fun pq => ScrapeColors.boundary_entry h (fst pq) (snd pq))
          (filter (fun pq => color_ne (total_color (fst pq)) (total_color (snd pq)))
             pairs)))
  = if negb (String.eqb h "National Total")
    then map (fun pq => AnalyzeBoundaries.exact_entry h (fst pq) (snd pq))
           (filter (fun pq => AnalyzeBoundaries.is_exact (fst pq) (snd pq)) pairs)
    else [].
Proof.
  induction pairs as [|[a b] pairs IH].
  - simpl. now destruct (negb (String.eqb h "National Total")).
  - cbn [filter fst snd]. unfold AnalyzeBoundaries.is_exact at 1.
    rewrite (color_ne_sym (total_color b)).
    destruct (color_ne (total_color a) (total_color b)) eqn:Hc.
    + cbn [map filter fst snd]. unfold unit_step at 1.
      cbn [ScrapeColors.boundary_entry ScrapeColors.difference ScrapeColors.b_hospital].
      destruct (total_num b - total_num a =? 1)%Z; cbn [andb].
      * destruct (String.eqb h "National Total") eqn:Hh; cbn [negb] in *.
        -- exact IH.
        -- cbn [map]. rewrite IH. reflexivity.
      * exact IH.
    + rewrite andb_false_r. exact IH.
Qed.

(** X15: the exact boundaries of the batch analysis are the entries of the
    inline boundary finder with difference 1, the national total left out,
    in the same order: each as (hospital, from→to, from value, to value,
    proven). *)
Theorem exact_boundaries_are_unit_steps
    (sort_values : list (Row Z) -> list (Row Z)) (df : list (Row (option Z))) :
  AnalyzeBoundaries.find_exact_boundaries sort_values df
  = map to_exact
      (filter unit_step (ScrapeColors.find_color_boundaries sort_values df)).
Proof.
  rewrite find_exact_boundaries_pairs, find_color_boundaries_pairs.
  rewrite filter_flat_map, map_flat_map. unfold analysed_hospitals.
  rewrite <- flat_map_skip. apply flat_map_ext. intros h.
  now rewrite unit_steps_of_hospital.
Qed.

(** *** When nothing is reported *)

Lemma adjacent_same_color (l : list (Row Z)) :
  filter colors_differ (adjacent_pairs l) = [] ->
  forall a b, In a l -> In b l -> total_color a = total_color b.
Proof.
  intros Hnone.
  assert (Hhead : forall x, nth_error l 0 = Some x ->
                            forall a, In a l -> total_color a = total_color x).
  { induction l as [|x l IH]; [intros ? [=]|].
    intros x0 [= <-] a [<-|Ha]; [reflexivity|].
    destruct l as [|y l]; [destruct Ha|].
    rewrite adjacent_pairs_cons in Hnone. cbn [filter] in Hnone.
    destruct (colors_differ (x, y)) eqn:Hc; [discriminate|].
    unfold colors_differ in Hc. cbn [fst snd] in Hc. apply negb_false_iff in Hc.
    apply same_color_true in Hc. rewrite Hc.
    apply (IH Hnone y eq_refl a Ha). }
  intros a b Ha Hb. destruct l as [|x l]; [destruct Ha|].
  rewrite (Hhead x eq_refl a Ha), (Hhead x eq_refl b Hb). reflexivity.
Qed.

Lemma ordered_observations_In (sort_values : list (Row Z) -> list (Row Z))
    (df : list (Row (option Z))) (h : string) (v : Row Z) :
  sort_contract sort_values ->
  (In v (ordered_observations sort_values df h) <-> In v (observations h df)).
Proof.
  intros Hc. unfold ordered_observations.
  destruct (Hc (observations h df)) as [Hp _]. split; intros H.
  - now apply (Permutation_in _ (Permutation_sym Hp)).
  - now apply (Permutation_in _ Hp).
Qed.

Lemma valid_row_observed (df : list (Row (option Z))) (h c : string) (v : Row Z) :
  In v (observations h df) -> total_color v = Some c ->
  Observed df h c (total_num v).
Proof.
  intros Hv Hcol. apply observations_In in Hv.
  destruct Hv as [r (Hr & Hh & Hn & Ev)]. rewrite Ev in Hcol. simpl in Hcol.
  exists r. repeat split; assumption.
Qed.

Lemma observed_valid_row (df : list (Row (option Z))) (h c : string) (n : Z) :
  Observed df h c n ->
  exists v, In v (observations h df)
            /\ total_color v = Some c /\ total_num v = n.
Proof.
  intros [r (Hr & Hh & Hn & Hc)].
  exists (mkRow (date r) h n (total_color r)).
  split; [|split; [exact Hc | reflexivity]].
  apply observations_In. exists r. cbn. repeat split; assumption.
Qed.

(** On a frame whose rows all carry a colour, the inline finder keeps the
    pairs whose colours differ. *)
Lemma find_color_boundaries_colored (sort_values : list (Row Z) -> list (Row Z))
    (df : list (Row (option Z))) :
  sort_contract sort_values ->
  all_colored df ->
  ScrapeColors.find_color_boundaries sort_values df
  = flat_map
      (fun h =>
         map (fun pq => ScrapeColors.boundary_entry h (fst pq) (snd pq))
             (filter colors_differ
                (adjacent_pairs (ordered_observations sort_values df h))))
      (hospitals df).
Proof.
  intros Hs Hcol. rewrite find_color_boundaries_pairs. apply flat_map_ext. intros h.
  apply map_filter_ext_in. intros [p row] Hin. cbn [fst snd].
  apply adjacent_pairs_members in Hin. destruct Hin as [Hp Hrow].
  apply (ordered_observations_colored _ _ _ _ Hs Hcol) in Hp.
  apply (ordered_observations_colored _ _ _ _ Hs Hcol) in Hrow.
  split; [|reflexivity]. unfold colors_differ. cbn [fst snd].
  now apply color_ne_colored.
Qed.

(** X16: on a frame whose rows all carry a colour, the inline boundary
    finder reports nothing exactly when no hospital of the frame has valid
    observations in two different colours; the batch analysis then reports
    nothing either. *)
Theorem no_boundaries_iff_one_color
    (sort_values : list (Row Z) -> list (Row Z)) (df : list (Row (option Z))) :
  sort_contract sort_values ->
  all_colored df ->
  (ScrapeColors.find_color_boundaries sort_values df = [] <-> one_color_each df)
  /\ (one_color_each df ->
      AnalyzeBoundaries.find_exact_boundaries sort_values df = []).
Proof.
  intros Hc Hcol.
  assert (Hall : one_color_each df -> forall h,
             filter colors_differ
               (adjacent_pairs (ordered_observations sort_values df h)) = []).
  { intros Hone h.
    destruct (filter colors_differ
                (adjacent_pairs (ordered_observations sort_values df h)))
      as [|[a b] l] eqn:E; [reflexivity|]. exfalso.
    assert (Hab : In (a, b) (filter colors_differ
                        (adjacent_pairs (ordered_observations sort_values df h))))
      by (rewrite E; now left).
    apply filter_In in Hab. destruct Hab as [Hadj Hdiff].
    apply colors_differ_true in Hdiff. apply Hdiff.
    apply adjacent_pairs_members in Hadj. destruct Hadj as [Ha Hb].
    apply (ordered_observations_In sort_values df h _ Hc) in Ha, Hb.
    pose proof (observations_colored h df a Hcol Ha) as Hca.
    pose proof (observations_colored h df b Hcol Hb) as Hcb.
    destruct (total_color a) as [ca|] eqn:Ea; [|contradiction].
    destruct (total_color b) as [cb|] eqn:Eb; [|contradiction].
    f_equal.
    exact (Hone h ca cb _ _ (valid_row_observed df h ca a Ha Ea)
                            (valid_row_observed df h cb b Hb Eb)). }
  assert (Hcolors : one_color_each df ->
                    ScrapeColors.find_color_boundaries sort_values df = []).
  { intros Hone. rewrite (find_color_boundaries_colored _ _ Hc Hcol).
    induction (hospitals df) as [|h l IH]; [reflexivity|].
    cbn [flat_map]. now rewrite (Hall Hone), IH. }
  split; [split|].
  - rewrite (find_color_boundaries_colored _ _ Hc Hcol).
    intros Hnone h c1 c2 n1 n2 H1 H2.
    assert (Hh : In h (hospitals df)).
    { apply hospitals_In. destruct H1 as [r (Hr & <- & _)]. now apply in_map. }
    assert (Hpairs : filter colors_differ
                       (adjacent_pairs (ordered_observations sort_values df h)) = []).
    { destruct (filter colors_differ
                  (adjacent_pairs (ordered_observations sort_values df h)))
        as [|pq l] eqn:E; [reflexivity|]. exfalso.
      assert (Hin : In (ScrapeColors.boundary_entry h (fst pq) (snd pq))
                      (@nil ScrapeColors.ColorBoundary)).
      { rewrite <- Hnone. apply in_flat_map. exists h. split; [exact Hh|].
        rewrite E. now left. }
      destruct Hin. }
    apply observed_valid_row in H1, H2.
    destruct H1 as [v1 (Hv1 & E1 & _)], H2 as [v2 (Hv2 & E2 & _)].
    assert (E : total_color v1 = total_color v2).
    { apply (adjacent_same_color _ Hpairs);
        now apply (ordered_observations_In sort_values df h _ Hc). }
    congruence.
  - exact Hcolors.
  - intros Hone.
    assert (E : map to_exact
                  (filter unit_step (ScrapeColors.find_color_boundaries sort_values df))
                = []) by now rewrite (Hcolors Hone).
    rewrite <- E.
    rewrite find_exact_boundaries_pairs, find_color_boundaries_pairs.
    rewrite filter_flat_map, map_flat_map. unfold analysed_hospitals.
    rewrite <- flat_map_skip. apply flat_map_ext. intros h.
    now rewrite unit_steps_of_hospital.
Qed.

Lemma no_boundaries_iff_one_color_witness :
  ScrapeColors.find_color_boundaries stable_sort_values MoreScenarios.all_green = []
  /\ AnalyzeBoundaries.find_exact_boundaries stable_sort_values MoreScenarios.all_green
     = [].
Proof.
  assert (Hone : one_color_each MoreScenarios.all_green).
  { intros h c1 c2 n1 n2 [r1 (Hin1 & _ & _ & E1)] [r2 (Hin2 & _ & _ & E2)].
    destruct Hin1 as [<-|[<-|[]]], Hin2 as [<-|[<-|[]]]; simpl in *; congruence. }
  destruct (no_boundaries_iff_one_color stable_sort_values
              MoreScenarios.all_green stable_sort_values_contract) as [Hiff Hexact].
  - intros r [<-|[<-|[]]]; discriminate.
  - split; [exact (proj2 Hiff Hone) | exact (Hexact Hone)].
Defined.

(** *** A row without a colour *)

(** X17: a row whose colour is missing in the file differs from its
    neighbour in the eyes of the batch analysis, even from a neighbour that
    lacks a colour too: two consecutive valid observations one apart are
    reported as an exact boundary as soon as one of them has no colour, the
    missing colour printed as nan. *)
Theorem missing_color_is_reported
    (sort_values : list (Row Z) -> list (Row Z)) (df : list (Row (option Z)))
    (h : string) (a b : Row Z) :
  In h (map Frame.hospital df) ->
  h <> "National Total" ->
  Adjacent (ordered_observations sort_values df h) a b ->
  (total_num b - total_num a = 1)%Z ->
  total_color a = None \/ total_color b = None ->
  In (AnalyzeBoundaries.mkExactBoundary h
        (show_color (total_color a) ++ "→" ++ show_color (total_color b))%string
        (total_num a) (total_num b) true)
     (AnalyzeBoundaries.find_exact_boundaries sort_values df).
Proof.
  intros Hh Hne Hadj Hgap Hmissing.
  rewrite find_exact_boundaries_pairs. apply in_flat_map.
  exists h. split; [now apply analysed_hospitals_In|].
  apply in_map_iff. exists (a, b). split; [reflexivity|].
  apply filter_In. split; [now apply adjacent_pairs_In|].
  cbn [fst snd]. rewrite (is_exact_missing_color a b Hmissing).
  now apply Z.eqb_eq.
Qed.

Lemma missing_color_is_reported_witness :
  AnalyzeBoundaries.find_exact_boundaries stable_sort_values MoreScenarios.no_colors
  = [AnalyzeBoundaries.mkExactBoundary "X" "nan→nan" 10 11 true]
  /\ In (AnalyzeBoundaries.mkExactBoundary "X" "nan→nan" 10 11 true)
        (AnalyzeBoundaries.find_exact_boundaries stable_sort_values
           MoreScenarios.no_colors).
Proof.
  split; [reflexivity|].
  apply (missing_color_is_reported stable_sort_values MoreScenarios.no_colors "X"
           (mkRow "01/01/2026" "X" 10%Z None) (mkRow "02/01/2026" "X" 11%Z None)).
  - now left.
  - discriminate.
  - now exists 0%nat.
  - reflexivity.
  - now left.
Defined.

End BoundaryMore.

(* ===================================================================== *)
(** ** The stores *)
(* ===================================================================== *)

Module StoreFacts.
Import Fetch ScrapeHseData RowStore Spec LoopFacts DailyFacts.

Lemma unique_from_length {A : Type} (eqb : A -> A -> bool) (l seen : list A) :
  (length (unique_from eqb seen l) <= length l)%nat.
Proof.
  revert seen. induction l as [|x l IH]; intros seen; simpl; [lia|].
  destruct (existsb (eqb x) seen); simpl.
  - specialize (IH seen). lia.
  - specialize (IH (x :: seen)). lia.
Qed.

Lemma write_file_other (filename name : string) (df : list (list Value)) (fs : Files) :
  name <> filename -> write_file filename df fs name = fs name.
Proof.
  intros Hne. unfold write_file. apply String.eqb_neq in Hne. now rewrite Hne.
Qed.





(** X18: what [save_to_csv] does to the files, whatever [read_csv] makes of
    a file.  It touches the named file only.  Without [append], or when the
    file is not there yet, the frame is written as it is, repeated rows
    included.  Appending to a file that is there keeps the rows read back in
    place (without their repeats), adds after them the rows of the frame
    that were not among them, once each, and loses no row. *)
Theorem save_to_csv_effect (read_csv : list (list Value) -> list (list Value))
    (df : list DailyRow) (filename : string) (fs : Files) :
  (forall append name,
      name <> filename -> save_to_csv read_csv df filename append fs name = fs name)
  /\ save_to_csv read_csv df filename false fs filename = Some (map cells_of df)
  /\ (fs filename = None ->
      save_to_csv read_csv df filename true fs filename = Some (map cells_of df))
  /\ (forall written,
        fs filename = Some written ->
        exists added,
          save_to_csv read_csv df filename true fs filename
          = Some (drop_duplicates (read_csv written) ++ added)
          /\ NoDup (drop_duplicates (read_csv written) ++ added)
          /\ (forall r, In r added
                        <-> In r (map cells_of df) /\ ~ In r (read_csv written))
          /\ (forall r, In r (drop_duplicates (read_csv written) ++ added)
                        <-> In r (read_csv written) \/ In r (map cells_of df))
          /\ (length added <= length df)%nat).
Proof.
  split; [|split; [|split]].
  - intros append name Hne. unfold save_to_csv.
    destruct append, (fs filename); now apply write_file_other.
  - unfold save_to_csv. destruct (fs filename); apply write_file_same.
  - intros Hnew. now apply save_to_csv_new.
  - intros written Hfile.
    exists (unique_from row_eqb (rev (drop_duplicates (read_csv written)))
              (map cells_of df)).
    rewrite (save_to_csv_existing read_csv df written filename fs Hfile).
    assert (Hsplit : drop_duplicates (read_csv written ++ map cells_of df)
                     = drop_duplicates (read_csv written)
                       ++ unique_from row_eqb (rev (drop_duplicates (read_csv written)))
                            (map cells_of df)).
    { unfold drop_duplicates, unique. rewrite unique_from_app.
      now rewrite app_nil_r. }
    rewrite <- Hsplit.
    split; [reflexivity|]. split; [apply drop_duplicates_NoDup|].
    split; [|split].
    + intros r. rewrite (unique_from_In row_eqb row_eqb_spec).
      rewrite <- in_rev, drop_duplicates_In. tauto.
    + intros r. rewrite drop_duplicates_In, in_app_iff. tauto.
    + rewrite <- (length_map cells_of df). apply unique_from_length.
Qed.

Lemma save_to_csv_effect_witness :
  exists added,
    save_to_csv read_csv_plain
      [Scenarios.daily_row "A" "5"; Scenarios.daily_row "B" "7"] "hse.csv" true
      (write_file "hse.csv" [cells_of (Scenarios.daily_row "A" "5")] (fun _ => None))
      "hse.csv"
    = Some (drop_duplicates (read_csv_plain [cells_of (Scenarios.daily_row "A" "5")])
              ++ added)
    /\ (length added <= 2)%nat.
Proof.
  destruct (save_to_csv_effect read_csv_plain
              [Scenarios.daily_row "A" "5"; Scenarios.daily_row "B" "7"] "hse.csv"
              (write_file "hse.csv" [cells_of (Scenarios.daily_row "A" "5")]
                 (fun _ => None)))
    as (_ & _ & _ & Happend).
  destruct (Happend [cells_of (Scenarios.daily_row "A" "5")] eq_refl)
    as [added (Hsaved & _ & _ & _ & Hlen)].
  exists added. split; [exact Hsaved | exact Hlen].
Defined.

(** *** The daily update *)

Lemma save_to_sqlite_spec (df : list DailyRow) (table : Table) :
  save_to_sqlite df table
  = (Some (rows_of table ++ df), Z.of_nat (length df)).
Proof.
  unfold save_to_sqlite, row_count. destruct table as [rows|]; cbn [rows_of app].
  - f_equal. rewrite length_app. lia.
  - f_equal. lia.
Qed.

(** X19: [save_to_sqlite] appends: the table holds its former rows, then
    the rows of the frame, and the function returns the number of rows of
    the frame; it never looks for rows that are already there, so saving a
    frame twice stores its rows twice. *)
Theorem save_to_sqlite_appends (df : list DailyRow) (table : Table) :
  fst (save_to_sqlite df table) = Some (rows_of table ++ df)
  /\ snd (save_to_sqlite df table) = Z.of_nat (length df)
  /\ fst (save_to_sqlite df (fst (save_to_sqlite df table)))
     = Some (rows_of table ++ df ++ df).
Proof.
  rewrite !save_to_sqlite_spec. cbn [fst snd rows_of].
  now rewrite <- app_assoc.
Qed.



End StoreFacts.


(* ===================================================================== *)
(** ** Requests and date ranges *)
(* ===================================================================== *)

Module FetchFacts.
Import Fetch RowStore Spec Layout.

(** *** The request *)

Lemma append_cancel (p a b : string) : (p ++ a)%string = (p ++ b)%string -> a = b.
Proof. induction p as [|c p IH]; simpl; intros H; [exact H | injection H; auto]. Qed.

Lemma encode_date_no_slash (s : string) : no_slash (encode_date s) = true.
Proof.
  induction s as [|c s IH]; [reflexivity|]. cbn [encode_date].
  destruct (Ascii.eqb c "/") eqn:E.
  - cbn. exact IH.
  - cbn [no_slash]. now rewrite E, IH.
Qed.

Lemma encode_date_injective (s1 s2 : string) :
  no_percent s1 = true -> no_percent s2 = true ->
  encode_date s1 = encode_date s2 -> s1 = s2.
Proof.
  revert s2. induction s1 as [|c1 s1 IH]; intros [|c2 s2] H1 H2 He.
  - reflexivity.
  - cbn [encode_date] in He. destruct (Ascii.eqb c2 "/"); discriminate.
  - cbn [encode_date] in He. destruct (Ascii.eqb c1 "/"); discriminate.
  - cbn [no_percent] in H1, H2.
    apply andb_true_iff in H1, H2. destruct H1 as [Hc1 H1], H2 as [Hc2 H2].
    apply negb_true_iff in Hc1, Hc2.
    cbn [encode_date] in He.
    destruct (Ascii.eqb c1 "/") eqn:E1, (Ascii.eqb c2 "/") eqn:E2.
    + apply Ascii.eqb_eq in E1, E2. subst. f_equal.
      apply IH; try assumption. now apply (append_cancel "%2F").
    + cbn in He. injection He as Hc _. subst c2. discriminate.
    + cbn in He. injection He as Hc _. subst c1. discriminate.
    + injection He as -> He. f_equal. now apply IH.
Qed.

(** X21: the address requested for a date has no slash in its date part,
    and two dates without a percent sign (as every 'DD/MM/YYYY' is) are
    asked for at different addresses unless they are the same date. *)
Theorem tgar_url_distinguishes_dates (d1 d2 : string) :
  no_slash (encode_date d1) = true
  /\ (no_percent d1 = true -> no_percent d2 = true ->
      d1 <> d2 -> tgar_url d1 <> tgar_url d2).
Proof.
  split; [apply encode_date_no_slash|].
  intros H1 H2 Hne Hu. apply Hne. unfold tgar_url in Hu. apply append_cancel in Hu.
  now apply encode_date_injective.
Qed.

Lemma tgar_url_distinguishes_dates_witness :
  tgar_url "05/01/2026" = "https://uec.hse.ie/uec/TGAR.php?EDDATE=05%2F01%2F2026"
  /\ tgar_url "05/01/2026" <> tgar_url "06/01/2026".
Proof.
  split; [reflexivity|].
  apply (proj2 (tgar_url_distinguishes_dates "05/01/2026" "06/01/2026"));
    [reflexivity | reflexivity | discriminate].
Defined.

(** *** The range of get_colors/scrape_colors.py *)

Lemma colors_range_loop_spec (fuel : nat)
    (scrape : string -> Outcome (option (list ScrapeColors.ColorRecord)))
    (strftime : nat -> string) (current end_ : nat)
    (all_data : list (list ScrapeColors.ColorRecord)) :
  (S end_ - current <= fuel)%nat ->
  colors_range_loop fuel scrape strftime current end_ all_data
  = all_data ++ flat_map (colors_frames_of scrape strftime)
                  (seq current (S end_ - current)).
Proof.
  revert current all_data. induction fuel as [|fuel IH]; intros current all_data Hf.
  - replace (S end_ - current)%nat with 0%nat by lia. simpl. now rewrite app_nil_r.
  - cbn [colors_range_loop]. destruct (current <=? end_)%nat eqn:E.
    + apply Nat.leb_le in E. rewrite IH by lia.
      replace (S end_ - current)%nat with (S (S end_ - S current)) by lia.
      cbn [seq flat_map]. unfold colors_frames_of at 2.
      destruct (scrape (strftime current)) as [|[df|]];
        now rewrite <- ?app_assoc, ?app_nil_r.
    + apply Nat.leb_gt in E.
      replace (S end_ - current)%nat with 0%nat by lia. simpl. now rewrite app_nil_r.
Qed.

Lemma colors_frame_dates (fetch : string -> Outcome (option (list Cell)))
    (strftime : nat -> string) (day : nat) (df : list ScrapeColors.ColorRecord)
    (r : ScrapeColors.ColorRecord) :
  In df (colors_frames_of (scrape_with_colors_v2_io fetch) strftime day) ->
  In r df -> ScrapeColors.date r = strftime day.
Proof.
  unfold colors_frames_of, scrape_with_colors_v2_io.
  destruct (fetch (tgar_url (strftime day))) as [|table]; [intros []|].
  destruct (ScrapeColors.scrape_with_colors_v2 (strftime day) table)
    as [records|] eqn:E; [|intros []].
  intros [<-|[]] Hr. unfold ScrapeColors.scrape_with_colors_v2 in E.
  destruct table as [all_cells|]; [|discriminate].
  destruct (RecordFacts.v2_loop_records (length all_cells) (strftime day)
              all_cells 0 []) as [more (Hd & Hok & _)]; [lia|].
  rewrite Hd in E. cbn [app] in E. destruct more as [|r0 more]; [discriminate|].
  injection E as <-. rewrite Forall_forall in Hok. now apply Hok.
Qed.

(** X22: [scrape_date_range] of the colour survey visits the days from
    [start] to [end_] in order, once each; a day whose request raises, or
    whose page gives no record, is passed over and the frames of the other
    days are kept; the result is their concatenation, or [None] when no day
    gave a frame (as when [end_] is before [start]).  Every record of the
    result is dated with a day of the range. *)
Theorem colors_scrape_date_range_spec
    (fetch : string -> Outcome (option (list Cell)))
    (strftime : nat -> string) (start end_ : nat) :
  colors_scrape_date_range fetch strftime start end_
  = match flat_map (colors_frames_of (scrape_with_colors_v2_io fetch) strftime)
            (seq start (S end_ - start)) with
    | [] => None
    | all_data => Some (concat all_data)
    end
  /\ ((end_ < start)%nat ->
      colors_scrape_date_range fetch strftime start end_ = None)
  /\ (forall records r,
        colors_scrape_date_range fetch strftime start end_ = Some records ->
        In r records ->
        exists day, (start <= day <= end_)%nat
                    /\ ScrapeColors.date r = strftime day).
Proof.
  assert (Hspec : colors_scrape_date_range fetch strftime start end_
                  = match flat_map (colors_frames_of (scrape_with_colors_v2_io fetch)
                                      strftime) (seq start (S end_ - start)) with
                    | [] => None
                    | all_data => Some (concat all_data)
                    end).
  { unfold colors_scrape_date_range.
    rewrite colors_range_loop_spec by lia. reflexivity. }
  split; [exact Hspec|]. split.
  - intros Hlt. rewrite Hspec.
    replace (S end_ - start)%nat with 0%nat by lia. reflexivity.
  - intros records r Hres Hr. rewrite Hspec in Hres.
    destruct (flat_map _ _) as [|f fs] eqn:E; [discriminate|].
    injection Hres as <-. change (In r (concat (f :: fs))) in Hr.
    apply in_concat in Hr. destruct Hr as [df [Hdf Hr]].
    rewrite <- E in Hdf. apply in_flat_map in Hdf. destruct Hdf as [day [Hday Hdf]].
    apply in_seq in Hday. exists day. split; [lia|].
    exact (colors_frame_dates fetch strftime day df r Hdf Hr).
Qed.

(** X23: ranging over [start..end_] is ranging over [start..mid] and then
    over [mid+1..end_]: the records of the first part come first, those of
    the second after. *)
Theorem colors_scrape_date_range_split
    (fetch : string -> Outcome (option (list Cell)))
    (strftime : nat -> string) (start mid end_ : nat) :
  (start <= mid)%nat -> (mid <= end_)%nat ->
  let records_of := fun result : option (list ScrapeColors.ColorRecord) =>
                      match result with Some records => records | None => [] end in
  records_of (colors_scrape_date_range fetch strftime start end_)
  = records_of (colors_scrape_date_range fetch strftime start mid)
    ++ records_of (colors_scrape_date_range fetch strftime (S mid) end_).
Proof.
  intros H1 H2 records_of.
  assert (Hrec : forall a b,
             records_of (colors_scrape_date_range fetch strftime a b)
             = concat (flat_map (colors_frames_of (scrape_with_colors_v2_io fetch)
                                   strftime) (seq a (S b - a)))).
  { intros a b. unfold colors_scrape_date_range.
    rewrite colors_range_loop_spec by lia. cbn [app].
    now destruct (flat_map _ _). }
  rewrite !Hrec.
  replace (S end_ - start)%nat with ((S mid - start) + (S end_ - S mid))%nat by lia.
  rewrite seq_app, flat_map_app, concat_app.
  now replace (start + (S mid - start))%nat with (S mid) by lia.
Qed.

(** *** The range of old_code/scrape_hse_data.py *)

Lemma daily_range_loop_spec (fuel : nat)
    (scrape : string -> Outcome (ScrapeHseData.ScrapeError + list ScrapeHseData.DailyRow))
    (strftime : nat -> string) (current end_ : nat)
    (all_dfs : list (list ScrapeHseData.DailyRow)) :
  (S end_ - current <= fuel)%nat ->
  daily_range_loop fuel scrape strftime current end_ all_dfs
  = all_dfs ++ flat_map (daily_frames_of scrape strftime)
                 (seq current (S end_ - current)).
Proof.
  revert current all_dfs. induction fuel as [|fuel IH]; intros current all_dfs Hf.
  - replace (S end_ - current)%nat with 0%nat by lia. simpl. now rewrite app_nil_r.
  - cbn [daily_range_loop]. destruct (current <=? end_)%nat eqn:E.
    + apply Nat.leb_le in E. rewrite IH by lia.
      replace (S end_ - current)%nat with (S (S end_ - S current)) by lia.
      cbn [seq flat_map]. unfold daily_frames_of at 2.
      destruct (scrape (strftime current)) as [|[e|df]];
        now rewrite <- ?app_assoc, ?app_nil_r.
    + apply Nat.leb_gt in E.
      replace (S end_ - current)%nat with 0%nat by lia. simpl. now rewrite app_nil_r.
Qed.

(** X24: [scrape_date_range] of the daily scraper visits the days of the
    range in order; days whose request raises or whose page has no table or
    no master row are passed over.  If no day gives a frame nothing is
    returned and the table is left as it was; otherwise the concatenation is
    returned and appended to the table in one go, after the rows already
    there.  Every row returned reports a day of the range. *)
Theorem daily_scrape_date_range_spec
    (fetch : string -> Outcome (option (list (list Cell))))
    (now_at : string -> string) (strftime : nat -> string) (start end_ : nat)
    (table : Table) :
  let scrape := fun date_str =>
                  scrape_hse_trolleygar_io fetch (now_at date_str) date_str in
  let all_dfs := flat_map (daily_frames_of scrape strftime)
                   (seq start (S end_ - start)) in
  daily_scrape_date_range fetch now_at strftime start end_ table
  = match all_dfs with
    | [] => (None, table)
    | _ => (Some (concat all_dfs), Some (rows_of table ++ concat all_dfs))
    end
  /\ (forall r, In r (concat all_dfs) ->
                exists day, (start <= day <= end_)%nat
                            /\ ScrapeHseData.report_date r = strftime day
                            /\ ScrapeHseData.scrape_date r = now_at (strftime day)).
Proof.
  intros scrape all_dfs. split.
  - unfold daily_scrape_date_range. fold scrape.
    rewrite daily_range_loop_spec by lia. cbn [app]. fold all_dfs.
    destruct all_dfs; [reflexivity|].
    now rewrite StoreFacts.save_to_sqlite_spec.
  - intros r Hr. apply in_concat in Hr. destruct Hr as [df [Hdf Hr]].
    unfold all_dfs in Hdf. apply in_flat_map in Hdf.
    destruct Hdf as [day [Hday Hdf]]. apply in_seq in Hday.
    exists day. split; [lia|].
    unfold daily_frames_of, scrape, scrape_hse_trolleygar_io in Hdf.
    destruct (fetch (tgar_url (strftime day))) as [|tbl]; [destruct Hdf|].
    destruct (ScrapeHseData.scrape_hse_trolleygar (now_at (strftime day))
                (strftime day) tbl) as [e|rows] eqn:E; [destruct Hdf|].
    destruct Hdf as [<-|[]].
    unfold ScrapeHseData.scrape_hse_trolleygar in E.
    destruct tbl as [trs|]; [|discriminate].
    destruct (ScrapeHseData.find_master_row trs) as [data_row|]; [|discriminate].
    injection E as <-. unfold ScrapeHseData.decode_row in Hr.
    destruct (RecordFacts.daily_loop_records (length data_row)
                (now_at (strftime day)) (strftime day) data_row 0 [])
      as [more (Hd & Hok & _)]; [lia|].
    rewrite Hd in Hr. cbn [app] in Hr. rewrite Forall_forall in Hok.
    destruct (Hok r Hr) as (Hrep & Hscr & _). now split.
Qed.

Lemma colors_scrape_date_range_spec_witness :
  exists records,
    colors_scrape_date_range MoreScenarios.january_pages MoreScenarios.january 4 6
    = Some records
    /\ length records = 2%nat
    /\ exists day, (4 <= day <= 6)%nat
                   /\ "05/01/2026" = MoreScenarios.january day.
Proof.
  eexists. split; [reflexivity|]. split; [reflexivity|].
  destruct (colors_scrape_date_range_spec MoreScenarios.january_pages
              MoreScenarios.january 4 6) as (_ & _ & Hdates).
  destruct (Hdates _ _ eq_refl (or_introl eq_refl)) as [day [Hday Hdate]].
  exists day. split; [exact Hday | exact Hdate].
Defined.

Lemma colors_scrape_date_range_split_witness :
  match colors_scrape_date_range MoreScenarios.january_pages MoreScenarios.january 4 6 with
  | Some records => records
  | None => []
  end
  = match colors_scrape_date_range MoreScenarios.january_pages MoreScenarios.january 4 4 with
    | Some records => records
    | None => []
    end
    ++ match colors_scrape_date_range MoreScenarios.january_pages MoreScenarios.january 5 6 with
       | Some records => records
       | None => []
       end.
Proof.
  apply (colors_scrape_date_range_split MoreScenarios.january_pages
           MoreScenarios.january 4 4 6); lia.
Defined.

End FetchFacts.

(* ===================================================================== *)
(** ** The hover callback *)
(* ===================================================================== *)

Module DashFacts.
Import Fetch DashApp.

Lemma dict_get_set_same (d : Dict) (k v : string) :
  dict_get (dict_set d k v) k = Some v.
Proof.
  induction d as [|[k' v'] d IH]; simpl.
  - now rewrite String.eqb_refl.
  - destruct (String.eqb k k') eqn:E; simpl.
    + now rewrite String.eqb_refl.
    + now rewrite E.
Qed.

Lemma dict_get_set_other (d : Dict) (k k0 v : string) :
  k0 <> k -> dict_get (dict_set d k v) k0 = dict_get d k0.
Proof.
  intros Hne. induction d as [|[k' v'] d IH]; simpl.
  - apply String.eqb_neq in Hne. now rewrite Hne.
  - destruct (String.eqb k k') eqn:E; simpl.
    + apply String.eqb_eq in E. subst k'.
      apply String.eqb_neq in Hne. now rewrite Hne.
    + destruct (String.eqb k0 k'); [reflexivity | exact IH].
Qed.

Lemma reverse_dict_fold (d acc : Dict) (k v : string) :
  In (k, v) d ->
  NoDup (map snd d) ->
  dict_get (fold_left (fun acc kv => dict_set acc (snd kv) (fst kv)) d acc) v
  = Some k.
Proof.
  revert acc. induction d as [|[k' v'] d IH]; intros acc Hin Hnd; [destruct Hin|].
  cbn [fold_left fst snd]. cbn [map snd] in Hnd.
  inversion Hnd as [|? ? Hv' Hnd']; subst.
  destruct Hin as [[= -> ->]|Hin].
  - clear IH. assert (Hkeep : forall d0 acc0,
                ~ In v (map snd d0) ->
                dict_get (fold_left (fun acc kv => dict_set acc (snd kv) (fst kv))
                            d0 acc0) v
                = dict_get acc0 v).
    { induction d0 as [|[k1 v1] d0 IH0]; intros acc0 Hn; [reflexivity|].
      cbn [fold_left fst snd]. rewrite IH0.
      - apply dict_get_set_other. intros ->. apply Hn. now left.
      - intros H. apply Hn. now right. }
    rewrite (Hkeep d _ Hv'). apply dict_get_set_same.
  - now apply IH.
Qed.

Lemma reverse_dict_only_values (d : Dict) (v : string) :
  ~ In v (map snd d) -> dict_get (reverse_dict d) v = None.
Proof.
  unfold reverse_dict.
  assert (H : forall acc, dict_get acc v = None -> ~ In v (map snd d) ->
              dict_get (fold_left (fun acc kv => dict_set acc (snd kv) (fst kv)) d acc) v
              = None).
  { induction d as [|[k1 v1] d IH]; intros acc Hacc Hn; [exact Hacc|].
    cbn [fold_left fst snd]. apply IH.
    - rewrite dict_get_set_other; [exact Hacc|]. intros ->. apply Hn. now left.
    - intros Hin. apply Hn. now right. }
  now apply H.
Qed.

(** X25: the hover callback inverts [name_map]: hovering the map region
    that [name_map] gives for a region of the table highlights the line of
    that region and no other; hovering anything else, or nothing,
    highlights no line. *)
Theorem highlight_row_inverts_name_map :
  highlight_row None = Returned []
  /\ (forall region geojson_name more,
        In (region, geojson_name) name_map ->
        highlight_row (Some (Some geojson_name :: more))
        = Returned [ {| filter_query :=
                          ("{Region} = " ++ dquote ++ region ++ dquote)%string;
                        backgroundColor := "#ffffcc" |} ])
  /\ (forall location more,
        ~ In location (map snd name_map) ->
        highlight_row (Some (Some location :: more)) = Returned []).
Proof.
  split; [reflexivity|]. split.
  - intros region geojson_name more Hin.
    unfold highlight_row, reverse_name_map, reverse_dict.
    rewrite (reverse_dict_fold name_map [] region geojson_name Hin).
    + assert (Ht : PyStr.truthy region = true).
      { cbn in Hin.
        repeat (destruct Hin as [[= <- _]|Hin]; [reflexivity|]). destruct Hin. }
      now rewrite Ht.
    + cbn. repeat constructor; cbn; intuition discriminate.
  - intros location more Hn. unfold highlight_row, reverse_name_map.
    now rewrite (reverse_dict_only_values name_map location Hn).
Qed.

Lemma highlight_row_inverts_name_map_witness :
  highlight_row (Some [Some "HSE Midwest HR"])
  = Returned [ {| filter_query := ("{Region} = " ++ dquote ++ "HSE Mid West" ++ dquote)%string;
                  backgroundColor := "#ffffcc" |} ]
  /\ highlight_row (Some [Some "Atlantis"]) = Returned [].
Proof.
  destruct highlight_row_inverts_name_map as (_ & Hknown & Hunknown).
  split.
  - apply (Hknown "HSE Mid West" "HSE Midwest HR" []).
    cbn. tauto.
  - apply (Hunknown "Atlantis" []). cbn. intuition discriminate.
Defined.

End DashFacts.
